(* ===== verification/_CoqProject ===== *)
-Q . S2P
Prelude.v
Shape.v
NumpyOps.v
Axis.v
Kernels.v
FastStat.v
Zscore.v
EnginePaths.v
Scenarios.v
Lifecycle.v
KeepKernel.v
Percentile.v
Std2.v
NanPercentile2.v
