(* ===== verification/Prelude.v ===== *)
(** * A verification development of faststats (landoskape/faststats)

    faststats accelerates NumPy statistical reductions (sum, mean, std,
    percentile, ..., z-score) over an arbitrary set of axes of an
    N-dimensional array.  Its interesting part is the shape and axis
    algebra that lets one row kernel serve every axis combination.

    ** The program and how its parts interact

    - [src/_old_faststats/faststats.py], function [faststat]: the
      generic engine.  It validates the array and the axis argument,
      falls back to NumPy when [axis] is [None], looks the method
      up in [_method_lookup], asserts that [q] is given for the
      percentile/quantile family, moves the reduced axes to the end
      ([np.moveaxis]), flattens to a [(rows, num_reduce)] matrix
      ([np.reshape]), runs the per-row numba kernel, and reshapes the
      result, or for the z-score family moves the axes back.  The
      eighteen wrappers [sum] ... [nan_zscore] route to it.
    - [src/faststats/numba/percentile.py]: [get_percentile] dispatches a
      tuple of kept axes to one of 30 specialised loop kernels
      [numba_percentile_keep*].  Each kernel loops over the kept axes and
      calls [np.percentile] on the slice of the remaining axes.
    - [src/faststats2/numba/std.py] and [nanpercentile.py]: the same
      design in the second version of the library, where [get_std] and
      [get_nanpercentile] compute the kept axes with
      [routing.get_keep_axes].  Each has a table of 14 kernels.

    The utilities [_check_axis], [_get_result_shape], [_numpy_fallback],
    [_get_numpy_method], [_quantile_is_valid], [_percentile_is_valid],
    the row kernels of [_numba] and [routing.get_keep_axes] are not
    under [src/].  They are modelled from the specification and marked
    as such in the manifest.

    ** Files, in dependency order

    - [Prelude] (this file): the Python error kinds, the result monad
      [res] with its notation in [fs_scope], [np_prod], the hint
      databases [fs] and [fs_rw], and generic list lemmas.
    - [Shape]: N-dimensional arrays as a shape plus a row-major buffer.
      Holds [ravel], the row-major enumeration [indices] of
      multi-indices, [tabulate], and element access [get].  Proves the
      row-major laws: enumeration is a bijection onto [0, size),
      [indices_app], and row chunking.
    - [NumpyOps]: the NumPy primitives the program calls, following
      NumPy's own algorithms.  These are [normalize_axis_index] and
      [normalize_axis_tuple], [np_transpose], [np_moveaxis] (with the
      sorted-insertion construction of the axis order), [np_reshape]
      (with the one-unknown-dimension rule) and basic indexing
      [np_index].
    - [Axis]: the axis argument (None, int or tuple), [_check_axis],
      [_numpy_fallback], [_get_result_shape], [get_keep_axes], and the
      kept and reduced axis lists.
    - [Kernels]: the closed method enumeration, [_method_lookup],
      [_requires_q], [_noreduction], and the typeclass [StatKernels].
      That class is the interface through which every component calls
      a statistic on a 1-D group.
    - [FastStat]: [faststat] and its wrappers, the reference reduction
      [reference_reduce] and the reference elementwise result
      [reference_transform], and the theorems on the reduction path.
    - [Zscore]: the elementwise path of [faststat] ([zscore],
      [nan_zscore]).
    - [EnginePaths]: the error paths, the [axis=None] fallback and the
      validation done by the [q] wrappers.
    - [Scenarios]: the concrete scenarios of spec section 8, for every
      array of the given shape and every kernel set.
    - [Lifecycle]: [faststat] cut into the phases of the
      specification's state machine.  [step] runs one phase, [fstep]
      is the step relation, and [run] is the machine with fuel.  Holds
      the invariants of the reachable states, and the fact that
      [run 5] on a call returns [faststat]'s result.
    - [KeepKernel]: the loop-kernel schema shared by the specialised
      kernels, the canonical slice pattern, and its refinement of the
      reference reduction.
    - [Percentile], [Std2], [NanPercentile2]: the specialised kernels
      and dispatchers of the three kernel files.

    ** What the theorems show (claim ids of the manifest)

    - Row-major algebra (Shape, Axis): enumeration and [ravel] are
      inverse, splitting a shape splits the enumeration, and filtering
      the enumeration by kept coordinates is the merge of kept and
      reduced indices ([filter_indices_merge]).
    - NumPy (NumpyOps, Axis): moving distinct axes to the trailing
      positions yields the order [kept ++ moved]
      ([moveaxis_order_trailing]).  A transposed array reads its
      source at the unpermuted index.
    - Engine (FastStat).
      - C1: on every reducing call with a strictly increasing axis
        tuple, [faststat] returns [reference_reduce] in the shape
        [_get_result_shape].
      - C2: for a tuple in any order, the same holds for statistics
        that ignore the order of a group (an instance of the class
        [OrderFreeStats]: [stat m q] is [Proper] for [≡ₚ]).  Each row is
        a permutation of its group ([row_perm_group]).  Setoid
        rewriting then closes the proof.
      - C3: for the z-score family along the last axis, [faststat]
        returns [reference_transform].
      - C4: along axis 1 of any array of rank [>= 2], it returns the
        kernel result in the moved layout [(kept axes..., axis 1)]
        read back with the input's shape, because the move back acts
        on the two-dimensional result and moves nothing.  For rank
        [>= 3] this misplaces elements.
      - C5: with an axis [>= 2] it raises [AxisError].
      - C28: on a matrix and [axis=0] it is correct, because the move
        back is then a transposition of the kernel result.
      - C10-C14 cover the remaining paths:
        - [q] is ignored by the other methods;
        - the [axis=None] fallback ignores [keepdims];
        - a missing [q] fails the assertion;
        - an unknown method raises [ValueError];
        - a zero-length reduced axis makes the reshape raise.
      - C16: the [percentile] wrapper validates [q] first, then
        reduces.
    - Lifecycle (Lifecycle).
      - C18: [faststat] never raises [IndexError] or [TypingError].
      - C21: the row kernel runs only after every check of
        [Validating] has passed on the unchanged call (fail-fast
        order).  The invariant is [inv_call].
      - C29: the kernel always receives a [(size / num_reduce,
        num_reduce)] matrix, with [num_reduce] positive and dividing
        the size (invariant [inv_rows]).
    - Result shape (EnginePaths).  C22: a successful call has the
      input shape for the elementwise methods, [_get_result_shape]
      for a reduction over an axis, and a 0-d shape on the [axis=None]
      fallback.
    - Empty boundary (EnginePaths).  C30: a kept axis of length zero
      gives an empty result of shape [_get_result_shape], not an
      error.
    - Axis validation (EnginePaths).  C25: an empty tuple, an axis
      outside [-ndim, ndim), or a repeated axis raises [ValueError]
      for every method.
    - Scenarios (Scenarios).  C23, C24: the two concrete scenarios of
      spec 8.  [mean] over axis 1 of a [(2, 3, 4)] array gives
      [output[i, k] = mean(input[i, :, k])].  [sum] over [(0, 2)] with
      [keepdims] gives shape [(1, 3, 1)].
    - Wrappers (EnginePaths).
      - C20: whenever a percentile or quantile wrapper returns, every
        [q] value was in its range.
      - C26: each reducing wrapper without [q] routes to its own
        kernel and returns that kernel's reference reduction.
    - Kernel table (Kernels).  C17: [_method_lookup] and the
      registered names are inverse.
    - Specialised kernels (KeepKernel, Std2, Percentile,
      NanPercentile2).  A loop kernel with the canonical subscript of
      its kept axes computes the reference reduction over the other
      axes ([loop_kernel_canon]).
      - C6: [get_std] therefore agrees with [faststat(..., "std", ...)]
        on its table.
      - C7: it raises [ValueError] outside the table.
      - C27: for order-free statistics the agreement holds for axis
        tuples in any order.
      - C19: it never raises [IndexError].
      - C8, C9: [get_percentile] and [get_nanpercentile] never return
        an array.  Their kernels call [np.percentile(data[..., q])]
        without [q], which numba's typing rejects.
      - C15: the percentile table holds every non-empty proper subset
        of the axes of a rank-5 array.

    ** Modelling choices and bounds

    Array elements have an abstract type [A] (an [Inhabited] type, so
    the buffer can be read with [!!!]).  The statistics are the
    operations of the class [StatKernels]; their numeric definitions
    are external collaborators in the specification.  Shapes and
    indices are [nat], and Python integers ([axis], [q] used as an
    index) are [Z] with Python's negative-index rule.  No fuel is
    needed: every recursion is structural on a list or on the row
    count.  The phase machine of [Lifecycle] is run with fuel 5: a call
    takes at most five steps, one from each of [Validating],
    [Planning], [Dispatching], [Reducing] and [Reshaping], to a final
    state), and [run_faststat] shows that [run 5]
    returns [faststat]'s result on every call.
    numba's compile-time typing of a kernel (the arity of the
    NumPy call, constant indices into [data.shape], the number of
    subscripts against the rank) is checked before any iteration and
    raises [TypingError].

    Not modelled:
    - the floating-point arithmetic of the kernels;
    - NaN handling inside the kernels;
    - numba's runtime: [prange] threads, caching and [fastmath]
      reassociation.  Each [prange] iteration of a specialised kernel
      writes the one output cell named by its own loop indices, so
      [loop_kernel] models the loop nest as the row-major map over the
      kept indices;
    - module and packaging plumbing;
    - a [q] with several values: [stat] returns one value per group.
      The specification leaves the output layout of a vector [q] open
      (spec 9).
    [utils], [routing] and [_numba] are not under [src/].  Their
    operations ([_check_axis], [_get_result_shape], [_numpy_fallback],
    [_get_numpy_method], the [q] validators, [get_keep_axes] and the
    row kernels) are modelled from the specification.  NumPy's
    [moveaxis], [transpose], [reshape] and basic indexing are modelled
    from NumPy's algorithms.  Every line of the four source files is
    mapped except imports and comments. *)

From stdpp Require Export base list sets sorting.
From Stdlib Require Export Lia ArithRing.

Declare Scope fs_scope.
Delimit Scope fs_scope with fs.
Open Scope fs_scope.

(** ** Python exceptions raised along the modelled paths *)
Inductive pyerr :=
  | TypeError        (** non-array input, non-integer shape entries *)
  | ValueError       (** invalid axis, unknown method, bad reshape, bad q *)
  | AssertionError   (** [assert q is not None] *)
  | AxisError        (** NumPy's [normalize_axis_index] out of range *)
  | IndexError       (** integer indexing out of bounds, too many indices *)
  | TypingError.     (** numba's [TypingError] when a kernel is compiled *)

#[export] Instance pyerr_eq_dec : EqDecision pyerr.
Proof. solve_decision. Defined.

(** ** The result monad: a Python call returns a value or raises *)
Inductive res (T : Type) :=
  | Ok (v : T)
  | Err (e : pyerr).
Arguments Ok {T} v.
Arguments Err {T} e.

Definition res_bind {T U} (c : res T) (k : T -> res U) : res U :=
  match c with
  | Ok v => k v
  | Err e => Err e
  end.

Notation "x <- c ;; k" := (res_bind c (fun x => k))
  (at level 60, c at next level, right associativity) : fs_scope.
Notation "'assert!' b 'else' e ;; k" := (if b then k else Err e)
  (at level 60, b at next level, e at next level, right associativity)
  : fs_scope.

(** [mapM] in the result monad: the first error, in list order, wins. *)
Fixpoint res_mapM {T U} (f : T -> res U) (l : list T) : res (list U) :=
  match l with
  | [] => Ok []
  | x :: l' => y <- f x ;; ys <- res_mapM f l' ;; Ok (y :: ys)
  end.

(** [np.prod] of a list of dimensions (the empty product is 1). *)
Definition np_prod (l : list nat) : nat := foldr Nat.mul 1 l.

(** All subsequences of a list, the ones containing the head first. *)
Fixpoint subseqs {T} (l : list T) : list (list T) :=
  match l with
  | [] => [[]]
  | x :: l' => map (cons x) (subseqs l') ++ subseqs l'
  end.

Create HintDb fs.
Create Rewrite HintDb fs_rw.

(** ** Generic lemmas *)

Lemma res_bind_Ok {T U} (v : T) (k : T -> res U) : res_bind (Ok v) k = k v.
Proof. reflexivity. Qed.

Lemma res_bind_Err {T U} (e : pyerr) (k : T -> res U) :
  res_bind (Err e) k = Err e.
Proof. reflexivity. Qed.

Lemma res_mapM_Ok {T U} (f : T -> U) (l : list T) :
  res_mapM (fun x => Ok (f x)) l = Ok (map f l).
Proof. induction l as [|x l IH]; simpl; [done|]. by rewrite IH. Qed.

Lemma res_mapM_ext {T U} (f g : T -> res U) (l : list T) :
  (forall x, x ∈ l -> f x = g x) -> res_mapM f l = res_mapM g l.
Proof.
  induction l as [|x l IH]; intros Hfg; simpl; [done|].
  rewrite Hfg by set_solver. by rewrite IH by set_solver.
Qed.

Lemma np_prod_app l1 l2 : np_prod (l1 ++ l2) = np_prod l1 * np_prod l2.
Proof. induction l1 as [|d l1 IH]; simpl; [lia|]. rewrite IH. lia. Qed.

Lemma np_prod_cons d l : np_prod (d :: l) = d * np_prod l.
Proof. reflexivity. Qed.

Lemma np_prod_pos l : Forall (fun d => 0 < d) l -> 0 < np_prod l.
Proof. induction 1; simpl; [lia|]. nia. Qed.

(** [np.prod] does not depend on the order of the dimensions. *)
#[export] Instance np_prod_perm : Proper ((≡ₚ) ==> (=)) np_prod.
Proof.
  intros l l' Hp. unfold np_prod. induction Hp as [| | |? ? ? _ IH1 _ IH2]; simpl;
    [done|by f_equal|ring|by rewrite IH1, IH2].
Qed.

Lemma np_prod_zero l : 0 ∈ l -> np_prod l = 0.
Proof.
  induction l as [|d l IH]; intros Hin; [set_solver|].
  apply elem_of_cons in Hin as [<-|Hin]; simpl; [lia|]. rewrite IH; [lia|done].
Qed.

(** Reading a list back through all of its positions gives the list. *)
Lemma map_lookup_total_seq {T} `{Inhabited T} (l : list T) :
  map (fun n => l !!! n) (seq 0 (length l)) = l.
Proof.
  induction l as [|x l IH]; [done|].
  cbn [length seq map]. rewrite <- seq_shift, map_map. f_equal. exact IH.
Qed.

Lemma lookup_total_map {T U} `{Inhabited T, Inhabited U} (f : T -> U) l t :
  t < length l -> map f l !!! t = f (l !!! t).
Proof.
  intros Ht. apply list_lookup_total_correct. change (map f l) with (f <$> l).
  rewrite list_lookup_fmap, list_lookup_lookup_total_lt by done. done.
Qed.

(** [seq 0 (d * p)] splits into [d] consecutive blocks of length [p]. *)
Lemma seq_mul_blocks d p :
  seq 0 (d * p) = concat (map (fun k => seq (k * p) p) (seq 0 d)).
Proof.
  induction d as [|d IH]; [done|].
  replace (S d * p) with (d * p + p) by lia.
  rewrite seq_S, map_app, concat_app, <- IH, seq_app. cbn. by rewrite app_nil_r.
Qed.

Lemma list_filter_iff_in {T} (P1 P2 : T -> Prop) `{!forall x, Decision (P1 x)}
    `{!forall x, Decision (P2 x)} (l : list T) :
  (forall x, x ∈ l -> P1 x <-> P2 x) -> filter P1 l = filter P2 l.
Proof.
  induction l as [|x l IH]; intros Hiff; [done|]. rewrite !filter_cons.
  rewrite IH by set_solver. pose proof (Hiff x ltac:(set_solver)).
  repeat case_decide; naive_solver.
Qed.

Lemma map_const_in {T U} (f : T -> U) (c : U) (l : list T) :
  (forall x, x ∈ l -> f x = c) -> map f l = repeat c (length l).
Proof.
  induction l as [|x l IH]; intros Hf; [done|]. simpl.
  rewrite Hf, IH by set_solver. done.
Qed.

Lemma seq_shift_add k n : map (Nat.add k) (seq 0 n) = seq k n.
Proof.
  induction n as [|n IH]; [done|].
  by rewrite !seq_S, map_app, IH.
Qed.

Lemma concat_map_concat {T U} (f : T -> list U) (l : list (list T)) :
  concat (map f (concat l)) = concat (map (fun x => concat (map f x)) l).
Proof.
  induction l as [|x l IH]; [done|]. simpl.
  by rewrite map_app, concat_app, IH.
Qed.

Lemma list_filter_all {T} (P : T -> Prop) `{!forall x, Decision (P x)} (l : list T) :
  (forall x, x ∈ l -> P x) -> filter P l = l.
Proof.
  induction l as [|x l IH]; intros Hl; [done|].
  rewrite filter_cons_True by set_solver. f_equal. apply IH. set_solver.
Qed.

Lemma res_bind_Err_inv {T U} (c : res T) (k : T -> res U) e :
  res_bind c k = Err e -> c = Err e \/ exists x, c = Ok x /\ k x = Err e.
Proof. destruct c as [x|e']; simpl; [right; by exists x|intros [= ->]; by left]. Qed.

(** A failing [res_mapM] fails at one of its elements. *)
Lemma res_mapM_Err {T U} (f : T -> res U) (l : list T) e :
  res_mapM f l = Err e -> exists x, x ∈ l /\ f x = Err e.
Proof.
  induction l as [|x l IH]; simpl; [done|].
  destruct (f x) eqn:Hx; simpl; [|intros [= ->]; exists x; split; [left|done]].
  destruct (res_mapM f l) eqn:Hl; simpl; [done|]. intros [= ->].
  destruct IH as (y & Hy & Hfy); [done|]. exists y. split; [by right|done].
Qed.

(** Two lists of the same length with the same elements at every
    position are equal. *)
Lemma list_eq_lookup_total {T} `{Inhabited T} (l1 l2 : list T) :
  length l1 = length l2 -> (forall t, t < length l1 -> l1 !!! t = l2 !!! t) -> l1 = l2.
Proof.
  intros Hl Ht. rewrite <- (map_lookup_total_seq l1), <- (map_lookup_total_seq l2), <- Hl.
  apply map_ext_in. intros t Hin%in_seq. apply Ht. lia.
Qed.

(** Reading a concatenation [k ++ r] at the positions of [k], and of [r]. *)
Lemma map_lookup_app_l {T} `{Inhabited T} (k r : list T) :
  map (fun d => (k ++ r) !!! d) (seq 0 (length k)) = k.
Proof.
  transitivity (map (fun d => k !!! d) (seq 0 (length k))); [|apply map_lookup_total_seq].
  apply map_ext_in. intros d Hd%in_seq. apply lookup_total_app_l. lia.
Qed.

Lemma map_lookup_app_r {T} `{Inhabited T} (k r : list T) :
  map (fun d => (k ++ r) !!! d) (seq (length k) (length r)) = r.
Proof.
  rewrite <- (seq_shift_add (length k)), map_map.
  transitivity (map (fun d => r !!! d) (seq 0 (length r))); [|apply map_lookup_total_seq].
  apply map_ext. intros d. rewrite lookup_total_app_r by lia. f_equal. lia.
Qed.

(** A strictly increasing list of numbers in [[lo, lo + n)] is a
    subsequence of [seq lo n]: finite enumeration of axis tuples. *)
Lemma subseqs_sorted lo n K :
  StronglySorted lt K -> Forall (fun d => lo <= d < lo + n) K -> K ∈ subseqs (seq lo n).
Proof.
  revert lo K. induction n as [|n IH]; intros lo K Hs HK.
  - destruct K as [|d K]; [by left|]. apply Forall_cons in HK. lia.
  - simpl. apply elem_of_app. destruct K as [|d K]; [right; apply IH; by constructor|].
    apply StronglySorted_inv in Hs as [Hs Hd]. apply Forall_cons in HK as [Hb HK].
    assert (HK' : Forall (fun x => S lo <= x < S lo + n) K).
    { apply Forall_forall. intros x Hx.
      pose proof (proj1 (Forall_forall _ _) Hd x Hx). pose proof (proj1 (Forall_forall _ _) HK x Hx).
      simpl in *. lia. }
    destruct (decide (d = lo)) as [->|Hne].
    + left. apply list_elem_of_fmap_2. by apply IH.
    + right. apply IH; [by constructor|]. constructor; [lia|done].
Qed.

#[export] Hint Rewrite @res_bind_Ok @res_bind_Err np_prod_app np_prod_cons : fs_rw.

(** Close a decidable side condition on concrete data by evaluation. *)
Ltac decide_by_eval := apply (bool_decide_unpack _); vm_compute; reflexivity.

(** Peel the result monad in a hypothesis or in the goal. *)
Ltac res_inv :=
  repeat match goal with
  | H : res_bind ?c _ = Ok _ |- _ =>
      let E := fresh "E" in destruct c eqn:E; simpl in H; [|discriminate H]
  | H : (if ?b then _ else Err _) = Ok _ |- _ =>
      let E := fresh "E" in destruct b eqn:E; [|discriminate H]
  | H : Ok _ = Ok _ |- _ => injection H as H
  | H : Err _ = Ok _ |- _ => discriminate H
  | H : Ok _ = Err _ |- _ => discriminate H
  end.
