(* ===== verification/Shape.v ===== *)
(** * Shape: N-dimensional arrays in row-major (C) order

    A NumPy array is modelled by its shape and its buffer of elements
    in C order, which is the order [np.reshape] and the flat iteration
    of NumPy read it in.  This file defines the row-major offset
    [ravel] and the row-major enumeration [indices] of multi-indices.
    It builds arrays with [tabulate] and reads an element with [get].
    It proves that [indices] and [ravel] are inverse, that enumerating a
    concatenated shape is the blockwise product of the two enumerations,
    and that cutting a buffer into rows undoes [concat]. *)

From S2P Require Import Prelude.

Record ndarray (A : Type) := mkArr { shape : list nat; buf : list A }.
Arguments mkArr {A} shape buf.
Arguments shape {A} _.
Arguments buf {A} _.

Definition ndim {A} (a : ndarray A) : nat := length (shape a).

(** The buffer holds one element per cell of the shape. *)
Definition wf {A} (a : ndarray A) : Prop := length (buf a) = np_prod (shape a).

(** Row-major offset of a multi-index. *)
Fixpoint ravel (s i : list nat) : nat :=
  match s, i with
  | d :: s', k :: i' => k * np_prod s' + ravel s' i'
  | _, _ => 0
  end.

(** A multi-index is valid for a shape when it has one coordinate per
    axis, each below that axis' length. *)
Definition valid_index (s i : list nat) : Prop := Forall2 lt i s.

#[export] Instance valid_index_dec s i : Decision (valid_index s i).
Proof. unfold valid_index. apply _. Defined.

(** All valid multi-indices of a shape, in row-major order: the nested
    [for] loops of a C-contiguous traversal. *)
Fixpoint indices (s : list nat) : list (list nat) :=
  match s with
  | [] => [[]]
  | d :: s' => concat (map (fun k => map (cons k) (indices s')) (seq 0 d))
  end.

Definition tabulate {A} (s : list nat) (f : list nat -> A) : list A :=
  map f (indices s).

Definition get {A} `{Inhabited A} (a : ndarray A) (i : list nat) : A :=
  buf a !!! ravel (shape a) i.

(** [np.reshape(x, (-1, c))] followed by row iteration: cut a buffer
    into [n] consecutive rows of [c] elements. *)
Fixpoint rows {A} (n c : nat) (l : list A) : list (list A) :=
  match n with
  | 0 => []
  | S n' => take c l :: rows n' c (drop c l)
  end.

(** ** Lemmas *)

Lemma length_concat_const {T} (c : nat) (xs : list (list T)) :
  Forall (fun x => length x = c) xs -> length (concat xs) = length xs * c.
Proof. induction 1; simpl; [done|]. rewrite length_app. lia. Qed.

Lemma length_indices s : length (indices s) = np_prod s.
Proof.
  induction s as [|d s IH]; [done|]. simpl.
  rewrite (length_concat_const (np_prod s)), length_map, length_seq; [done|].
  apply Forall_forall. intros x Hx. apply list_elem_of_In, in_map_iff in Hx.
  destruct Hx as (k & <- & _). by rewrite length_map.
Qed.

Lemma elem_of_indices s i : i ∈ indices s <-> valid_index s i.
Proof.
  unfold valid_index. revert i. induction s as [|d s IH]; intros i; simpl.
  - split; [intros ->%list_elem_of_singleton; constructor|].
    intros Hi. inversion Hi. set_solver.
  - rewrite list_elem_of_In, in_concat. split.
    + intros (l & Hl & Hi). apply in_map_iff in Hl as (k & <- & Hk).
      apply in_map_iff in Hi as (i' & <- & Hi'). apply in_seq in Hk.
      constructor; [lia|]. apply IH, list_elem_of_In, Hi'.
    + intros Hi. inversion Hi as [|k d' i' s' Hk Hrest]; subst.
      exists (map (cons k) (indices s)). split.
      * apply in_map_iff. exists k. split; [done|]. apply in_seq. lia.
      * apply in_map_iff. exists i'. split; [done|].
        apply list_elem_of_In, IH, Hrest.
Qed.

(** A valid index has one coordinate per axis, each below its length. *)
Lemma valid_index_iff s i :
  valid_index s i <-> length i = length s /\ forall d, d < length s -> i !!! d < s !!! d.
Proof.
  unfold valid_index. revert i. induction s as [|x s IH]; intros [|y i]; simpl.
  - split; [intros _; split; [done|lia]|constructor].
  - split; [inversion 1|intros [? _]; discriminate].
  - split; [inversion 1|intros [? _]; discriminate].
  - split.
    + intros Hf. inversion Hf as [|? ? ? ? Hy Hi]; subst. apply IH in Hi as [Hl Hd].
      split; [by f_equal|]. intros [|d] Hd'; simpl; [done|]. apply Hd. lia.
    + intros [Hl Hd]. constructor; [apply (Hd 0); lia|]. apply IH.
      split; [lia|]. intros d Hd'. apply (Hd (S d)). lia.
Qed.

Lemma valid_index_length s i : valid_index s i -> length i = length s.
Proof. apply Forall2_length. Qed.

Lemma ravel_lt s i : valid_index s i -> ravel s i < np_prod s.
Proof. induction 1 as [|k d i s Hk _ IH]; simpl; [lia|]. nia. Qed.

(** Enumeration then offset is the identity on [0, size). *)
Lemma map_ravel_indices s : map (ravel s) (indices s) = seq 0 (np_prod s).
Proof.
  induction s as [|d s IH]; [done|]. simpl.
  rewrite concat_map, map_map, seq_mul_blocks. f_equal.
  apply map_ext. intros k. rewrite map_map, <- seq_shift_add, <- IH, map_map.
  reflexivity.
Qed.

(** The position of a valid index in the enumeration is its offset. *)
Lemma indices_lookup_ravel s i :
  valid_index s i -> indices s !! ravel s i = Some i.
Proof.
  intros Hi. apply elem_of_indices, list_elem_of_lookup in Hi as [n Hn].
  assert (Hm : (ravel s <$> indices s) !! n = Some (ravel s i)).
  { by rewrite list_lookup_fmap, Hn. }
  change (ravel s <$> indices s) with (map (ravel s) (indices s)) in Hm.
  rewrite map_ravel_indices in Hm. apply lookup_seq in Hm as [-> _].
  exact Hn.
Qed.

Lemma ravel_inj s i j :
  valid_index s i -> valid_index s j -> ravel s i = ravel s j -> i = j.
Proof.
  intros Hi Hj E. pose proof (indices_lookup_ravel s i Hi) as Ei.
  rewrite E, indices_lookup_ravel in Ei by done. congruence.
Qed.

Lemma NoDup_indices s : NoDup (indices s).
Proof.
  apply (NoDup_fmap_1 (ravel s)). change (NoDup (map (ravel s) (indices s))).
  rewrite map_ravel_indices. apply NoDup_seq.
Qed.

(** Enumerating [s1 ++ s2]: for each index of [s1], all of [s2]. *)
Lemma indices_app s1 s2 :
  indices (s1 ++ s2) =
  concat (map (fun i1 => map (app i1) (indices s2)) (indices s1)).
Proof.
  induction s1 as [|d s1 IH]; simpl.
  - rewrite app_nil_r. induction (indices s2) as [|x l IHl]; simpl; congruence.
  - rewrite IH, concat_map_concat, map_map. f_equal. apply map_ext. intros k.
    rewrite concat_map, !map_map. f_equal. apply map_ext. intros i1.
    rewrite !map_map. reflexivity.
Qed.

Section WithElem.
Context {A : Type} `{Inhabited A}.

Lemma length_tabulate s (f : list nat -> A) :
  length (tabulate s f) = np_prod s.
Proof. unfold tabulate. by rewrite length_map, length_indices. Qed.

Lemma tabulate_wf s (f : list nat -> A) : wf (mkArr s (tabulate s f)).
Proof. apply length_tabulate. Qed.

(** Reading a tabulated array at a valid index runs the generator. *)
Lemma get_tabulate s (f : list nat -> A) i :
  valid_index s i -> get (mkArr s (tabulate s f)) i = f i.
Proof.
  intros Hi. unfold get, tabulate; simpl. apply list_lookup_total_correct.
  change (map f (indices s)) with (f <$> indices s).
  by rewrite list_lookup_fmap, indices_lookup_ravel.
Qed.

(** A well-formed array is the tabulation of its own elements. *)
Lemma tabulate_get (a : ndarray A) :
  wf a -> tabulate (shape a) (get a) = buf a.
Proof.
  unfold wf, tabulate, get. intros Hwf.
  transitivity (map (fun n => buf a !!! n) (map (ravel (shape a)) (indices (shape a)))).
  - by rewrite map_map.
  - rewrite map_ravel_indices, <- Hwf. apply map_lookup_total_seq.
Qed.

Lemma tabulate_ext s (f g : list nat -> A) :
  (forall i, valid_index s i -> f i = g i) -> tabulate s f = tabulate s g.
Proof.
  intros Hfg. apply map_ext_in. intros i Hi.
  apply Hfg, elem_of_indices, list_elem_of_In, Hi.
Qed.

(** Tabulating over [ks ++ rs]: for each index of [ks], all of [rs]. *)
Lemma tabulate_app ks rs (f : list nat -> A) :
  tabulate (ks ++ rs) f = concat (map (fun k => map (fun r => f (k ++ r)) (indices rs)) (indices ks)).
Proof.
  unfold tabulate. rewrite indices_app, concat_map, map_map.
  f_equal. apply map_ext. intros k. by rewrite map_map.
Qed.

(** Reading a list of [np_prod s] elements at the offsets of the
    indices of [s], in order, gives the list back. *)
Lemma lookup_ravel_indices s (l : list A) :
  length l = np_prod s -> map (fun r => l !!! ravel s r) (indices s) = l.
Proof.
  intros Hl. rewrite <- (map_map (ravel s) (fun n => l !!! n)), map_ravel_indices, <- Hl.
  apply map_lookup_total_seq.
Qed.

Lemma length_rows n c (l : list A) : length (rows n c l) = n.
Proof. revert l. induction n as [|n IH]; intros l; simpl; [done|by rewrite IH]. Qed.

(** Cutting [n * c] elements or more gives rows of exactly [c]. *)
Lemma rows_full n c (l : list A) :
  n * c <= length l -> Forall (fun r => length r = c) (rows n c l).
Proof.
  revert l. induction n as [|n IH]; intros l Hl; simpl; [done|].
  constructor; [rewrite length_take; lia|]. apply IH. rewrite length_drop. lia.
Qed.

(** Cutting a concatenation of rows of length [c] gives the rows back. *)
Lemma rows_concat (c : nat) (xs : list (list A)) :
  Forall (fun x => length x = c) xs -> rows (length xs) c (concat xs) = xs.
Proof.
  induction 1 as [|x xs Hx _ IH]; [done|]. simpl.
  by rewrite <- Hx, take_app_length, drop_app_length, Hx, IH.
Qed.

End WithElem.

#[export] Hint Resolve tabulate_wf NoDup_indices : fs.
