(* ===== verification/NumpyOps.v ===== *)
(** * NumpyOps: the NumPy primitives the engine calls

    NumPy is a library the sources call; it is not part of the program.
    Its operations are modelled here by their NumPy implementations,
    because the engine's correctness depends on exactly how they
    normalise axes, order the moved axes, infer the [-1] dimension of a
    reshape, and index with integers.
    - [normalize_axis_index], [normalize_axis_tuple] (numpy/core/numeric.py)
    - [np_moveaxis]: source and destination normalised, the kept axes
      listed in order, then each [(dest, src)] of
      [sorted(zip(destination, source))] inserted with [list.insert].
    - [np_transpose]: the array with permuted axes.
    - [np_reshape]: [_fix_unknown_dimension] followed by a C-order
      reinterpretation of the buffer.
    - [np_index]: basic indexing by integers and [:]. *)

From S2P Require Import Prelude Shape.

(** Python's wrap-around for a negative index or axis against a length
    [n]; out of range raises [e]. *)
Definition py_normalize (e : pyerr) (z : Z) (n : nat) : res nat :=
  if bool_decide (- Z.of_nat n <= z < Z.of_nat n)%Z
  then Ok (Z.to_nat (if bool_decide (z < 0)%Z then z + Z.of_nat n else z)%Z)
  else Err e.

Definition normalize_axis_index (axis : Z) (nd : nat) : res nat :=
  py_normalize AxisError axis nd.

Definition normalize_axis_tuple (axes : list Z) (nd : nat) : res (list nat) :=
  ax <- res_mapM (fun z => normalize_axis_index z nd) axes ;;
  assert! bool_decide (NoDup ax) else ValueError ;;
  Ok ax.

(** [list.insert(i, x)]: before position [i], or at the end when [i] is
    past it. *)
Fixpoint py_insert {T} (i : nat) (x : T) (l : list T) : list T :=
  match i, l with
  | 0, _ => x :: l
  | S _, [] => [x]
  | S i', y :: l' => y :: py_insert i' x l'
  end.

(** Python's ordering of pairs of integers, and [sorted] on them. *)
Definition pair_leb (p q : nat * nat) : bool :=
  (p.1 <? q.1) || ((p.1 =? q.1) && (p.2 <=? q.2)).

Fixpoint insert_sorted (p : nat * nat) (l : list (nat * nat)) : list (nat * nat) :=
  match l with
  | [] => [p]
  | q :: l' => if pair_leb p q then p :: l else q :: insert_sorted p l'
  end.

Fixpoint py_sorted (l : list (nat * nat)) : list (nat * nat) :=
  match l with
  | [] => []
  | p :: l' => insert_sorted p (py_sorted l')
  end.

(** The axis order [np.moveaxis] hands to [transpose]. *)
Definition moveaxis_order (nd : nat) (src dst : list nat) : list nat :=
  foldl (fun order '(d, s) => py_insert d s order)
        (filter (fun n => n ∉ src) (seq 0 nd))
        (py_sorted (zip dst src)).

(** Position of [x] in [l] ([length l] when absent). *)
Fixpoint pos_of (x : nat) (l : list nat) : nat :=
  match l with
  | [] => 0
  | y :: l' => if decide (x = y) then 0 else S (pos_of x l')
  end.

(** The source index read for output index [j] of a transpose by [p]:
    source axis [ax] takes the output coordinate at the position of [ax]
    in [p]. *)
Definition unpermute (p j : list nat) : list nat :=
  map (fun ax => j !!! pos_of ax p) (seq 0 (length p)).

Definition is_axis_perm (p : list nat) (nd : nat) : Prop :=
  length p = nd /\ Forall (fun k => k < nd) p /\ NoDup p.

#[export] Instance is_axis_perm_dec p nd : Decision (is_axis_perm p nd).
Proof. unfold is_axis_perm. apply _. Defined.

(** One element of a multi-index list.  [Z] values are Python ints. *)
Inductive index_item := IInt (z : Z) | ISlice.

(** Which axes an indexing tuple fixes ([Some k]) or keeps ([None]);
    missing trailing items are [:]. *)
Fixpoint index_sel (items : list index_item) (s : list nat) : res (list (option nat)) :=
  match s, items with
  | [], [] => Ok []
  | [], _ :: _ => Err IndexError
  | d :: s', [] => rest <- index_sel [] s' ;; Ok (None :: rest)
  | d :: s', ISlice :: it' => rest <- index_sel it' s' ;; Ok (None :: rest)
  | d :: s', IInt z :: it' =>
      k <- py_normalize IndexError z d ;; rest <- index_sel it' s' ;; Ok (Some k :: rest)
  end.

(** Dimensions of the kept axes, and the full index for a result index. *)
Fixpoint sel_shape (sel : list (option nat)) (s : list nat) : list nat :=
  match sel, s with
  | None :: sel', d :: s' => d :: sel_shape sel' s'
  | Some _ :: sel', _ :: s' => sel_shape sel' s'
  | _, _ => []
  end.

Fixpoint fill (sel : list (option nat)) (j : list nat) : list nat :=
  match sel with
  | [] => []
  | Some k :: sel' => k :: fill sel' j
  | None :: sel' =>
      match j with
      | [] => 0 :: fill sel' []
      | x :: j' => x :: fill sel' j'
      end
  end.

Section Ops.
Context {A : Type} `{Inhabited A}.

(** [a.transpose(p)] *)
Definition np_transpose (a : ndarray A) (p : list nat) : res (ndarray A) :=
  assert! bool_decide (is_axis_perm p (ndim a)) else ValueError ;;
  let s' := map (fun k => shape a !!! k) p in
  Ok (mkArr s' (tabulate s' (fun j => get a (unpermute p j)))).

(** [np.moveaxis(a, source, destination)] *)
Definition np_moveaxis (a : ndarray A) (source destination : list Z) : res (ndarray A) :=
  src <- normalize_axis_tuple source (ndim a) ;;
  dst <- normalize_axis_tuple destination (ndim a) ;;
  assert! bool_decide (length src = length dst) else ValueError ;;
  np_transpose a (moveaxis_order (ndim a) src dst).

(** [_fix_unknown_dimension]: one negative entry is inferred. *)
Definition fix_unknown_dimension (newshape : list Z) (size : nat) : res (list nat) :=
  let unknown := filter (fun z => (z < 0)%Z) newshape in
  let known := np_prod (map Z.to_nat (filter (fun z => (0 <= z)%Z) newshape)) in
  match unknown with
  | [] => assert! bool_decide (size = known) else ValueError ;;
          Ok (map Z.to_nat newshape)
  | [_] => assert! bool_decide (known <> 0 /\ size mod known = 0) else ValueError ;;
           Ok (map (fun z => if bool_decide (z < 0)%Z then size / known else Z.to_nat z)
                   newshape)
  | _ => Err ValueError
  end.

(** [np.reshape(a, newshape)]: C order, the buffer is unchanged. *)
Definition np_reshape (a : ndarray A) (newshape : list Z) : res (ndarray A) :=
  s <- fix_unknown_dimension newshape (np_prod (shape a)) ;;
  Ok (mkArr s (buf a)).

(** [a[items]] with integers and [:] only. *)
Definition np_index (a : ndarray A) (items : list index_item) : res (ndarray A) :=
  assert! bool_decide (length items <= ndim a) else IndexError ;;
  sel <- index_sel items (shape a) ;;
  let s' := sel_shape sel (shape a) in
  Ok (mkArr s' (tabulate s' (fun j => get a (fill sel j)))).

End Ops.

(** ** Lemmas on [pos_of] *)

Lemma pos_of_lt x l : x ∈ l -> pos_of x l < length l.
Proof.
  induction l as [|y l IH]; intros Hx; [set_solver|]. simpl.
  case_decide; [lia|]. apply elem_of_cons in Hx as [->|Hx]; [done|].
  specialize (IH Hx). lia.
Qed.

Lemma lookup_pos_of x l : x ∈ l -> l !!! pos_of x l = x.
Proof.
  induction l as [|y l IH]; intros Hx; [set_solver|]. simpl.
  case_decide; [by subst|]. apply elem_of_cons in Hx as [->|Hx]; [done|].
  by apply IH.
Qed.

Lemma pos_of_app_l x l1 l2 : x ∈ l1 -> pos_of x (l1 ++ l2) = pos_of x l1.
Proof.
  induction l1 as [|y l1 IH]; intros Hx; [set_solver|]. simpl.
  case_decide; [done|]. apply elem_of_cons in Hx as [->|Hx]; [done|].
  by rewrite IH.
Qed.

Lemma pos_of_app_r x l1 l2 : x ∉ l1 -> pos_of x (l1 ++ l2) = length l1 + pos_of x l2.
Proof.
  induction l1 as [|y l1 IH]; intros Hx; [done|]. simpl.
  case_decide; [set_solver|]. rewrite IH; [done|set_solver].
Qed.

Lemma pos_of_lookup l t : NoDup l -> t < length l -> pos_of (l !!! t) l = t.
Proof.
  intros Hnd. revert t. induction l as [|y l IH]; intros t Ht; simpl in *; [lia|].
  apply NoDup_cons in Hnd as [Hy Hnd]. destruct t as [|t]; simpl.
  - by case_decide.
  - case_decide as E.
    + exfalso. apply Hy. rewrite <- E. apply list_elem_of_lookup_total_2. lia.
    + rewrite IH; [done|done|lia].
Qed.

(** Python normalisation of in-range integers. *)
Lemma py_normalize_nat e n d : n < d -> py_normalize e (Z.of_nat n) d = Ok n.
Proof.
  intros Hn. unfold py_normalize.
  rewrite bool_decide_eq_true_2 by lia. rewrite bool_decide_eq_false_2 by lia.
  by rewrite Nat2Z.id.
Qed.

Lemma py_normalize_neg e n d :
  n < d -> py_normalize e (Z.of_nat n - Z.of_nat d) d = Ok n.
Proof.
  intros Hn. unfold py_normalize.
  rewrite bool_decide_eq_true_2 by lia. rewrite bool_decide_eq_true_2 by lia.
  f_equal. lia.
Qed.

Lemma py_normalize_Ok e z d n : py_normalize e z d = Ok n -> n < d.
Proof.
  unfold py_normalize. case_bool_decide; [|done]. intros [= <-].
  case_bool_decide; lia.
Qed.

Lemma py_normalize_out e z d :
  ~ (- Z.of_nat d <= z < Z.of_nat d)%Z -> py_normalize e z d = Err e.
Proof. intros Hz. unfold py_normalize. by rewrite bool_decide_eq_false_2. Qed.

(** ** Transposition by an axis permutation *)

Lemma axis_perm_elem p nd d : is_axis_perm p nd -> d < nd -> d ∈ p.
Proof.
  intros (Hl & Hlt & Hnd) Hd. apply list_elem_of_In.
  apply (NoDup_length_incl (l := p) (l' := seq 0 nd)).
  - by apply NoDup_ListNoDup.
  - rewrite length_seq. lia.
  - intros x Hx%list_elem_of_In. apply in_seq. rewrite Forall_forall in Hlt. specialize (Hlt x Hx). lia.
  - apply in_seq. lia.
Qed.

Lemma length_unpermute p j : length (unpermute p j) = length p.
Proof. unfold unpermute. by rewrite length_map, length_seq. Qed.

Lemma lookup_unpermute p j d : d < length p -> unpermute p j !!! d = j !!! pos_of d p.
Proof.
  intros Hd. unfold unpermute. rewrite lookup_total_map by (by rewrite length_seq).
  by rewrite lookup_total_seq_lt.
Qed.

(** Reading a transposed index along the permutation gives it back. *)
Lemma map_lookup_unpermute p j :
  is_axis_perm p (length p) -> length j = length p ->
  map (fun d => unpermute p j !!! d) p = j.
Proof.
  intros Hp Hj. pose proof Hp as (_ & Hlt & Hnd).
  apply list_eq_lookup_total; [by rewrite length_map|]. rewrite length_map. intros t Ht.
  rewrite lookup_total_map by done.
  rewrite lookup_unpermute by (rewrite Forall_forall in Hlt; apply Hlt, list_elem_of_lookup_total_2; lia).
  by rewrite pos_of_lookup.
Qed.

(** Transposing the index read along the permutation gives it back. *)
Lemma unpermute_map_lookup p i :
  is_axis_perm p (length i) -> unpermute p (map (fun d => i !!! d) p) = i.
Proof.
  intros Hp. pose proof Hp as (Hl & _ & _).
  apply list_eq_lookup_total; [by rewrite length_unpermute|]. rewrite length_unpermute. intros d Hd.
  assert (Hin : d ∈ p) by (apply (axis_perm_elem _ (length i)); [done|lia]).
  rewrite lookup_unpermute, lookup_total_map by (done || by apply pos_of_lt).
  by rewrite lookup_pos_of.
Qed.

Lemma unpermute_inj p j1 j2 :
  is_axis_perm p (length p) -> length j1 = length p -> length j2 = length p ->
  unpermute p j1 = unpermute p j2 -> j1 = j2.
Proof.
  intros Hp H1 H2 E. rewrite <- (map_lookup_unpermute p j1), <- (map_lookup_unpermute p j2) by done.
  by rewrite E.
Qed.

(** Validity is carried across a transposition, both ways. *)
Lemma valid_unpermute s p j :
  is_axis_perm p (length s) -> valid_index (map (fun d => s !!! d) p) j ->
  valid_index s (unpermute p j).
Proof.
  intros Hp Hj. pose proof Hp as (Hl & Hlt & Hnd).
  apply valid_index_iff in Hj as [Hjl Hj]. rewrite length_map in Hjl, Hj.
  apply valid_index_iff. rewrite length_unpermute. split; [done|]. intros d Hd.
  assert (Hin : d ∈ p) by (by apply (axis_perm_elem _ (length s))).
  rewrite lookup_unpermute by lia.
  specialize (Hj (pos_of d p) (pos_of_lt _ _ Hin)).
  by rewrite lookup_total_map, lookup_pos_of in Hj by (done || by apply pos_of_lt).
Qed.

Lemma valid_map_lookup s p i :
  Forall (fun d => d < length s) p -> valid_index s i ->
  valid_index (map (fun d => s !!! d) p) (map (fun d => i !!! d) p).
Proof.
  intros Hlt Hi. apply valid_index_iff in Hi as [Hil Hi].
  apply valid_index_iff. rewrite !length_map. split; [done|]. intros t Ht.
  rewrite !lookup_total_map by done. apply Hi.
  rewrite Forall_forall in Hlt. apply Hlt, list_elem_of_lookup_total_2. lia.
Qed.

(** ** Well-formedness of the results *)

(** The shape [_fix_unknown_dimension] infers, as a product. *)
Lemma np_prod_fix_unknown c (ns : list Z) :
  np_prod (map (fun z => if bool_decide (z < 0)%Z then c else Z.to_nat z) ns) =
  c ^ length (filter (fun z => (z < 0)%Z) ns) *
  np_prod (map Z.to_nat (filter (fun z => (0 <= z)%Z) ns)).
Proof.
  induction ns as [|z ns IH]; [done|]. rewrite !filter_cons.
  cbn [map]. rewrite np_prod_cons, IH.
  repeat case_decide; case_bool_decide; try lia;
    cbn [length map]; rewrite ?np_prod_cons, ?Nat.pow_succ_r'; ring.
Qed.

Lemma fix_unknown_dimension_prod ns size s :
  fix_unknown_dimension ns size = Ok s -> np_prod s = size.
Proof.
  unfold fix_unknown_dimension. cbv zeta.
  destruct (filter (fun z => (z < 0)%Z) ns) as [|u [|u' rest]] eqn:Hu; [| |done].
  - case_bool_decide as Hs; [|done]. intros [= <-]. rewrite Hs.
    transitivity (np_prod (map (fun z => if bool_decide (z < 0)%Z then 0 else Z.to_nat z) ns)).
    + f_equal. apply map_ext_in. intros z Hz%list_elem_of_In. case_bool_decide; [|done].
      assert (z ∈ filter (fun z => (z < 0)%Z) ns) as Hf by (apply list_elem_of_filter; done).
      by rewrite Hu in Hf; apply elem_of_nil in Hf.
    + rewrite np_prod_fix_unknown, Hu. simpl. lia.
  - case_bool_decide as Hs; [|done]. intros [= <-]. destruct Hs as [Hk Hm].
    rewrite np_prod_fix_unknown, Hu. simpl. rewrite Nat.mul_1_r.
    set (k := np_prod (map Z.to_nat (filter (fun z => (0 <= z)%Z) ns))) in *.
    pose proof (Nat.div_mod_eq size k). lia.
Qed.

(** An axis permutation of [nd] axes is a permutation of [0 .. nd-1]. *)
Lemma axis_perm_seq p nd : is_axis_perm p nd -> p ≡ₚ seq 0 nd.
Proof.
  intros Hp. pose proof Hp as (Hl & Hlt & Hnd).
  apply NoDup_Permutation; [done|apply NoDup_seq|]. intros x. rewrite elem_of_seq.
  split; [intros Hx; rewrite Forall_forall in Hlt; specialize (Hlt x Hx); lia|].
  intros Hx. apply (axis_perm_elem _ nd); [done|lia].
Qed.

Section SizeOps.
Context {A : Type} `{Inhabited A}.

(** [np.moveaxis] keeps the number of elements. *)
Lemma np_moveaxis_prod (a b : ndarray A) src dst :
  np_moveaxis a src dst = Ok b -> np_prod (shape b) = np_prod (shape a).
Proof.
  unfold np_moveaxis. destruct (normalize_axis_tuple src _); [simpl|done].
  destruct (normalize_axis_tuple dst _); [simpl|done].
  case_bool_decide; [|done]. unfold np_transpose.
  case_bool_decide as Hp; [|done]. intros [= <-]. simpl.
  rewrite (axis_perm_seq _ _ Hp). unfold ndim. by rewrite map_lookup_total_seq.
Qed.

(** [np.reshape(x, (-1, n))] succeeds only with [n > 0] dividing the
    size, and gives the shape [(size / n, n)]. *)
Lemma np_reshape_rows_inv (x y : ndarray A) n :
  np_reshape x [(-1)%Z; Z.of_nat n] = Ok y ->
  0 < n /\ np_prod (shape x) mod n = 0 /\ shape y = [np_prod (shape x) / n; n].
Proof.
  unfold np_reshape, fix_unknown_dimension. cbn [filter list_filter].
  rewrite (decide_True (P := (-1 < 0)%Z)) by lia.
  rewrite (decide_False (P := (Z.of_nat n < 0)%Z)) by lia.
  rewrite (decide_False (P := (0 <= -1)%Z)) by lia.
  rewrite (decide_True (P := (0 <= Z.of_nat n)%Z)) by lia.
  cbn. intros Hr. res_inv.
  match goal with H : bool_decide _ = true |- _ => apply bool_decide_eq_true_1 in H as Hc end.
  subst. simpl. rewrite bool_decide_eq_false_2 by lia.
  rewrite Nat2Z.id, Nat.mul_1_r in *. repeat split; lia.
Qed.

End SizeOps.

(** ** The exceptions each operation raises *)

Lemma normalize_axis_tuple_Err zs nd e :
  normalize_axis_tuple zs nd = Err e -> e = AxisError \/ e = ValueError.
Proof.
  unfold normalize_axis_tuple. destruct (res_mapM _ zs) eqn:Hm; simpl.
  - case_bool_decide; [done|]. intros [= <-]. by right.
  - intros [= ->]. left. apply res_mapM_Err in Hm as (z & _ & Hz).
    unfold normalize_axis_index, py_normalize in Hz. by case_bool_decide; simplify_eq.
Qed.

Section ErrOps.
Context {A : Type} `{Inhabited A}.

Lemma np_transpose_Err (a : ndarray A) p e : np_transpose a p = Err e -> e = ValueError.
Proof. unfold np_transpose. by case_bool_decide; intros [= <-]. Qed.

Lemma np_moveaxis_Err (a : ndarray A) src dst e :
  np_moveaxis a src dst = Err e -> e = AxisError \/ e = ValueError.
Proof.
  unfold np_moveaxis. destruct (normalize_axis_tuple src _) eqn:E1; simpl;
    [|intros [= <-]; by eapply normalize_axis_tuple_Err].
  destruct (normalize_axis_tuple dst _) eqn:E2; simpl;
    [|intros [= <-]; by eapply normalize_axis_tuple_Err].
  case_bool_decide; [intros He%np_transpose_Err; by right|intros [= <-]; by right].
Qed.

Lemma np_reshape_Err (a : ndarray A) ns e : np_reshape a ns = Err e -> e = ValueError.
Proof.
  unfold np_reshape, fix_unknown_dimension. cbv zeta.
  destruct (filter _ ns) as [|? [|? ?]]; simpl; [case_bool_decide|case_bool_decide|];
    by intros [= <-].
Qed.

End ErrOps.
