(* ===== verification/Axis.v ===== *)
(** * Axis: the axis argument, its validation, and the axis algebra

    The Python [axis] argument is [None], an [int] or a tuple of
    [int]s ([axis_arg]).  The helpers of [utils] and [routing] that
    validate it and derive shapes from it are not in [src/].  They are
    modelled from the specification (sections 4.1 and 4.2):
    [_check_axis], [_numpy_fallback], [_get_result_shape],
    [get_keep_axes].

    The algebra that the reductions rely on is stated on a reduction
    mask (one [bool] per axis, [true] when the axis is reduced).
    [proj_keep] reads the kept coordinates of a full index, [merge_index]
    interleaves kept and reduced coordinates back into a full index,
    and [positions] lists the kept or reduced axes.  The main lemma,
    [filter_indices_merge], says that the full indices with given kept
    coordinates are, in row-major order, the merges of those
    coordinates with every index of the reduced shape. *)

From S2P Require Import Prelude Shape NumpyOps.

Inductive axis_arg :=
  | AxNone                    (** [axis=None]: every axis *)
  | AxInt (z : Z)             (** [axis=k] *)
  | AxTuple (zs : list Z).    (** [axis=(k1, k2, ...)], anything with [__iter__] *)

(** The axis argument as the sequence [np.moveaxis] receives. *)
Definition axis_as_list (axis : axis_arg) : list Z :=
  match axis with
  | AxNone => []
  | AxInt z => [z]
  | AxTuple zs => zs
  end.

(** The canonical axis list of a valid argument (None: all axes). *)
Definition axis_list (axis : axis_arg) (nd : nat) : res (list nat) :=
  match axis with
  | AxNone => Ok (seq 0 nd)
  | _ => normalize_axis_tuple (axis_as_list axis) nd
  end.

(** [utils._check_axis]: every axis in [-ndim, ndim), no duplicate after
    normalisation, and a tuple is not empty (spec 4.1, 3). *)
Definition _check_axis (axis : axis_arg) (nd : nat) : bool :=
  match axis with
  | AxNone => true
  | _ => match normalize_axis_tuple (axis_as_list axis) nd with
         | Ok ax => bool_decide (ax <> [])
         | Err _ => false
         end
  end.

(** [utils._numpy_fallback]: reducing over every axis ([axis=None]) is
    left to NumPy (spec 2, item 6). *)
Definition _numpy_fallback (axis : axis_arg) (nd : nat) : bool :=
  match axis with AxNone => true | _ => false end.

(** Kept axes, in their original order. *)
Definition keep_axes (ax : list nat) (nd : nat) : list nat :=
  filter (fun d => d ∉ ax) (seq 0 nd).

(** [routing.get_keep_axes]: the kept axes as a sorted tuple. *)
Definition get_keep_axes (axis : axis_arg) (nd : nat) : res (list nat) :=
  ax <- axis_list axis nd ;; Ok (keep_axes ax nd).

(** [utils._get_result_shape]: size-1 entries at the reduced axes with
    [keepdims], the kept dimensions otherwise (spec 4.2). *)
Definition _get_result_shape (s : list nat) (axis : axis_arg) (keepdims : bool) : list nat :=
  match axis_list axis (length s) with
  | Ok ax =>
      if keepdims then map (fun d => if decide (d ∈ ax) then 1 else s !!! d) (seq 0 (length s))
      else map (fun d => s !!! d) (keep_axes ax (length s))
  | Err _ => s
  end.

(** ** The reduction mask *)

Definition axis_mask (ax : list nat) (nd : nat) : list bool :=
  map (fun d => bool_decide (d ∈ ax)) (seq 0 nd).

Fixpoint positions (b : bool) (m : list bool) : list nat :=
  match m with
  | [] => []
  | x :: m' => (if Bool.eqb x b then [0] else []) ++ map S (positions b m')
  end.

(** Dimensions of the axes whose mask bit is [b]. *)
Fixpoint mask_shape (b : bool) (m : list bool) (s : list nat) : list nat :=
  match m, s with
  | x :: m', d :: s' => if Bool.eqb x b then d :: mask_shape b m' s' else mask_shape b m' s'
  | _, _ => []
  end.

(** The coordinates of the axes whose mask bit is [b]. *)
Definition proj_mask (b : bool) (m : list bool) (i : list nat) : list nat :=
  mask_shape b m i.

(** Interleave kept coordinates [k] and reduced coordinates [r]. *)
Fixpoint merge_index (m : list bool) (k r : list nat) : list nat :=
  match m with
  | [] => []
  | false :: m' => default 0 (head k) :: merge_index m' (tail k) r
  | true :: m' => default 0 (head r) :: merge_index m' k (tail r)
  end.

(** ** Lemmas *)

Lemma valid_index_mask_shape b m s i :
  valid_index s i -> valid_index (mask_shape b m s) (proj_mask b m i).
Proof.
  unfold proj_mask, valid_index. intros Hi. revert m.
  induction Hi as [|k d i s Hk _ IH]; intros [|x m]; simpl; try constructor.
  destruct (Bool.eqb x b); [constructor|]; auto.
Qed.

Lemma length_mask_shape b m s :
  length m = length s -> length (mask_shape b m s) = length (positions b m).
Proof.
  revert s. induction m as [|x m IH]; intros [|d s] Hl; simplify_eq/=; [done|].
  destruct (Bool.eqb x b); simpl; by rewrite length_map, <- (IH s).
Qed.

(** Merging then projecting gives the two parts back. *)
Lemma proj_merge m k r :
  length k = length (positions false m) -> length r = length (positions true m) ->
  proj_mask false m (merge_index m k r) = k /\ proj_mask true m (merge_index m k r) = r.
Proof.
  unfold proj_mask. revert k r.
  induction m as [|[] m IH]; intros k r Hk Hr; simpl in *.
  - by destruct k, r.
  - rewrite length_map in Hr. destruct r as [|y r]; simplify_eq/=.
    destruct (IH k r) as [-> ->]; [by rewrite length_map in Hk|done|done].
  - rewrite length_map in Hk. destruct k as [|y k]; simplify_eq/=.
    destruct (IH k r) as [-> ->]; [done|by rewrite length_map in Hr|done].
Qed.

(** Projecting then merging gives the index back. *)
Lemma merge_proj m i :
  length i = length m -> merge_index m (proj_mask false m i) (proj_mask true m i) = i.
Proof.
  unfold proj_mask. revert i.
  induction m as [|[] m IH]; intros [|y i] Hl; simplify_eq/=; [done|..];
    by rewrite IH.
Qed.

Lemma merge_valid m s k r :
  length m = length s ->
  valid_index (mask_shape false m s) k -> valid_index (mask_shape true m s) r ->
  valid_index s (merge_index m k r).
Proof.
  unfold valid_index. revert s k r.
  induction m as [|[] m IH]; intros [|d s] k r Hl Hk Hr; simplify_eq/=.
  - constructor.
  - inversion Hr; subst; simpl. constructor; [lia|]. by apply IH.
  - inversion Hk; subst; simpl. constructor; [lia|]. by apply IH.
Qed.

Lemma list_filter_concat {T} (P : T -> Prop) `{!forall x, Decision (P x)}
    (L : list (list T)) :
  filter P (concat L) = concat (map (filter P) L).
Proof. induction L as [|l L IH]; [done|]. simpl. by rewrite filter_app, IH. Qed.

Lemma list_filter_map_cons (P : list nat -> Prop) `{!forall x, Decision (P x)}
    (y : nat) (I : list (list nat)) :
  filter P (map (cons y) I) = map (cons y) (filter (fun i => P (y :: i)) I).
Proof.
  induction I as [|i I IH]; [done|]. simpl. rewrite !filter_cons.
  case_decide; simpl; by rewrite IH.
Qed.

Lemma concat_map_seq_single {T} (k0 s n : nat) (f : nat -> list T) :
  concat (map (fun y => if decide (y = k0) then f y else []) (seq s n)) =
  if decide (s <= k0 < s + n) then f k0 else [].
Proof.
  revert s. induction n as [|n IH]; intros s; simpl.
  - case_decide; [lia|done].
  - rewrite IH. repeat case_decide; subst; simpl; rewrite ?app_nil_r; try done; lia.
Qed.

(** The indices of [s] whose kept coordinates are [k] are, in row-major
    order, [k] merged with each index of the reduced shape. *)
Lemma filter_indices_merge m s k :
  length m = length s -> valid_index (mask_shape false m s) k ->
  filter (fun i => proj_mask false m i = k) (indices s) =
  map (merge_index m k) (indices (mask_shape true m s)).
Proof.
  unfold valid_index. revert s k.
  induction m as [|[] m IH]; intros [|d s] k Hl Hk; simplify_eq/=.
  - inversion Hk; subst. rewrite filter_cons_True by done. done.
  - rewrite list_filter_concat, concat_map, !map_map. f_equal.
    apply map_ext. intros y. rewrite list_filter_map_cons, map_map.
    rewrite IH by done. rewrite map_map. reflexivity.
  - inversion Hk as [|k0 d' k' s' Hk0 Hk']; subst.
    rewrite list_filter_concat, map_map.
    rewrite (map_ext _ (fun y => if decide (y = k0)
        then map (cons y) (filter (fun i => proj_mask false m i = k') (indices s))
        else [])).
    + rewrite concat_map_seq_single. case_decide; [|lia].
      rewrite IH by done. rewrite !map_map. reflexivity.
    + intros y. rewrite list_filter_map_cons. case_decide as Hy.
      * subst y. f_equal. apply list_filter_iff. unfold proj_mask. simpl.
        intros i. split; [by intros [=]|by intros ->].
      * rewrite (list_filter_iff _ (fun _ => False)); [|intros i; simpl; split; [by intros [=]|done]].
        induction (indices s); [done|]. rewrite filter_cons_False; auto.
Qed.

Lemma length_merge m k r : length (merge_index m k r) = length m.
Proof.
  revert k r. induction m as [|[] m IH]; intros k r; simpl; by rewrite ?IH.
Qed.

Lemma lookup_total_head (k : list nat) : default 0 (head k) = k !!! 0.
Proof. by destruct k. Qed.

Lemma lookup_total_tail (k : list nat) t : tail k !!! t = k !!! S t.
Proof. by destruct k. Qed.

(** The coordinate of the [t]-th kept (reduced) axis of a merge_index is the
    [t]-th kept (reduced) coordinate. *)
Lemma merge_lookup_positions m b k r t :
  t < length (positions b m) ->
  merge_index m k r !!! (positions b m !!! t) = (if b then r else k) !!! t.
Proof.
  revert k r t. induction m as [|x m IH]; intros k r t Ht; simpl in *; [lia|].
  rewrite length_app, length_map in Ht.
  destruct x, b, t as [|t]; simpl in *; rewrite ?lookup_total_map by lia; simpl;
    rewrite ?lookup_total_head, ?IH, ?lookup_total_tail by lia; done.
Qed.

Lemma elem_of_positions b m d : d ∈ positions b m <-> m !! d = Some b.
Proof.
  revert d. induction m as [|x m IH]; intros d; simpl.
  - split; [set_solver|done].
  - rewrite elem_of_app, list_elem_of_fmap. destruct d as [|d]; simpl.
    + destruct x, b; simpl; set_solver.
    + rewrite <- IH. destruct (Bool.eqb x b); set_solver.
Qed.

Lemma length_positions m :
  length (positions false m) + length (positions true m) = length m.
Proof.
  induction m as [|[] m IH]; simpl; rewrite ?length_map; lia.
Qed.

(** A transpose by [kept ++ reduced] reads the merged index: this links
    NumPy's [moveaxis] to the mask algebra. *)
Lemma unpermute_positions m k r :
  length k = length (positions false m) -> length r = length (positions true m) ->
  unpermute (positions false m ++ positions true m) (k ++ r) = merge_index m k r.
Proof.
  intros Hk Hr. unfold unpermute.
  rewrite length_app, length_positions.
  rewrite <- (map_lookup_total_seq (merge_index m k r)), length_merge.
  apply map_ext_in. intros d Hd%in_seq.
  destruct (m !! d) as [b|] eqn:Ed; [|apply lookup_ge_None in Ed; lia].
  pose proof Ed as Hb. apply elem_of_positions in Hb.
  destruct b.
  - rewrite pos_of_app_r.
    2:{ rewrite elem_of_positions, Ed. done. }
    rewrite lookup_total_app_r by lia. rewrite <- Hk, Nat.add_comm, Nat.add_sub.
    rewrite <- (merge_lookup_positions m true k r) by (by apply pos_of_lt).
    by rewrite lookup_pos_of.
  - rewrite pos_of_app_l by done.
    rewrite lookup_total_app_l by (rewrite Hk; by apply pos_of_lt).
    rewrite <- (merge_lookup_positions m false k r) by (by apply pos_of_lt).
    by rewrite lookup_pos_of.
Qed.

Lemma positions_app b l1 l2 :
  positions b (l1 ++ l2) = positions b l1 ++ map (Nat.add (length l1)) (positions b l2).
Proof.
  induction l1 as [|x l1 IH]; simpl.
  - induction (positions b l2) as [|y l IHl]; simpl; congruence.
  - rewrite IH, map_app, <- app_assoc, map_map. done.
Qed.

Lemma positions_map_seq b (f : nat -> bool) n :
  positions b (map f (seq 0 n)) = filter (fun d => f d = b) (seq 0 n).
Proof.
  induction n as [|n IH]; [done|].
  rewrite seq_S, map_app, positions_app, IH, filter_app, length_map, length_seq.
  f_equal. simpl. rewrite filter_cons, filter_nil.
  destruct (f n), b; simpl; rewrite ?Nat.add_0_r; repeat case_decide; done.
Qed.

Lemma positions_axis_mask_false ax nd :
  positions false (axis_mask ax nd) = keep_axes ax nd.
Proof.
  unfold axis_mask, keep_axes. rewrite positions_map_seq.
  apply list_filter_iff. intros d. by rewrite bool_decide_eq_false.
Qed.

Lemma StronglySorted_seq s n : StronglySorted lt (seq s n).
Proof.
  revert s. induction n as [|n IH]; intros s; simpl; constructor; [apply IH|].
  apply Forall_forall. intros x Hx%elem_of_seq. lia.
Qed.

Lemma StronglySorted_filter {T} (R : relation T) (P : T -> Prop)
    `{!forall x, Decision (P x)} l :
  StronglySorted R l -> StronglySorted R (filter P l).
Proof.
  induction 1 as [|x l _ IH Hx]; [constructor|]. rewrite filter_cons.
  case_decide; [|done]. constructor; [done|].
  apply Forall_forall. intros y [_ Hy]%list_elem_of_filter.
  by apply (proj1 (Forall_forall _ _) Hx).
Qed.

Lemma StronglySorted_lt_NoDup l : StronglySorted lt l -> NoDup l.
Proof.
  induction 1 as [|x l _ IH Hx]; constructor; [|done].
  intros Hin. pose proof (proj1 (Forall_forall _ _) Hx x Hin). lia.
Qed.

(** A strictly increasing list of axes below [nd] is the ordered
    selection of [0 .. nd-1] it denotes. *)
Lemma filter_seq_sorted ax nd :
  StronglySorted lt ax -> Forall (fun d => d < nd) ax ->
  filter (fun d => d ∈ ax) (seq 0 nd) = ax.
Proof.
  intros Hs Hlt. apply (StronglySorted_unique_strong lt); [intros; lia| |done|].
  - apply StronglySorted_filter, StronglySorted_seq.
  - apply NoDup_Permutation.
    + apply NoDup_filter, NoDup_seq.
    + by apply StronglySorted_lt_NoDup.
    + intros d. rewrite list_elem_of_filter, elem_of_seq. rewrite Forall_forall in Hlt.
      split; [naive_solver|]. intros Hd. specialize (Hlt d Hd). split; [done|lia].
Qed.

(** A strictly increasing axis tuple is the list of reduced positions of
    its own mask. *)
Lemma positions_axis_mask_true ax nd :
  StronglySorted lt ax -> Forall (fun d => d < nd) ax ->
  positions true (axis_mask ax nd) = ax.
Proof.
  intros Hs Hlt. unfold axis_mask. rewrite positions_map_seq.
  transitivity (filter (fun d => d ∈ ax) (seq 0 nd)); [|by apply filter_seq_sorted].
  apply list_filter_iff. intros d. apply bool_decide_eq_true.
Qed.

(** The kept axes depend only on which axes are reduced. *)
Lemma keep_axes_ext ax ax' :
  (forall d, d ∈ ax <-> d ∈ ax') -> forall nd, keep_axes ax nd = keep_axes ax' nd.
Proof.
  intros Hext nd. unfold keep_axes. apply list_filter_iff_in. intros d _.
  by rewrite (Hext d).
Qed.

(** The complement of the complement holds the same axes. *)
Lemma elem_of_keep_axes_twice ax nd d :
  Forall (fun d => d < nd) ax -> d ∈ keep_axes (keep_axes ax nd) nd <-> d ∈ ax.
Proof.
  intros Hlt. unfold keep_axes. rewrite !list_elem_of_filter, elem_of_seq.
  rewrite Forall_forall in Hlt. specialize (Hlt d).
  destruct (decide (d ∈ ax)); naive_solver lia.
Qed.

(** The complement of the complement of a sorted tuple is the tuple. *)
Lemma keep_axes_keep_axes K nd :
  StronglySorted lt K -> Forall (fun d => d < nd) K ->
  keep_axes (keep_axes K nd) nd = K.
Proof.
  intros Hs Hlt.
  transitivity (filter (fun d => d ∈ K) (seq 0 nd)); [|by apply filter_seq_sorted].
  unfold keep_axes at 1. apply list_filter_iff_in. intros d Hd%elem_of_seq.
  unfold keep_axes. rewrite list_elem_of_filter, elem_of_seq.
  destruct (decide (d ∈ K)); naive_solver lia.
Qed.

Lemma mask_shape_positions b m s :
  length m = length s -> mask_shape b m s = map (fun d => s !!! d) (positions b m).
Proof.
  revert s. induction m as [|x m IH]; intros [|d s] Hl; simplify_eq/=; [done|].
  rewrite IH by done. destruct (Bool.eqb x b); simpl; by rewrite map_map.
Qed.

(** ** [np.moveaxis] to the trailing positions *)

Lemma py_insert_length {T} (x : T) l : py_insert (length l) x l = l ++ [x].
Proof. induction l as [|y l IH]; simpl; [done|]. by rewrite IH. Qed.

Lemma py_sorted_strict (l : list (nat * nat)) :
  StronglySorted (fun p q => p.1 < q.1) l -> py_sorted l = l.
Proof.
  induction 1 as [|p l _ IH Hp]; [done|]. simpl. rewrite IH.
  destruct l as [|q l]; [done|]. simpl. inversion Hp; subst.
  unfold pair_leb. by rewrite (proj2 (Nat.ltb_lt _ _)) by done.
Qed.

Lemma zip_seq_strict b (src : list nat) :
  StronglySorted (fun p q => p.1 < q.1) (zip (seq b (length src)) src).
Proof.
  revert b. induction src as [|s src IH]; intros b; simpl; constructor; [apply IH|].
  apply Forall_forall. intros [d s'] Hin. simpl.
  apply elem_of_zip_l, elem_of_seq in Hin. lia.
Qed.

Lemma foldl_insert_trailing (src order : list nat) :
  foldl (fun order '(d, s) => py_insert d s order) order
        (zip (seq (length order) (length src)) src) = order ++ src.
Proof.
  revert order. induction src as [|s src IH]; intros order; simpl.
  - by rewrite app_nil_r.
  - rewrite py_insert_length.
    replace (S (length order)) with (length (order ++ [s])) by (rewrite length_app; simpl; lia).
    rewrite IH, <- app_assoc. done.
Qed.

Lemma length_keep_axes ax nd :
  NoDup ax -> Forall (fun d => d < nd) ax ->
  length (keep_axes ax nd) = nd - length ax.
Proof.
  intros Hnd Hlt. unfold keep_axes.
  assert (Hp : filter (fun d => d ∈ ax) (seq 0 nd) ≡ₚ ax).
  { apply NoDup_Permutation; [apply NoDup_filter, NoDup_seq|done|].
    intros d. rewrite list_elem_of_filter, elem_of_seq. rewrite Forall_forall in Hlt.
    split; [naive_solver|]. intros Hd. specialize (Hlt d Hd). split; [done|lia]. }
  pose proof (filter_app_complement (fun d => d ∈ ax) (seq 0 nd)) as Hc.
  apply Permutation_length in Hc, Hp. rewrite length_app, length_seq in Hc. lia.
Qed.

(** Moving distinct axes to the trailing positions orders the axes as
    the kept ones followed by the moved ones, in the order given. *)
Lemma moveaxis_order_trailing nd src :
  NoDup src -> Forall (fun d => d < nd) src ->
  moveaxis_order nd src (seq (nd - length src) (length src)) = keep_axes src nd ++ src.
Proof.
  intros Hnd Hlt. unfold moveaxis_order. rewrite py_sorted_strict by apply zip_seq_strict.
  rewrite <- (length_keep_axes src nd) by done. apply foldl_insert_trailing.
Qed.

(** ** Facts about a normalised axis tuple *)

Lemma res_mapM_py_normalize e e' (s : list nat) zs ax :
  res_mapM (fun z => py_normalize e z (length s)) zs = Ok ax ->
  res_mapM (fun z => i <- py_normalize e' z (length s) ;; Ok (s !!! i)) zs =
  Ok (map (fun d => s !!! d) ax) /\ Forall (fun d => d < length s) ax /\ length ax = length zs.
Proof.
  revert ax. induction zs as [|z zs IH]; intros ax Hm; simpl in *.
  - injection Hm as <-. done.
  - unfold py_normalize in *. case_bool_decide; [|done]. simpl in Hm.
    destruct (res_mapM _ zs) as [ax'|] eqn:E; simpl in Hm; [|done].
    injection Hm as <-. destruct (IH ax' eq_refl) as (-> & Hlt & Hl). simpl.
    split; [done|]. split; [|simpl; lia]. constructor; [|done]. case_bool_decide; lia.
Qed.

(** The normalised axes, read back as Python integers, are the given
    ones wrapped around once; each given axis is in [-nd, nd). *)
Lemma res_mapM_normalize_Z zs nd ax :
  res_mapM (fun z => normalize_axis_index z nd) zs = Ok ax ->
  Forall (fun z => - Z.of_nat nd <= z < Z.of_nat nd)%Z zs /\
  map Z.of_nat ax = map (fun z => if bool_decide (z < 0)%Z then z + Z.of_nat nd else z)%Z zs.
Proof.
  revert ax. induction zs as [|z zs IH]; intros ax Hm; simpl in *.
  - by injection Hm as <-.
  - unfold normalize_axis_index at 1, py_normalize at 1 in Hm. case_bool_decide; [|done]. simpl in Hm.
    destruct (res_mapM _ zs) as [ax'|] eqn:E; simpl in Hm; [|done].
    injection Hm as <-. destruct (IH ax' eq_refl) as [Hr Hw]. split; [by constructor|].
    simpl. rewrite Hw. f_equal. case_bool_decide; lia.
Qed.

(** What [_check_axis] accepts besides [None]: a non-empty axis list,
    each axis in [-nd, nd), and no axis repeated after wrap-around. *)
Lemma _check_axis_true axis nd :
  axis <> AxNone -> _check_axis axis nd = true ->
  axis_as_list axis <> [] /\
  Forall (fun z => - Z.of_nat nd <= z < Z.of_nat nd)%Z (axis_as_list axis) /\
  NoDup (map (fun z => if bool_decide (z < 0)%Z then z + Z.of_nat nd else z)%Z (axis_as_list axis)).
Proof.
  intros Hn. replace (_check_axis axis nd) with
    (match normalize_axis_tuple (axis_as_list axis) nd with
     | Ok ax => bool_decide (ax <> []) | Err _ => false end) by (by destruct axis).
  unfold normalize_axis_tuple. destruct (res_mapM _ _) as [ax|] eqn:Hm; [|done]. simpl.
  case_bool_decide as Hnd; [|done]. intros Hne%bool_decide_eq_true_1.
  destruct (res_mapM_normalize_Z _ _ _ Hm) as [Hr Hw]. split; [|split; [done|]].
  - intros Hz. rewrite Hz in Hm. simpl in Hm. by injection Hm as <-.
  - rewrite <- Hw. by apply (NoDup_fmap_2 Z.of_nat).
Qed.

Lemma normalize_axis_tuple_Ok zs nd ax :
  normalize_axis_tuple zs nd = Ok ax ->
  NoDup ax /\ Forall (fun d => d < nd) ax /\ length ax = length zs.
Proof.
  unfold normalize_axis_tuple. destruct (res_mapM _ zs) as [ax'|] eqn:E; [|done].
  simpl. case_bool_decide; [|done]. intros [= <-]. split; [done|].
  replace nd with (length (replicate nd 0)) in E by apply length_replicate.
  destruct (res_mapM_py_normalize AxisError AxisError _ zs ax' E) as (_ & Hlt & Hl).
  rewrite length_replicate in Hlt. done.
Qed.

Lemma axis_list_Ok axis nd ax :
  axis <> AxNone -> axis_list axis nd = Ok ax ->
  normalize_axis_tuple (axis_as_list axis) nd = Ok ax.
Proof. by destruct axis. Qed.

Lemma NoDup_bounded_length (ax : list nat) nd :
  NoDup ax -> Forall (fun d => d < nd) ax -> length ax <= nd.
Proof.
  intros Hnd Hlt. rewrite <- (length_seq nd 0).
  apply NoDup_incl_length; [by apply NoDup_ListNoDup|].
  intros d Hd. apply in_seq. rewrite Forall_forall in Hlt.
  specialize (Hlt d (proj2 (list_elem_of_In _ _) Hd)). lia.
Qed.

Lemma NoDup_keep_app ax nd : NoDup ax -> NoDup (keep_axes ax nd ++ ax).
Proof.
  intros Hnd. apply NoDup_app. split; [apply NoDup_filter, NoDup_seq|].
  split; [|done]. intros d Hd%list_elem_of_filter. naive_solver.
Qed.

Lemma np_prod_mask_ones (g : nat -> nat) (ax l : list nat) :
  np_prod (map (fun d => if decide (d ∈ ax) then 1 else g d) l) =
  np_prod (map g (filter (fun d => d ∉ ax) l)).
Proof.
  induction l as [|d l IH]; [done|]. simpl. rewrite filter_cons.
  case_decide; case_decide; simpl; rewrite ?IH; try lia; done.
Qed.

(** The size of [_get_result_shape] is the number of kept cells. *)
Lemma np_prod_get_result_shape s axis keepdims ax :
  axis_list axis (length s) = Ok ax ->
  np_prod (_get_result_shape s axis keepdims) =
  np_prod (map (fun d => s !!! d) (keep_axes ax (length s))).
Proof.
  intros Hax. unfold _get_result_shape. rewrite Hax.
  destruct keepdims; [|done]. apply np_prod_mask_ones.
Qed.

Lemma keep_axes_sorted ax nd :
  StronglySorted lt (keep_axes ax nd) /\ Forall (fun d => d < nd) (keep_axes ax nd).
Proof.
  split; [apply StronglySorted_filter, StronglySorted_seq|].
  apply Forall_forall. intros d [_ Hd%elem_of_seq]%list_elem_of_filter. lia.
Qed.

Lemma get_keep_axes_Ok axis nd K :
  get_keep_axes axis nd = Ok K -> StronglySorted lt K /\ Forall (fun d => d < nd) K.
Proof.
  unfold get_keep_axes. destruct (axis_list axis nd) as [ax|]; simpl; [|done].
  intros [= <-]. apply keep_axes_sorted.
Qed.

(** The kept axes followed by the reduced ones permute the axes. *)
Lemma keep_app_perm ax nd :
  NoDup ax -> Forall (fun d => d < nd) ax -> is_axis_perm (keep_axes ax nd ++ ax) nd.
Proof.
  intros Hnd Hlt. pose proof (NoDup_bounded_length _ _ Hnd Hlt).
  split; [rewrite length_app, length_keep_axes by done; lia|].
  split; [|by apply NoDup_keep_app].
  apply Forall_app. split; [|done]. apply keep_axes_sorted.
Qed.

(** An axis that passes [_check_axis] and is not [None] normalises. *)
Lemma check_axis_list axis nd :
  _check_axis axis nd = true -> axis <> AxNone -> exists ax, axis_list axis nd = Ok ax /\ ax <> [].
Proof.
  intros Hc Hn. destruct axis as [|z|zs]; [done| |]; simpl in *;
    destruct (normalize_axis_tuple _ nd) as [ax|]; try done;
    exists ax; split; [done|by apply bool_decide_eq_true_1 in Hc| done|by apply bool_decide_eq_true_1 in Hc].
Qed.

Lemma get_keep_axes_Err axis nd e :
  get_keep_axes axis nd = Err e -> e = AxisError \/ e = ValueError.
Proof.
  unfold get_keep_axes, axis_list. destruct axis; [done| |];
    destruct (normalize_axis_tuple _ nd) eqn:E; simpl; intros; simplify_eq;
    by eapply normalize_axis_tuple_Err.
Qed.
