(* ===== verification/Kernels.v ===== *)
(** * Kernels: the closed kernel table and the statistic interface

    [_method_lookup] in [faststats.py] (lines 35-54) is a dictionary from
    method name to numba kernel, with the eighteen names of the closed
    enumeration ([method]).  [_requires_q] (line 57) lists the methods
    that take a [q] argument, and [_noreduction] (line 60) the
    elementwise ones.

    The statistics themselves are external collaborators (spec 1): the
    typeclass [StatKernels] is the interface through which the engine,
    the row kernels of [_numba] and the NumPy calls of the specialised
    kernels apply a statistic to one group.  Its law is that an
    elementwise kernel returns one value per input element.  The row
    kernels of [_numba] ([numba_kernel]) and the NumPy reference
    ([_get_numpy_method]) are not in [src/] and are modelled from the
    specification (spec 4.4, 4.5, 6). *)

From stdpp Require Export strings.
From Stdlib Require Import QArith_base.
From S2P Require Import Prelude Shape.

Inductive method :=
  | K_sum | K_nansum | K_ptp | K_percentile | K_nanpercentile | K_quantile
  | K_nanquantile | K_median | K_average | K_mean | K_std | K_var
  | K_nanmedian | K_nanmean | K_nanstd | K_nanvar | K_zscore | K_nan_zscore.

#[export] Instance method_eq_dec : EqDecision method.
Proof. solve_decision. Defined.

(** The argument [q]: a scalar or a sequence of rationals. *)
Definition qarg := list Q.

(** [_method_lookup = dict(sum=numba_sum, ..., nan_zscore=numba_nan_zscore)] *)
Definition _method_lookup_items : list (string * method) :=
  [("sum", K_sum); ("nansum", K_nansum); ("ptp", K_ptp);
   ("percentile", K_percentile); ("nanpercentile", K_nanpercentile);
   ("quantile", K_quantile); ("nanquantile", K_nanquantile);
   ("median", K_median); ("average", K_average); ("mean", K_mean);
   ("std", K_std); ("var", K_var); ("nanmedian", K_nanmedian);
   ("nanmean", K_nanmean); ("nanstd", K_nanstd); ("nanvar", K_nanvar);
   ("zscore", K_zscore); ("nan_zscore", K_nan_zscore)].

(** Python's [dict.get]: the value of the first matching key. *)
Fixpoint dict_get {V} (items : list (string * V)) (k : string) : option V :=
  match items with
  | [] => None
  | (k', v) :: items' => if decide (k = k') then Some v else dict_get items' k
  end.

Definition _method_lookup (name : string) : option method :=
  dict_get _method_lookup_items name.

(** [_requires_q = ["percentile", "nanpercentile", "quantile", "nanquantile"]] *)
Definition _requires_q : list string :=
  ["percentile"; "nanpercentile"; "quantile"; "nanquantile"].

(** [_noreduction = ["zscore", "nan_zscore"]] *)
Definition _noreduction : list string := ["zscore"; "nan_zscore"].

(** The name a method is registered under. *)
Definition method_name (m : method) : string :=
  match m with
  | K_sum => "sum" | K_nansum => "nansum" | K_ptp => "ptp"
  | K_percentile => "percentile" | K_nanpercentile => "nanpercentile"
  | K_quantile => "quantile" | K_nanquantile => "nanquantile"
  | K_median => "median" | K_average => "average" | K_mean => "mean"
  | K_std => "std" | K_var => "var" | K_nanmedian => "nanmedian"
  | K_nanmean => "nanmean" | K_nanstd => "nanstd" | K_nanvar => "nanvar"
  | K_zscore => "zscore" | K_nan_zscore => "nan_zscore"
  end.

(** The flags of the kernel table (spec 4.4). *)
Definition needs_parameter (m : method) : bool :=
  match m with
  | K_percentile | K_nanpercentile | K_quantile | K_nanquantile => true
  | _ => false
  end.

Definition is_elementwise (m : method) : bool :=
  match m with K_zscore | K_nan_zscore => true | _ => false end.

(** ** The statistic interface *)
Class StatKernels (A : Type) := {
  (** the statistic of one group, with [q] for the percentile family *)
  stat : method -> option qarg -> list A -> A;
  (** an elementwise kernel (z-score) applied to one group *)
  transform : method -> list A -> list A;
  transform_length : forall m l, length (transform m l) = length l
}.

(** Statistics that do not depend on the order in which a group is
    listed: [stat m q] respects permutation.  This holds for every
    kernel of the table, up to floating-point rounding. *)
Class OrderFreeStats (A : Type) `{StatKernels A} :=
  stat_perm_proper :: forall m q, Proper ((≡ₚ) ==> (=)) (stat m q).

(** [_percentile_is_valid] / [_quantile_is_valid] (spec 4.4): every
    value in [0, 100], respectively [0, 1]. *)
Definition q_in_range (lo hi : Q) (q : qarg) : bool :=
  forallb (fun x => Qle_bool lo x && Qle_bool x hi) q.

Definition _percentile_is_valid (q : qarg) : res unit :=
  if q_in_range 0 100 q then Ok tt else Err ValueError.

Definition _quantile_is_valid (q : qarg) : res unit :=
  if q_in_range 0 1 q then Ok tt else Err ValueError.

(** The ranges the specification allows for [q] (spec 4.4). *)
Definition percentile_bounds (q : qarg) : Prop := Forall (fun x => 0 <= x <= 100)%Q q.
Definition quantile_bounds (q : qarg) : Prop := Forall (fun x => 0 <= x <= 1)%Q q.

Section RowKernels.
Context {A : Type} `{StatKernels A}.

(** [_numba.numba_<method>(data[, q])] on a [(rows, c)] matrix: one
    statistic per row, or for the elementwise kernels a matrix of the
    same shape. *)
Definition numba_kernel (m : method) (data : ndarray A) (q : option qarg) : res (ndarray A) :=
  match shape data with
  | [n; c] =>
      if is_elementwise m
      then Ok (mkArr [n; c] (concat (map (transform m) (rows n c (buf data)))))
      else Ok (mkArr [n] (map (stat m q) (rows n c (buf data))))
  | _ => Err ValueError
  end.

(** [_get_numpy_method(method)]: the NumPy function of that name over the
    whole array (a 0-d result, or an array of the same shape for the
    elementwise kernels).  The percentile family called with
    [q=None] raises [TypeError] in NumPy. *)
Definition _get_numpy_method (name : string)
    : res (ndarray A -> option qarg -> res (ndarray A)) :=
  match _method_lookup name with
  | Some m =>
      Ok (fun a q =>
            if needs_parameter m && bool_decide (q = None) then Err TypeError
            else if is_elementwise m then Ok (mkArr (shape a) (transform m (buf a)))
            else Ok (mkArr [] [stat m q (buf a)]))
  | None => Err ValueError
  end.

End RowKernels.

(** ** The kernel table *)

Lemma _method_lookup_sound name m :
  _method_lookup name = Some m -> name = method_name m.
Proof.
  unfold _method_lookup. simpl.
  repeat (case_decide; [subst; by intros [= <-]|]). by intros [=].
Qed.

Lemma _method_lookup_complete m : _method_lookup (method_name m) = Some m.
Proof. by destruct m. Qed.

Lemma noreduction_elementwise m :
  bool_decide (method_name m ∈ _noreduction) = is_elementwise m.
Proof. by destruct m; vm_compute. Qed.

Lemma requires_q_needs_parameter m :
  bool_decide (method_name m ∈ _requires_q) = needs_parameter m.
Proof. by destruct m; vm_compute. Qed.

(** C17.  [_method_lookup] and the registered names are inverse: a
    name is found exactly when it is the name of a kernel, and it is
    found with that kernel. *)
Theorem method_lookup_roundtrip name m : _method_lookup name = Some m <-> name = method_name m.
Proof. split; [apply _method_lookup_sound|intros ->; apply _method_lookup_complete]. Qed.

Lemma q_in_range_spec lo hi q :
  q_in_range lo hi q = true <-> Forall (fun x => lo <= x <= hi)%Q q.
Proof.
  unfold q_in_range. rewrite forallb_forall, Forall_forall. setoid_rewrite <- list_elem_of_In.
  split; intros Hq x Hx; specialize (Hq x Hx).
  - apply andb_true_iff in Hq as [H1 H2]. by split; apply Qle_bool_iff.
  - destruct Hq as [H1 H2]. by apply andb_true_iff; split; apply Qle_bool_iff.
Qed.

Lemma percentile_is_valid_Ok q : _percentile_is_valid q = Ok tt -> percentile_bounds q.
Proof. unfold _percentile_is_valid. case_match; [|done]. by intros _; apply q_in_range_spec. Qed.

Lemma quantile_is_valid_Ok q : _quantile_is_valid q = Ok tt -> quantile_bounds q.
Proof. unfold _quantile_is_valid. case_match; [|done]. by intros _; apply q_in_range_spec. Qed.

Section KernelShape.
Context {A : Type} `{Inhabited A} `{StatKernels A}.

(** The NumPy function over the whole array returns the input shape
    for the elementwise methods and a 0-d array otherwise. *)
Lemma numpy_method_shape name f (a b : ndarray A) q :
  _get_numpy_method name = Ok f -> f a q = Ok b ->
  shape b = if decide (name ∈ _noreduction) then shape a else [].
Proof.
  unfold _get_numpy_method. destruct (_method_lookup name) as [m|] eqn:Hm; [|done].
  intros [= <-]. apply _method_lookup_sound in Hm as ->.
  destruct (needs_parameter m && bool_decide (q = None)); [done|].
  rewrite <- noreduction_elementwise. by case_decide; case_bool_decide; try done; intros [= <-].
Qed.

End KernelShape.

Section KernelErr.
Context {A : Type} `{Inhabited A} `{StatKernels A}.

Lemma numba_kernel_Err m (x : ndarray A) q e : numba_kernel m x q = Err e -> e = ValueError.
Proof. unfold numba_kernel. by repeat case_match; intros [= <-]. Qed.

(** The NumPy fallback raises [ValueError] on an unknown name and
    [TypeError] on a missing [q]. *)
Lemma numpy_method_Err_name name e :
  @_get_numpy_method A _ name = Err e -> e = ValueError.
Proof. unfold _get_numpy_method. by destruct (_method_lookup name); intros [= <-]. Qed.

Lemma numpy_method_Err_call name f (a : ndarray A) q e :
  _get_numpy_method name = Ok f -> f a q = Err e -> e = TypeError.
Proof.
  unfold _get_numpy_method. destruct (_method_lookup name); intros Hf; simplify_eq.
  intros Hr. by repeat case_match; simplify_eq.
Qed.

End KernelErr.
