(* ===== verification/FastStat.v ===== *)
(** * FastStat: the generic reduction engine of [faststats.py]

    [faststat] (lines 63-114) is transcribed step by step in the result
    monad.
    - the [isinstance] check (TypeError);
    - [_check_axis] (ValueError);
    - the NumPy fallback for [axis=None];
    - the method lookup (ValueError);
    - the [assert q is not None] of the percentile family;
    - [num_reduce];
    - [np.moveaxis] to the trailing positions;
    - [np.reshape(data, (-1, num_reduce))];
    - the row kernel;
    - the final reshape, or for the elementwise kernels the move back.
    The eighteen wrappers (lines 120-193) are in module [Api].

    [reference_reduce] is the specification of a reduction.  For each
    index [k] of the kept axes, in row-major order, it applies the
    statistic to the elements whose kept coordinates are [k], in
    row-major order.  The theorems of this file show that [faststat]
    computes it on every reducing call.  With a strictly increasing
    axis tuple the result is exact.  With any order of the axes it is
    exact for statistics that ignore the order of a group, and an
    order-sensitive statistic tells the orders apart.  The elementwise
    branch is treated in [Zscore], the other paths in [EnginePaths]. *)

From S2P Require Import Prelude Shape NumpyOps Axis Kernels.

Inductive pyobj (A : Type) := PyArray (a : ndarray A) | PyOther.
Arguments PyArray {A} a.
Arguments PyOther {A}.

(** [data_shape[i]] with Python's negative indices. *)
Definition py_tuple_index (s : list nat) (z : Z) : res nat :=
  i <- py_normalize IndexError z (length s) ;; Ok (s !!! i).

(** [target = np.arange(-len(axis), 0)] for a tuple, [-1] for an int. *)
Definition moveaxis_target (axis : axis_arg) : list Z :=
  match axis with
  | AxTuple zs => map (fun j => Z.of_nat j - Z.of_nat (length zs))%Z (seq 0 (length zs))
  | _ => [(-1)%Z]
  end.

(** [num_reduce = np.prod([data_shape[i] for i in axis])] or
    [data_shape[axis]]. *)
Definition num_reduce_of (s : list nat) (axis : axis_arg) : res nat :=
  match axis with
  | AxTuple zs => ns <- res_mapM (py_tuple_index s) zs ;; Ok (np_prod ns)
  | AxInt z => py_tuple_index s z
  | AxNone => Err TypeError
  end.

Section Engine.
Context {A : Type} `{Inhabited A} `{StatKernels A}.

Definition faststat (data : pyobj A) (method : string) (axis : axis_arg)
    (keepdims : bool) (q : option qarg) : res (ndarray A) :=
  match data with
  | PyOther => Err TypeError
  | PyArray a =>
    assert! _check_axis axis (ndim a) else ValueError ;;
    if _numpy_fallback axis (ndim a) then
      _func <- _get_numpy_method method ;;
      if decide (method ∈ _requires_q) then _func a q else _func a None
    else
      _func <- (match _method_lookup method with
                | Some m => Ok m
                | None => Err ValueError
                end) ;;
      use_q <- (if decide (method ∈ _requires_q)
                then match q with Some _ => Ok true | None => Err AssertionError end
                else Ok false) ;;
      let data_shape := shape a in
      num_reduce <- num_reduce_of data_shape axis ;;
      let target := moveaxis_target axis in
      moved <- np_moveaxis a (axis_as_list axis) target ;;
      mat <- np_reshape moved [(-1)%Z; Z.of_nat num_reduce] ;;
      result <- numba_kernel _func mat (if use_q then q else None) ;;
      if decide (method ∈ _noreduction) then
        back <- np_moveaxis result target (axis_as_list axis) ;;
        np_reshape back (map Z.of_nat data_shape)
      else
        np_reshape result (map Z.of_nat (_get_result_shape data_shape axis keepdims))
  end.

(** ** The specification: a reduction group by group *)

(** The elements of [a] whose kept coordinates are [k], row-major. *)
Definition group (a : ndarray A) (ax : list nat) (k : list nat) : list A :=
  map (get a) (filter (fun i => map (fun d => i !!! d) (keep_axes ax (ndim a)) = k)
                      (indices (shape a))).

Definition keep_shape (s : list nat) (ax : list nat) : list nat :=
  map (fun d => s !!! d) (keep_axes ax (length s)).

Definition reference_reduce (m : method) (q : option qarg) (a : ndarray A)
    (ax : list nat) : list A :=
  map (fun k => stat m q (group a ax k)) (indices (keep_shape (shape a) ax)).

(** The specification of an elementwise kernel (spec 4.5): the group
    of each element is transformed, and the element is replaced by the
    entry at its own position within the group. *)
Definition reference_transform (m : method) (a : ndarray A) (ax : list nat) : list A :=
  tabulate (shape a) (fun i =>
    transform m (group a ax (map (fun d => i !!! d) (keep_axes ax (ndim a))))
      !!! ravel (map (fun d => shape a !!! d) ax) (map (fun d => i !!! d) ax)).

End Engine.

(** ** The public wrappers ([faststats.py] lines 120-193)

    Each wrapper routes to [faststat] with its method name; the
    percentile and quantile wrappers first validate [q].  Python's
    default [axis=None, keepdims=False] are explicit arguments here. *)
Module Api.
Section Wrappers.
Context {A : Type} `{Inhabited A} `{StatKernels A}.

Definition sum (data : pyobj A) (axis : axis_arg) (keepdims : bool) :=
  faststat data "sum" axis keepdims None.
Definition nansum (data : pyobj A) (axis : axis_arg) (keepdims : bool) :=
  faststat data "nansum" axis keepdims None.
Definition ptp (data : pyobj A) (axis : axis_arg) (keepdims : bool) :=
  faststat data "ptp" axis keepdims None.
Definition percentile (data : pyobj A) (q : qarg) (axis : axis_arg) (keepdims : bool) :=
  _ <- _percentile_is_valid q ;; faststat data "percentile" axis keepdims (Some q).
Definition nanpercentile (data : pyobj A) (q : qarg) (axis : axis_arg) (keepdims : bool) :=
  _ <- _percentile_is_valid q ;; faststat data "nanpercentile" axis keepdims (Some q).
Definition quantile (data : pyobj A) (q : qarg) (axis : axis_arg) (keepdims : bool) :=
  _ <- _quantile_is_valid q ;; faststat data "quantile" axis keepdims (Some q).
Definition nanquantile (data : pyobj A) (q : qarg) (axis : axis_arg) (keepdims : bool) :=
  _ <- _quantile_is_valid q ;; faststat data "nanquantile" axis keepdims (Some q).
Definition median (data : pyobj A) (axis : axis_arg) (keepdims : bool) :=
  faststat data "median" axis keepdims None.
Definition average (data : pyobj A) (axis : axis_arg) (keepdims : bool) :=
  faststat data "average" axis keepdims None.
Definition mean (data : pyobj A) (axis : axis_arg) (keepdims : bool) :=
  faststat data "mean" axis keepdims None.
Definition std (data : pyobj A) (axis : axis_arg) (keepdims : bool) :=
  faststat data "std" axis keepdims None.
Definition var (data : pyobj A) (axis : axis_arg) (keepdims : bool) :=
  faststat data "var" axis keepdims None.
Definition nanmedian (data : pyobj A) (axis : axis_arg) (keepdims : bool) :=
  faststat data "nanmedian" axis keepdims None.
Definition nanmean (data : pyobj A) (axis : axis_arg) (keepdims : bool) :=
  faststat data "nanmean" axis keepdims None.
Definition nanstd (data : pyobj A) (axis : axis_arg) (keepdims : bool) :=
  faststat data "nanstd" axis keepdims None.
Definition nanvar (data : pyobj A) (axis : axis_arg) (keepdims : bool) :=
  faststat data "nanvar" axis keepdims None.
Definition zscore (data : pyobj A) (axis : axis_arg) (keepdims : bool) :=
  faststat data "zscore" axis keepdims None.
Definition nan_zscore (data : pyobj A) (axis : axis_arg) (keepdims : bool) :=
  faststat data "nan_zscore" axis keepdims None.

End Wrappers.
End Api.

(** ** Concrete instances

    A kernel set on [Z] for evaluating the theorems on concrete arrays:
    every reducing statistic is the sum of the group, and the
    elementwise kernel doubles each element (it maps each element on
    its own, so the correct z-score layout is the input layout). *)
Definition demo_kernels : StatKernels Z :=
  {| stat _ _ l := foldr Z.add 0%Z l;
     transform _ l := map (Z.mul 2) l;
     transform_length _ l := length_map _ l |}.
#[local] Existing Instance demo_kernels.

(** The array [0..23] of shape (2, 3, 4) of the specification's scenario. *)
Definition arr_2_3_4 : ndarray Z := mkArr [2; 3; 4] (map Z.of_nat (seq 0 24)).

(** ** The steps of the reduction path *)

Lemma normalize_axis_tuple_mapM zs nd ax :
  normalize_axis_tuple zs nd = Ok ax ->
  res_mapM (fun z => py_normalize AxisError z nd) zs = Ok ax.
Proof.
  unfold normalize_axis_tuple, normalize_axis_index.
  destruct (res_mapM _ zs); simpl; [|done]. by case_bool_decide.
Qed.

Lemma num_reduce_of_Ok s axis ax :
  axis <> AxNone -> axis_list axis (length s) = Ok ax ->
  num_reduce_of s axis = Ok (np_prod (map (fun d => s !!! d) ax)).
Proof.
  intros Hn Hax%axis_list_Ok%normalize_axis_tuple_mapM; [|done].
  destruct (res_mapM_py_normalize AxisError IndexError s _ ax Hax) as (Hm & _).
  unfold num_reduce_of, py_tuple_index.
  destruct axis as [|z|zs]; simpl in *; [done| |by rewrite Hm].
  destruct (py_normalize IndexError z _); simpl in *; [|done].
  injection Hm as <-. simpl. f_equal. lia.
Qed.

Lemma moveaxis_target_Ok axis nd ax :
  axis <> AxNone -> axis_list axis nd = Ok ax ->
  normalize_axis_tuple (moveaxis_target axis) nd = Ok (seq (nd - length ax) (length ax)).
Proof.
  intros Hn Hax. pose proof (normalize_axis_tuple_Ok _ _ _ (axis_list_Ok _ _ _ Hn Hax))
    as (Hnd & Hlt & Hl).
  pose proof (NoDup_bounded_length ax nd Hnd Hlt) as Hle.
  unfold normalize_axis_tuple.
  assert (Hm : res_mapM (fun z => normalize_axis_index z nd) (moveaxis_target axis) =
               Ok (seq (nd - length ax) (length ax))).
  { destruct axis as [|z|zs]; simpl in *; [done| |].
    - rewrite Hl in *. cbn [res_mapM]. unfold normalize_axis_index.
      replace (-1)%Z with (Z.of_nat (nd - 1) - Z.of_nat nd)%Z by lia.
      rewrite (py_normalize_neg AxisError (nd - 1) nd) by lia. done.
    - rewrite <- Hl. rewrite <- (seq_shift_add (nd - length ax)), res_mapM_ext with
        (g := fun z => Ok (Z.to_nat (z + Z.of_nat nd))).
      + rewrite res_mapM_Ok, map_map. f_equal. apply map_ext_in.
        intros j Hj%in_seq. lia.
      + intros z Hz. apply list_elem_of_In, in_map_iff in Hz as (j & <- & Hj%in_seq).
        unfold normalize_axis_index, py_normalize.
        rewrite !bool_decide_eq_true_2 by lia. done. }
  rewrite Hm. simpl. rewrite bool_decide_eq_true_2 by apply NoDup_seq. done.
Qed.

Section Steps.
Context {A : Type} `{Inhabited A} `{StatKernels A}.

(** [np.moveaxis(data, axis, target)] transposes by [kept ++ axis]. *)
Lemma np_moveaxis_trailing (a : ndarray A) axis ax :
  axis <> AxNone -> axis_list axis (ndim a) = Ok ax ->
  np_moveaxis a (axis_as_list axis) (moveaxis_target axis) =
  Ok (mkArr (map (fun k => shape a !!! k) (keep_axes ax (ndim a) ++ ax))
            (tabulate (map (fun k => shape a !!! k) (keep_axes ax (ndim a) ++ ax))
                      (fun j => get a (unpermute (keep_axes ax (ndim a) ++ ax) j)))).
Proof.
  intros Hn Hax. pose proof (axis_list_Ok _ _ _ Hn Hax) as Hax'.
  pose proof (normalize_axis_tuple_Ok _ _ _ Hax') as (Hnd & Hlt & _).
  pose proof (NoDup_bounded_length _ _ Hnd Hlt) as Hle.
  unfold np_moveaxis. rewrite Hax', (moveaxis_target_Ok axis (ndim a) ax) by done.
  simpl. rewrite bool_decide_eq_true_2 by (by rewrite length_seq).
  rewrite moveaxis_order_trailing by done.
  unfold np_transpose. by rewrite bool_decide_eq_true_2 by (by apply keep_app_perm).
Qed.

(** [np.reshape(x, (-1, c))] of an array of [n * c] elements, [c > 0]. *)
Lemma np_reshape_rows (x : ndarray A) n c :
  0 < c -> np_prod (shape x) = n * c ->
  np_reshape x [(-1)%Z; Z.of_nat c] = Ok (mkArr [n; c] (buf x)).
Proof.
  intros Hc Hs. unfold np_reshape, fix_unknown_dimension.
  assert (E1 : filter (fun z => (z < 0)%Z) [(-1)%Z; Z.of_nat c] = [(-1)%Z]).
  { rewrite !filter_cons, filter_nil. repeat case_decide; done || lia. }
  assert (E2 : filter (fun z => (0 <= z)%Z) [(-1)%Z; Z.of_nat c] = [Z.of_nat c]).
  { rewrite !filter_cons, filter_nil. repeat case_decide; done || lia. }
  rewrite E1, E2. simpl. rewrite Nat2Z.id, Nat.mul_1_r, Hs.
  rewrite bool_decide_eq_true_2.
  - simpl. rewrite (bool_decide_eq_false_2 (Z.of_nat c < 0)%Z) by lia.
    rewrite Nat.div_mul by lia. done.
  - split; [lia|]. apply Nat.Div0.mod_mul.
Qed.

Lemma filter_neg_of_nat (s : list nat) : filter (fun z => (z < 0)%Z) (map Z.of_nat s) = [].
Proof. induction s as [|d s IH]; [done|]. simpl. rewrite filter_cons. case_decide; [lia|done]. Qed.

Lemma filter_nonneg_of_nat (s : list nat) :
  filter (fun z => (0 <= z)%Z) (map Z.of_nat s) = map Z.of_nat s.
Proof.
  induction s as [|d s IH]; [done|]. simpl. rewrite filter_cons.
  case_decide; [by rewrite IH|lia].
Qed.

Lemma map_to_nat_of_nat (s : list nat) : map Z.to_nat (map Z.of_nat s) = s.
Proof. induction s as [|d s IH]; [done|]. simpl. by rewrite Nat2Z.id, IH. Qed.

(** [np.reshape(x, s)] with a shape of the same size. *)
Lemma np_reshape_nat (x : ndarray A) s :
  np_prod s = np_prod (shape x) ->
  np_reshape x (map Z.of_nat s) = Ok (mkArr s (buf x)).
Proof.
  intros Hs. unfold np_reshape, fix_unknown_dimension. cbv zeta.
  rewrite filter_neg_of_nat, filter_nonneg_of_nat, map_to_nat_of_nat.
  simpl. rewrite bool_decide_eq_true_2 by (symmetry; exact Hs). done.
Qed.

(** A reshape to a shape of naturals, when it succeeds, has that shape. *)
Lemma np_reshape_nat_shape (x r : ndarray A) s :
  np_reshape x (map Z.of_nat s) = Ok r -> shape r = s.
Proof.
  unfold np_reshape, fix_unknown_dimension. cbv zeta.
  rewrite filter_neg_of_nat, map_to_nat_of_nat. simpl. intros Hr. res_inv. by subst r.
Qed.

(** The row kernel of a reducing method: one statistic per row. *)
Lemma numba_kernel_reduce m (x : ndarray A) n c q :
  is_elementwise m = false -> shape x = [n; c] ->
  numba_kernel m x q = Ok (mkArr [n] (map (stat m q) (rows n c (buf x)))).
Proof. intros Hm Hs. unfold numba_kernel. by rewrite Hs, Hm. Qed.

(** The row kernel of an elementwise method: each row transformed. *)
Lemma numba_kernel_elementwise m (x : ndarray A) n c q :
  is_elementwise m = true -> shape x = [n; c] ->
  numba_kernel m x q = Ok (mkArr [n; c] (concat (map (transform m) (rows n c (buf x))))).
Proof. intros Hm Hs. unfold numba_kernel. by rewrite Hs, Hm. Qed.

(** The rows of a tabulation over [ks ++ rs] are the tabulations over
    [rs], one per index of [ks]. *)
Lemma rows_tabulate_app ks rs (f : list nat -> A) :
  rows (np_prod ks) (np_prod rs) (tabulate (ks ++ rs) f) =
  map (fun k => map (fun r => f (k ++ r)) (indices rs)) (indices ks).
Proof.
  unfold tabulate. rewrite indices_app, concat_map, map_map.
  rewrite <- (length_indices ks).
  rewrite <- (length_map (fun k => map f (map (app k) (indices rs))) (indices ks)).
  rewrite (rows_concat (np_prod rs)).
  - apply map_ext. intros k. by rewrite map_map.
  - apply Forall_forall. intros x Hx. apply list_elem_of_In, in_map_iff in Hx as (k & <- & _).
    by rewrite !length_map, length_indices.
Qed.

End Steps.

Section Reference.
Context {A : Type} `{Inhabited A} `{StatKernels A}.

(** For a strictly increasing axis tuple, the group of a kept index [k]
    is read at the merges of [k] with the indices of the reduced shape. *)
Lemma group_merge (a : ndarray A) ax k :
  StronglySorted lt ax -> Forall (fun d => d < ndim a) ax ->
  valid_index (keep_shape (shape a) ax) k ->
  group a ax k =
  map (fun r => get a (merge_index (axis_mask ax (ndim a)) k r))
      (indices (map (fun d => shape a !!! d) ax)).
Proof.
  unfold ndim. intros Hs Hlt Hk. set (m := axis_mask ax (length (shape a))).
  assert (Hlm : length m = length (shape a)) by (by unfold m, axis_mask; rewrite length_map, length_seq).
  assert (Hf : positions false m = keep_axes ax (length (shape a))) by apply positions_axis_mask_false.
  assert (Ht : positions true m = ax) by (by apply positions_axis_mask_true).
  unfold group, ndim. rewrite (list_filter_iff_in _ (fun i => proj_mask false m i = k)).
  2:{ intros i Hi%elem_of_indices. unfold proj_mask.
      rewrite mask_shape_positions, Hf; [done|]. by rewrite (valid_index_length _ _ Hi). }
  rewrite filter_indices_merge.
  - by rewrite mask_shape_positions, Ht, map_map.
  - done.
  - by rewrite mask_shape_positions, Hf.
Qed.

(** The row that [faststat] hands to the kernel for the kept index [k]
    is exactly the group of [k], for a strictly increasing tuple. *)
Lemma row_eq_group (a : ndarray A) ax k :
  StronglySorted lt ax -> Forall (fun d => d < ndim a) ax ->
  valid_index (keep_shape (shape a) ax) k ->
  map (fun r => get a (unpermute (keep_axes ax (ndim a) ++ ax) (k ++ r)))
      (indices (map (fun d => shape a !!! d) ax)) = group a ax k.
Proof.
  intros Hs Hlt Hk. rewrite group_merge by done.
  apply map_ext_in. intros r Hr%list_elem_of_In%elem_of_indices.
  replace (keep_axes ax (ndim a) ++ ax) with
    (positions false (axis_mask ax (ndim a)) ++ positions true (axis_mask ax (ndim a)))
    by (by rewrite positions_axis_mask_false, positions_axis_mask_true).
  rewrite unpermute_positions; [done| |].
  - rewrite (valid_index_length _ _ Hk). unfold keep_shape.
    by rewrite length_map, positions_axis_mask_false.
  - rewrite (valid_index_length _ _ Hr), length_map. by rewrite positions_axis_mask_true.
Qed.

(** For any order of distinct reduced axes, the row that [faststat]
    hands to the kernel for the kept index [k] lists the group of [k]
    up to a permutation: transposing by [kept ++ ax] is a bijection
    between the indices of the reduced shape and the group's indices. *)
Lemma row_perm_group (a : ndarray A) ax k :
  NoDup ax -> Forall (fun d => d < ndim a) ax ->
  valid_index (keep_shape (shape a) ax) k ->
  map (fun r => get a (unpermute (keep_axes ax (ndim a) ++ ax) (k ++ r)))
      (indices (map (fun d => shape a !!! d) ax)) ≡ₚ group a ax k.
Proof.
  intros Hnd Hlt Hk. unfold group. rewrite <- (map_map _ (get a)). apply Permutation_map.
  set (p := keep_axes ax (ndim a) ++ ax). set (rs := map (fun d => shape a !!! d) ax).
  assert (Hpn : is_axis_perm p (ndim a)) by (by apply keep_app_perm).
  assert (Hp : is_axis_perm p (length p)) by (replace (length p) with (ndim a) by (symmetry; apply Hpn); done).
  assert (Hkl : length k = length (keep_axes ax (ndim a)))
    by (by rewrite (valid_index_length _ _ Hk); unfold keep_shape; rewrite length_map).
  assert (L : forall r, valid_index rs r -> length (k ++ r) = length p).
  { intros r Hr. unfold p. rewrite !length_app, Hkl, (valid_index_length _ _ Hr). unfold rs.
    by rewrite length_map. }
  apply NoDup_Permutation.
  - apply NoDup_fmap_2_strong; [|apply NoDup_indices].
    intros r1 r2 Hr1%elem_of_indices Hr2%elem_of_indices E.
    apply unpermute_inj in E; [|done|by apply L|by apply L]. by apply app_inv_head in E.
  - apply NoDup_filter, NoDup_indices.
  - intros i. rewrite list_elem_of_fmap, list_elem_of_filter, elem_of_indices. split.
    + intros (r & -> & Hr%elem_of_indices). split.
      * assert (E : map (fun d => unpermute p (k ++ r) !!! d) (keep_axes ax (ndim a)) ++
                    map (fun d => unpermute p (k ++ r) !!! d) ax = k ++ r).
        { rewrite <- map_app. exact (map_lookup_unpermute p (k ++ r) Hp (L r Hr)). }
        apply app_inj_1 in E as [E _]; [exact E|by rewrite length_map].
      * apply valid_unpermute; [exact Hpn|].
        unfold p. rewrite map_app. by apply Forall2_app.
    + intros [Hproj Hi]. exists (map (fun d => i !!! d) ax). split.
      * rewrite <- Hproj, <- map_app. symmetry. apply unpermute_map_lookup.
        by rewrite (valid_index_length _ _ Hi).
      * apply elem_of_indices, valid_map_lookup; [done|done].
Qed.

Lemma _check_axis_Ok axis nd ax :
  axis <> AxNone -> axis_list axis nd = Ok ax -> ax <> [] -> _check_axis axis nd = true.
Proof.
  intros Hn Hax Hne. pose proof (axis_list_Ok _ _ _ Hn Hax) as E.
  destruct axis; simpl in *; [done|..]; rewrite E; by apply bool_decide_eq_true_2.
Qed.

Lemma lookup_not_elementwise name m :
  _method_lookup name = Some m -> name ∉ _noreduction -> is_elementwise m = false.
Proof.
  intros Hl Hn. apply _method_lookup_sound in Hl. subst name.
  rewrite <- noreduction_elementwise. by apply bool_decide_eq_false_2.
Qed.

(** The [assert q is not None] of the percentile family passes when
    [q] is given, and [use_q] is membership in [_requires_q]. *)
Lemma use_q_Ok name (q : option qarg) :
  (name ∈ _requires_q -> is_Some q) ->
  (if decide (name ∈ _requires_q)
   then match q with Some _ => Ok true | None => Err AssertionError end
   else Ok false) = Ok (bool_decide (name ∈ _requires_q)).
Proof.
  intros Hq. case_decide as Hr; [|by rewrite bool_decide_eq_false_2].
  destruct (Hq Hr) as [v ->]. by rewrite bool_decide_eq_true_2.
Qed.

Lemma use_q_arg name (q : option qarg) :
  (if bool_decide (name ∈ _requires_q) then q else None) =
  (if decide (name ∈ _requires_q) then q else None).
Proof. by case_bool_decide; case_decide. Qed.

(** The reduction path of [faststat], for any axis order: the row of
    kept index [k] reads the transposed array. *)
Lemma faststat_reduce_rows (a : ndarray A) name m axis keepdims q ax :
  _method_lookup name = Some m -> name ∉ _noreduction ->
  axis <> AxNone -> axis_list axis (ndim a) = Ok ax -> ax <> [] ->
  Forall (fun d => 0 < shape a !!! d) ax ->
  (name ∈ _requires_q -> is_Some q) ->
  faststat (PyArray a) name axis keepdims q =
  Ok (mkArr (_get_result_shape (shape a) axis keepdims)
        (map (fun k => stat m (if decide (name ∈ _requires_q) then q else None)
               (map (fun r => get a (unpermute (keep_axes ax (ndim a) ++ ax) (k ++ r)))
                    (indices (map (fun d => shape a !!! d) ax))))
             (indices (keep_shape (shape a) ax)))).
Proof.
  intros Hm Hno Hn Hax Hne Hpos Hq. unfold faststat.
  rewrite (_check_axis_Ok axis (ndim a) ax) by done.
  replace (_numpy_fallback axis (ndim a)) with false by (by destruct axis).
  rewrite Hm. simpl.
  rewrite use_q_Ok by done. simpl. rewrite use_q_arg.
  rewrite (num_reduce_of_Ok (shape a) axis ax) by done. simpl.
  rewrite (np_moveaxis_trailing a axis ax) by done. simpl.
  rewrite map_app, (np_reshape_rows _ (np_prod (keep_shape (shape a) ax))).
  2:{ apply np_prod_pos, Forall_forall. intros x Hx%list_elem_of_In%in_map_iff.
      destruct Hx as (d & <- & Hd%list_elem_of_In). by apply (proj1 (Forall_forall _ _) Hpos). }
  2:{ simpl. by rewrite np_prod_app. }
  simpl. rewrite (numba_kernel_reduce m _ (np_prod (keep_shape (shape a) ax))
                   (np_prod (map (fun d => shape a !!! d) ax)));
    [|exact (lookup_not_elementwise _ _ Hm Hno)|reflexivity].
  simpl. rewrite decide_False by done.
  rewrite np_reshape_nat.
  2:{ simpl. rewrite (np_prod_get_result_shape _ _ _ ax) by done. unfold keep_shape. lia. }
  simpl. unfold keep_shape, ndim. by rewrite rows_tabulate_app, map_map.
Qed.

(** The reduction path computes the reference reduction (shared by the
    theorems on the wrappers and the specialised kernels). *)
Lemma faststat_reduce_ref (a : ndarray A) name m axis keepdims q ax :
  _method_lookup name = Some m -> name ∉ _noreduction ->
  axis <> AxNone -> axis_list axis (ndim a) = Ok ax -> ax <> [] ->
  StronglySorted lt ax -> Forall (fun d => 0 < shape a !!! d) ax ->
  (name ∈ _requires_q -> is_Some q) ->
  faststat (PyArray a) name axis keepdims q =
  Ok (mkArr (_get_result_shape (shape a) axis keepdims)
            (reference_reduce m (if decide (name ∈ _requires_q) then q else None) a ax)).
Proof.
  intros Hm Hno Hn Hax Hne Hs Hpos Hq.
  pose proof (normalize_axis_tuple_Ok _ _ _ (axis_list_Ok _ _ _ Hn Hax)) as (_ & Hlt & _).
  rewrite (faststat_reduce_rows a name m axis keepdims q ax) by done.
  unfold reference_reduce. do 2 f_equal. apply map_ext_in.
  intros k Hk%list_elem_of_In%elem_of_indices. f_equal. by apply row_eq_group.
Qed.

(** The reference reduction depends only on which axes are reduced. *)
Lemma reference_reduce_ext m q (a : ndarray A) ax ax' :
  (forall d, d ∈ ax <-> d ∈ ax') -> reference_reduce m q a ax = reference_reduce m q a ax'.
Proof.
  intros Hext. unfold reference_reduce, group, keep_shape, ndim.
  by rewrite !(keep_axes_ext ax ax' Hext).
Qed.

(** A reducing call of a method without [q] returns the reference
    reduction. *)
Lemma faststat_reduce_noq (a : ndarray A) name m axis keepdims ax :
  _method_lookup name = Some m -> name ∉ _noreduction -> name ∉ _requires_q ->
  axis <> AxNone -> axis_list axis (ndim a) = Ok ax -> ax <> [] ->
  StronglySorted lt ax -> Forall (fun d => 0 < shape a !!! d) ax ->
  faststat (PyArray a) name axis keepdims None =
  Ok (mkArr (_get_result_shape (shape a) axis keepdims) (reference_reduce m None a ax)).
Proof.
  intros Hm Hno Hq Hn Hax Hne Hs Hpos.
  rewrite (faststat_reduce_ref a name m axis keepdims None ax) by naive_solver.
  by rewrite decide_False.
Qed.

(** C1.  On every call that takes the reduction path, with a strictly
    increasing axis tuple (or a single axis), no zero-length reduced
    axis and [q] present when the method requires it, [faststat]
    returns the array of shape [_get_result_shape] whose elements are
    the statistic of each group of the reference reduction, in
    row-major order of the kept axes.  [q] reaches the kernel only for
    the percentile/quantile family. *)
Theorem faststat_reduce_correct (a : ndarray A) name m axis keepdims q ax :
  _method_lookup name = Some m -> name ∉ _noreduction ->
  axis <> AxNone -> axis_list axis (ndim a) = Ok ax -> ax <> [] ->
  StronglySorted lt ax -> Forall (fun d => 0 < shape a !!! d) ax ->
  (name ∈ _requires_q -> is_Some q) ->
  faststat (PyArray a) name axis keepdims q =
  Ok (mkArr (_get_result_shape (shape a) axis keepdims)
            (reference_reduce m (if decide (name ∈ _requires_q) then q else None) a ax)).
Proof. apply faststat_reduce_ref. Qed.

End Reference.

Section AnyOrder.
Context {A : Type} `{Inhabited A} `{StatKernels A} `{!OrderFreeStats A}.

Lemma faststat_reduce_perm (a : ndarray A) name m axis keepdims q ax :
  _method_lookup name = Some m -> name ∉ _noreduction ->
  axis <> AxNone -> axis_list axis (ndim a) = Ok ax -> ax <> [] ->
  Forall (fun d => 0 < shape a !!! d) ax ->
  (name ∈ _requires_q -> is_Some q) ->
  faststat (PyArray a) name axis keepdims q =
  Ok (mkArr (_get_result_shape (shape a) axis keepdims)
            (reference_reduce m (if decide (name ∈ _requires_q) then q else None) a ax)).
Proof.
  intros Hm Hno Hn Hax Hne Hpos Hq.
  pose proof (normalize_axis_tuple_Ok _ _ _ (axis_list_Ok _ _ _ Hn Hax)) as (Hnd & Hlt & _).
  rewrite (faststat_reduce_rows a name m axis keepdims q ax) by done.
  unfold reference_reduce. do 2 f_equal. apply map_ext_in.
  intros k Hk%list_elem_of_In%elem_of_indices. by rewrite row_perm_group.
Qed.

(** C2.  For an axis tuple in any order, [faststat] returns the
    reference reduction when the statistic ignores the order of a
    group.  [np.moveaxis] keeps the user's order of the reduced axes,
    so a row lists its group in that order, a permutation of the
    row-major order. *)
Theorem faststat_reduce_any_order (a : ndarray A) name m axis keepdims q ax :
  _method_lookup name = Some m -> name ∉ _noreduction ->
  axis <> AxNone -> axis_list axis (ndim a) = Ok ax -> ax <> [] ->
  Forall (fun d => 0 < shape a !!! d) ax ->
  (name ∈ _requires_q -> is_Some q) ->
  faststat (PyArray a) name axis keepdims q =
  Ok (mkArr (_get_result_shape (shape a) axis keepdims)
            (reference_reduce m (if decide (name ∈ _requires_q) then q else None) a ax)).
Proof. apply faststat_reduce_perm. Qed.

End AnyOrder.

Lemma faststat_reduce_correct_witness :
  faststat (PyArray arr_2_3_4) "mean" (AxInt 1) false None =
  Ok (mkArr [2; 4] (reference_reduce K_mean None arr_2_3_4 [1])).
Proof.
  apply (faststat_reduce_correct arr_2_3_4 "mean" K_mean (AxInt 1) false None [1]).
  - reflexivity.
  - decide_by_eval.
  - discriminate.
  - reflexivity.
  - discriminate.
  - repeat constructor.
  - repeat constructor; vm_compute; lia.
  - intros Hr. exfalso. revert Hr. decide_by_eval.
Defined.

(** The demonstration statistic, a sum, ignores the order of a group. *)
#[local] Instance demo_order_free : OrderFreeStats Z.
Proof. intros m q l l' Hp. simpl. induction Hp; simpl; lia. Qed.

Lemma faststat_reduce_any_order_witness :
  faststat (PyArray arr_2_3_4) "sum" (AxTuple [2%Z; 0%Z]) false None =
  Ok (mkArr [3] (reference_reduce K_sum None arr_2_3_4 [2; 0])).
Proof.
  apply (faststat_reduce_any_order arr_2_3_4 "sum" K_sum (AxTuple [2%Z; 0%Z]) false None [2; 0]).
  - reflexivity.
  - decide_by_eval.
  - discriminate.
  - reflexivity.
  - discriminate.
  - repeat constructor; vm_compute; lia.
  - intros Hr. exfalso. revert Hr. decide_by_eval.
Defined.

