(* ===== verification/Zscore.v ===== *)
(** * Zscore: the elementwise path of [faststat]

    For the methods of [_noreduction] ([zscore], [nan_zscore]),
    [faststat] runs the row kernel on the transposed and reshaped
    array, then calls [np.moveaxis(result, target, axis)] on the
    two-dimensional result and reshapes it to the input shape
    ([faststats.py] lines 109-110).  The specification of an
    elementwise kernel is [reference_transform].

    The theorems show the following.
    - Along the last axis the path is correct.
    - Along axis 1 of any array of rank [>= 2] it returns the moved
      layout read back with the input's shape, which misplaces
      elements for rank [>= 3].
    - With an axis [>= 2] it raises [AxisError], because the move back
      acts on a rank-2 array.
    - On a matrix and [axis=0] it is correct: the move back is then a
      transposition of the two-dimensional result. *)

From S2P Require Import Prelude Shape NumpyOps Axis Kernels FastStat.

#[local] Existing Instance demo_kernels.

(** A (3, 4) matrix holding [0 .. 11]. *)
Definition arr_3_4 : ndarray Z := mkArr [3; 4] (map Z.of_nat (seq 0 12)).

Section Elementwise.
Context {A : Type} `{Inhabited A} `{StatKernels A}.

Lemma noreduction_not_requires_q name : name ∈ _noreduction -> name ∉ _requires_q.
Proof. unfold _noreduction, _requires_q. set_solver. Qed.

Lemma lookup_elementwise name m :
  _method_lookup name = Some m -> name ∈ _noreduction -> is_elementwise m = true.
Proof.
  intros Hl Hn. apply _method_lookup_sound in Hl. subst name.
  rewrite <- noreduction_elementwise. by apply bool_decide_eq_true_2.
Qed.

(** The elementwise path of [faststat]: the transformed rows of the
    transposed array, then [np.moveaxis(result, target, axis)] on that
    two-dimensional result and the reshape to the input shape. *)
Lemma faststat_elementwise_path (a : ndarray A) name m axis keepdims q ax :
  _method_lookup name = Some m -> name ∈ _noreduction ->
  axis <> AxNone -> axis_list axis (ndim a) = Ok ax -> ax <> [] ->
  Forall (fun d => 0 < shape a !!! d) ax ->
  faststat (PyArray a) name axis keepdims q =
  (back <- np_moveaxis
             (mkArr [np_prod (keep_shape (shape a) ax); np_prod (map (fun d => shape a !!! d) ax)]
                (concat (map (fun k => transform m
                   (map (fun r => get a (unpermute (keep_axes ax (ndim a) ++ ax) (k ++ r)))
                        (indices (map (fun d => shape a !!! d) ax))))
                   (indices (keep_shape (shape a) ax)))))
             (moveaxis_target axis) (axis_as_list axis) ;;
   np_reshape back (map Z.of_nat (shape a))).
Proof.
  intros Hm Hno Hn Hax Hne Hpos. unfold faststat.
  rewrite (_check_axis_Ok axis (ndim a) ax) by done.
  replace (_numpy_fallback axis (ndim a)) with false by (by destruct axis).
  rewrite Hm. simpl. rewrite decide_False by (by apply noreduction_not_requires_q). simpl.
  rewrite (num_reduce_of_Ok (shape a) axis ax) by done. simpl.
  rewrite (np_moveaxis_trailing a axis ax) by done. simpl.
  rewrite map_app, (np_reshape_rows _ (np_prod (keep_shape (shape a) ax))).
  2:{ apply np_prod_pos, Forall_forall. intros x Hx%list_elem_of_In%in_map_iff.
      destruct Hx as (d & <- & Hd%list_elem_of_In). by apply (proj1 (Forall_forall _ _) Hpos). }
  2:{ simpl. by rewrite np_prod_app. }
  simpl. rewrite (numba_kernel_elementwise m _ (np_prod (keep_shape (shape a) ax))
                   (np_prod (map (fun d => shape a !!! d) ax)));
    [|exact (lookup_elementwise _ _ Hm Hno)|reflexivity].
  simpl. rewrite decide_True by done.
  unfold keep_shape, ndim. by rewrite rows_tabulate_app, map_map.
Qed.

Lemma axis_list_AxInt z nd :
  (0 <= z < Z.of_nat nd)%Z -> axis_list (AxInt z) nd = Ok [Z.to_nat z].
Proof.
  intros Hz. unfold axis_list, normalize_axis_tuple, normalize_axis_index. cbn [axis_as_list res_mapM].
  rewrite <- (Z2Nat.id z) by lia. rewrite py_normalize_nat by lia. simpl.
  by rewrite Nat2Z.id.
Qed.

Lemma axis_list_last nd : 0 < nd -> axis_list (AxInt (-1)) nd = Ok [nd - 1].
Proof.
  intros Hnd. unfold axis_list, normalize_axis_tuple, normalize_axis_index. cbn [axis_as_list res_mapM].
  replace (-1)%Z with (Z.of_nat (nd - 1) - Z.of_nat nd)%Z by lia.
  by rewrite py_normalize_neg by lia.
Qed.

Lemma keep_axes_last nd : 0 < nd -> keep_axes [nd - 1] nd = seq 0 (nd - 1).
Proof.
  intros Hnd. unfold keep_axes. destruct nd as [|n]; [lia|]. rewrite Nat.sub_succ, Nat.sub_0_r.
  rewrite seq_S, filter_app, filter_cons, filter_nil, decide_False by set_solver.
  rewrite app_nil_r. apply list_filter_all. intros d Hd%elem_of_seq. rewrite list_elem_of_singleton. lia.
Qed.

(** Moving the last axis of a matrix onto itself leaves it unchanged. *)
Lemma np_moveaxis_matrix_last (x : ndarray A) n c :
  shape x = [n; c] -> wf x -> np_moveaxis x [(-1)%Z] [(-1)%Z] = Ok x.
Proof.
  intros Hs Hwf. unfold np_moveaxis. unfold ndim. rewrite Hs. simpl.
  unfold np_transpose, ndim. rewrite Hs. simpl.
  assert (E : moveaxis_order 2 [Z.to_nat (-1 + Z.of_nat 2)] [Z.to_nat (-1 + Z.of_nat 2)] = [0; 1])
    by reflexivity. rewrite E.
  destruct x as [s b]. simpl in *. subst s. f_equal. f_equal.
  transitivity (tabulate [n; c] (get (mkArr [n; c] b))); [|by apply (tabulate_get (mkArr [n; c] b))].
  apply tabulate_ext.
  intros j Hj. pose proof (valid_index_length _ _ Hj) as Hl.
  destruct j as [|y [|z [|? ?]]]; simpl in Hl; [lia|lia| |lia]. reflexivity.
Qed.


(** Moving the last axis of a matrix to the front transposes it. *)
Lemma np_moveaxis_matrix_first (x : ndarray A) c r :
  shape x = [c; r] ->
  np_moveaxis x [(-1)%Z] [0%Z] = Ok (mkArr [r; c] (tabulate [r; c] (fun j => get x [j !!! 1; j !!! 0]))).
Proof.
  intros Hs. unfold np_moveaxis, ndim. rewrite Hs. simpl.
  unfold np_transpose, ndim. rewrite Hs. simpl. reflexivity.
Qed.

(** Each group of a strictly increasing tuple has one element per
    index of the reduced shape. *)
Lemma length_group (a : ndarray A) ax k :
  StronglySorted lt ax -> Forall (fun d => d < ndim a) ax ->
  valid_index (keep_shape (shape a) ax) k ->
  length (group a ax k) = np_prod (map (fun d => shape a !!! d) ax).
Proof. intros Hs Hlt Hk. by rewrite <- row_eq_group, length_map, length_indices. Qed.

(** The kept shape of the last axis is the leading dimensions. *)
Lemma keep_shape_last (a : ndarray A) :
  0 < ndim a -> keep_shape (shape a) [ndim a - 1] = map (fun d => shape a !!! d) (seq 0 (ndim a - 1)).
Proof. intros Hnd. unfold keep_shape. fold (ndim a). by rewrite keep_axes_last. Qed.

Lemma shape_split_last (a : ndarray A) :
  0 < ndim a ->
  shape a = keep_shape (shape a) [ndim a - 1] ++ map (fun d => shape a !!! d) [ndim a - 1].
Proof.
  intros Hnd. rewrite keep_shape_last, <- map_app by done.
  replace (seq 0 (ndim a - 1) ++ [ndim a - 1]) with (seq 0 (length (shape a))).
  - by rewrite map_lookup_total_seq.
  - clear -Hnd. unfold ndim in *. destruct (length (shape a)) as [|n]; [lia|].
    rewrite seq_S. do 3 f_equal; lia.
Qed.

(** Along the last axis, the reference elementwise result is the
    concatenation of the transformed groups, in row-major order of the
    leading axes. *)
Lemma reference_transform_last m (a : ndarray A) :
  0 < ndim a ->
  reference_transform m a [ndim a - 1] =
  concat (map (fun k => transform m (group a [ndim a - 1] k))
              (indices (keep_shape (shape a) [ndim a - 1]))).
Proof.
  intros Hnd. set (ax := [ndim a - 1]).
  assert (Hlt : Forall (fun d => d < ndim a) ax) by (repeat constructor; lia).
  assert (Hs : StronglySorted lt ax) by repeat constructor.
  set (ks := keep_shape (shape a) ax). set (rs := map (fun d => shape a !!! d) ax).
  unfold reference_transform.
  transitivity (tabulate (ks ++ rs) (fun i =>
    transform m (group a ax (map (fun d => i !!! d) (keep_axes ax (ndim a))))
      !!! ravel rs (map (fun d => i !!! d) ax))); [f_equal; exact (shape_split_last a Hnd)|].
  rewrite tabulate_app. f_equal. apply map_ext_in.
  intros k Hk%list_elem_of_In%elem_of_indices.
  transitivity (map (fun r => transform m (group a ax k) !!! ravel rs r) (indices rs)).
  2:{ apply lookup_ravel_indices. by rewrite transform_length, length_group. }
  apply map_ext_in. intros r Hr%list_elem_of_In%elem_of_indices.
  assert (Lk : length k = ndim a - 1)
    by (rewrite (valid_index_length _ _ Hk); unfold ks, ax;
        by rewrite keep_shape_last, length_map, length_seq).
  assert (Lr : length r = 1) by (by rewrite (valid_index_length _ _ Hr)).
  change (keep_axes ax (ndim a)) with (keep_axes [ndim a - 1] (ndim a)).
  rewrite keep_axes_last by done. rewrite <- Lk, map_lookup_app_l.
  replace ax with (seq (length k) (length r)) by (by rewrite Lk, Lr).
  by rewrite map_lookup_app_r.
Qed.

(** C3.  On an elementwise method and the last axis ([axis=-1], the
    default), [faststat] returns an array of the input's shape in which
    each element is the entry, at its own position, of its transformed
    group: the reference elementwise result (spec 4.5). *)
Theorem faststat_elementwise_last (a : ndarray A) name m keepdims q :
  _method_lookup name = Some m -> name ∈ _noreduction ->
  0 < ndim a -> 0 < shape a !!! (ndim a - 1) ->
  faststat (PyArray a) name (AxInt (-1)) keepdims q =
  Ok (mkArr (shape a) (reference_transform m a [ndim a - 1])).
Proof.
  intros Hm Hno Hnd Hpos.
  assert (Hlt : Forall (fun d => d < ndim a) [ndim a - 1]) by (repeat constructor; lia).
  assert (Hs : StronglySorted lt [ndim a - 1]) by repeat constructor.
  rewrite (faststat_elementwise_path a name m (AxInt (-1)) keepdims q [ndim a - 1]);
    [|done|done|discriminate|by apply axis_list_last|discriminate|by repeat constructor].
  rewrite reference_transform_last by done.
  set (ax := [ndim a - 1]) in *.
  set (ks := keep_shape (shape a) ax). set (rs := map (fun d => shape a !!! d) ax).
  erewrite (map_ext_in _ (fun k => transform m (group a ax k))).
  2:{ intros k Hk%list_elem_of_In%elem_of_indices. unfold rs. by rewrite row_eq_group. }
  rewrite (np_moveaxis_matrix_last _ (np_prod ks) (np_prod rs)); [|done|].
  2:{ unfold wf. simpl. rewrite (length_concat_const (np_prod rs)).
      - rewrite length_map, length_indices. unfold rs, ax. simpl. lia.
      - apply Forall_forall. intros x (k & -> & Hk%elem_of_indices)%list_elem_of_fmap.
        by rewrite transform_length, length_group. }
  assert (Hp : np_prod (shape a) = np_prod ks * np_prod rs)
    by (by rewrite (shape_split_last a), np_prod_app at 1).
  simpl. by rewrite np_reshape_nat by (rewrite Hp; unfold rs, ax; simpl; lia).
Qed.

(** C5.  On an elementwise method ([zscore], [nan_zscore]) and a
    single axis [z >= 2], [faststat] raises NumPy's [AxisError]: it
    calls [np.moveaxis(result, -1, z)] on the two-dimensional kernel
    result, whose rank is 2.  The specification requires the input
    shape back (spec 4.2, 8). *)
Theorem faststat_elementwise_axis_error (a : ndarray A) name m z keepdims q :
  _method_lookup name = Some m -> name ∈ _noreduction ->
  (2 <= z < Z.of_nat (ndim a))%Z -> 0 < shape a !!! Z.to_nat z ->
  faststat (PyArray a) name (AxInt z) keepdims q = Err AxisError.
Proof.
  intros Hm Hno Hz Hpos.
  rewrite (faststat_elementwise_path a name m (AxInt z) keepdims q [Z.to_nat z]);
    [|done|done|discriminate|apply axis_list_AxInt; lia|discriminate|by repeat constructor].
  unfold np_moveaxis, normalize_axis_tuple, normalize_axis_index. simpl.
  rewrite py_normalize_out; [done|]. unfold ndim. simpl. lia.
Qed.

(** The transformed groups laid out one after the other form the
    tabulation over [kept ++ reduced] of the group entries. *)
Lemma concat_groups_tabulate m (a : ndarray A) ax ks rs :
  (forall k, valid_index ks k -> length (transform m (group a ax k)) = np_prod rs) ->
  concat (map (fun k => transform m (group a ax k)) (indices ks)) =
  tabulate (ks ++ rs) (fun i => transform m (group a ax (take (length ks) i))
                                  !!! ravel rs (drop (length ks) i)).
Proof.
  intros Hl. rewrite tabulate_app. f_equal. apply map_ext_in.
  intros k Hk%list_elem_of_In%elem_of_indices.
  rewrite <- (lookup_ravel_indices rs (transform m (group a ax k))) at 1 by auto.
  apply map_ext_in. intros r _. pose proof (valid_index_length _ _ Hk) as Lk.
  by rewrite take_app_length', drop_app_length' by done.
Qed.


(** C28.  On a matrix ([ndim = 2]) and [axis=0], the elementwise path
    is correct: the two-dimensional kernel result is transposed back
    by [np.moveaxis(result, -1, 0)], so [faststat] returns the
    reference elementwise result.  With C3 and C4 this shows the
    move-back is right exactly when it is a move between the two
    axes of the kernel result. *)
Theorem faststat_elementwise_matrix_first (a : ndarray A) name m keepdims q :
  _method_lookup name = Some m -> name ∈ _noreduction ->
  ndim a = 2 -> 0 < shape a !!! 0 ->
  faststat (PyArray a) name (AxInt 0) keepdims q =
  Ok (mkArr (shape a) (reference_transform m a [0])).
Proof.
  intros Hm Hno Hnd Hpos.
  assert (Hlt : Forall (fun d => d < ndim a) [0]) by (repeat constructor; lia).
  assert (Hs : StronglySorted lt [0]) by repeat constructor.
  rewrite (faststat_elementwise_path a name m (AxInt 0) keepdims q [0]);
    [|done|done|discriminate|apply (axis_list_AxInt 0); lia|discriminate|by repeat constructor].
  erewrite (map_ext_in _ (fun k => transform m (group a [0] k))).
  2:{ intros k Hk%list_elem_of_In%elem_of_indices. by rewrite row_eq_group. }
  rewrite (concat_groups_tabulate m a [0] _ (map (fun d => shape a !!! d) [0]))
    by (intros k Hk; by rewrite transform_length, length_group).
  unfold ndim in Hnd. destruct (shape a) as [|r [|c [|]]] eqn:Ha; simpl in Hnd; try lia.
  change (keep_shape [r; c] [0]) with [c]. change (map (fun d => [r; c] !!! d) [0]) with [r].
  replace (np_prod [c]) with c by (simpl; lia). replace (np_prod [r]) with r by (simpl; lia).
  change (moveaxis_target (AxInt 0)) with [(-1)%Z]. change (axis_as_list (AxInt 0)) with [0%Z].
  rewrite (np_moveaxis_matrix_first _ c r) by done. cbn [res_bind].
  rewrite np_reshape_nat by done. f_equal. f_equal.
  unfold reference_transform, ndim. rewrite Ha. apply tabulate_ext. intros j Hj.
  pose proof (valid_index_length _ _ Hj) as Hl.
  destruct j as [|i0 [|i1 [|]]]; simpl in Hl; try lia.
  apply valid_index_iff in Hj as [_ Hj].
  pose proof (Hj 0 ltac:(simpl; lia)) as Hi0. pose proof (Hj 1 ltac:(simpl; lia)) as Hi1.
  simpl in Hi0, Hi1. cbn [buf]. rewrite get_tabulate by (repeat constructor; simpl; lia).
  reflexivity.
Qed.

End Elementwise.

Lemma faststat_elementwise_last_witness :
  faststat (PyArray arr_2_3_4) "zscore" (AxInt (-1)) false None =
  Ok (mkArr [2; 3; 4] (reference_transform K_zscore arr_2_3_4 [2])).
Proof.
  apply (faststat_elementwise_last arr_2_3_4 "zscore" K_zscore false None).
  - reflexivity.
  - decide_by_eval.
  - vm_compute. lia.
  - vm_compute. lia.
Defined.

Lemma faststat_elementwise_axis_error_witness :
  faststat (PyArray arr_2_3_4) "zscore" (AxInt 2) false None = Err AxisError.
Proof.
  apply (faststat_elementwise_axis_error arr_2_3_4 "zscore" K_zscore 2 false None).
  - reflexivity.
  - decide_by_eval.
  - unfold ndim. simpl. lia.
  - vm_compute. lia.
Defined.

Lemma faststat_elementwise_matrix_first_witness :
  faststat (PyArray arr_3_4) "zscore" (AxInt 0) false None =
  Ok (mkArr [3; 4] (reference_transform K_zscore arr_3_4 [0])).
Proof.
  apply (faststat_elementwise_matrix_first arr_3_4 "zscore" K_zscore false None);
    [reflexivity|decide_by_eval|reflexivity|vm_compute; lia].
Defined.


