(* ===== verification/EnginePaths.v ===== *)
(** * EnginePaths: the remaining paths of [faststat] and its wrappers

    [faststats.py] lines 63-114 and 132-134.  The theorems cover the
    following paths.
    - An unknown method raises [ValueError].
    - A missing [q] fails the [assert q is not None].
    - A [q] given to another method is ignored.
    - A reduced axis of length zero makes the reshape raise.
    - [axis=None] takes the NumPy fallback, which ignores [keepdims].
    - The [percentile] wrapper validates [q] before the engine runs.
    - Every successful call has the shape its path promises.
    - An invalid axis raises [ValueError].
    - Each reducing wrapper routes to its own kernel.
    - A kept axis of length zero gives an empty result. *)

From S2P Require Import Prelude Shape NumpyOps Axis Kernels FastStat.

#[local] Existing Instance demo_kernels.

(** A (2, 0, 4) array, empty along its middle axis. *)
Definition arr_2_0_4 : ndarray Z := mkArr [2; 0; 4] [].

Section Paths.
Context {A : Type} `{Inhabited A} `{StatKernels A}.

(** The reducing wrappers without [q], each with the kernel its name
    denotes in the kernel table of the specification (4.4). *)
Definition api_reducing : list ((pyobj A -> axis_arg -> bool -> res (ndarray A)) * method) :=
  [(Api.sum, K_sum); (Api.nansum, K_nansum); (Api.ptp, K_ptp); (Api.median, K_median);
   (Api.average, K_average); (Api.mean, K_mean); (Api.std, K_std); (Api.var, K_var);
   (Api.nanmedian, K_nanmedian); (Api.nanmean, K_nanmean); (Api.nanstd, K_nanstd);
   (Api.nanvar, K_nanvar)].

(** C13.  A method name outside the kernel table raises [ValueError],
    on every axis (on the NumPy fallback as well). *)
Theorem faststat_unknown_method (a : ndarray A) name axis keepdims q :
  _method_lookup name = None -> faststat (PyArray a) name axis keepdims q = Err ValueError.
Proof.
  intros Hl. unfold faststat. destruct (_check_axis axis (ndim a)); [|done].
  destruct (_numpy_fallback axis (ndim a)); [unfold _get_numpy_method|]; by rewrite Hl.
Qed.

(** C12.  A percentile or quantile method without [q] fails the
    [assert q is not None] ([AssertionError]) on every valid axis
    other than [None]. *)
Theorem faststat_missing_q (a : ndarray A) name axis keepdims :
  name ∈ _requires_q -> axis <> AxNone -> _check_axis axis (ndim a) = true ->
  faststat (PyArray a) name axis keepdims None = Err AssertionError.
Proof.
  intros Hr Hn Hc. unfold faststat. rewrite Hc.
  replace (_numpy_fallback axis (ndim a)) with false by (by destruct axis).
  rewrite decide_True by done.
  unfold _requires_q in Hr. rewrite !elem_of_cons, elem_of_nil in Hr.
  by destruct Hr as [->|[->|[->|[->|[]]]]].
Qed.

(** C10.  [q] only reaches a kernel of the percentile family: for every
    other method, [faststat] with a [q] behaves as without it.  The
    specification requires a [ValidationError] instead (spec 4.4, 8). *)
Theorem faststat_q_ignored (data : pyobj A) name axis keepdims q :
  name ∉ _requires_q -> faststat data name axis keepdims q = faststat data name axis keepdims None.
Proof.
  intros Hr. unfold faststat. destruct data as [a|]; [|done].
  by destruct (decide (name ∈ _requires_q)).
Qed.

(** C14.  A reduced axis of length zero makes the reshape to
    [(-1, 0)] ambiguous: [faststat] raises [ValueError] on the
    reduction and elementwise paths alike. *)
Theorem faststat_zero_reduce (a : ndarray A) name m axis keepdims q ax d :
  _method_lookup name = Some m -> (name ∈ _requires_q -> is_Some q) ->
  axis <> AxNone -> axis_list axis (ndim a) = Ok ax -> ax <> [] ->
  d ∈ ax -> shape a !!! d = 0 ->
  faststat (PyArray a) name axis keepdims q = Err ValueError.
Proof.
  intros Hm Hq Hn Hax Hne Hd Hz. unfold faststat.
  rewrite (_check_axis_Ok axis (ndim a) ax) by done.
  replace (_numpy_fallback axis (ndim a)) with false by (by destruct axis).
  rewrite Hm. simpl. rewrite use_q_Ok by done. simpl.
  rewrite (num_reduce_of_Ok (shape a) axis ax) by done. simpl.
  rewrite (np_moveaxis_trailing a axis ax) by done. simpl.
  (* [np.reshape(x, (-1, 0))] is ambiguous *)
  rewrite np_prod_zero; [reflexivity|].
  apply list_elem_of_fmap. by exists d.
Qed.

(** C11.  With [axis=None], [faststat] calls the NumPy function on the
    whole array and returns its 0-d result, whatever [keepdims]: the
    specification's [result_shape(keepdims=true)] has a size-1 entry
    per axis (spec 4.2, 8). *)
Theorem faststat_fallback (a : ndarray A) name m keepdims q :
  _method_lookup name = Some m -> is_elementwise m = false ->
  (name ∈ _requires_q -> is_Some q) ->
  faststat (PyArray a) name AxNone keepdims q =
  Ok (mkArr [] [stat m (if decide (name ∈ _requires_q) then q else None) (buf a)]).
Proof.
  intros Hm Hel Hq. unfold faststat, _get_numpy_method. simpl. rewrite Hm. simpl.
  rewrite Hel. apply _method_lookup_sound in Hm. subst name.
  rewrite <- requires_q_needs_parameter.
  destruct (decide (method_name m ∈ _requires_q)) as [Hr|Hr].
  - destruct (Hq Hr) as [v ->]. rewrite bool_decide_eq_true_2 by done.
    by rewrite (bool_decide_eq_false_2 (Some v = None)) by congruence.
  - by rewrite bool_decide_eq_false_2.
Qed.

(** C16.  The [percentile] wrapper validates [q] before anything else:
    a value outside [0, 100] raises the [ValueError] of
    [_percentile_is_valid]; a valid [q] reaches every group of the
    reference reduction. *)
Theorem percentile_wrapper_correct (a : ndarray A) q axis keepdims ax :
  axis <> AxNone -> axis_list axis (ndim a) = Ok ax -> ax <> [] ->
  StronglySorted lt ax -> Forall (fun d => 0 < shape a !!! d) ax ->
  Api.percentile (PyArray a) q axis keepdims =
  match _percentile_is_valid q with
  | Ok _ => Ok (mkArr (_get_result_shape (shape a) axis keepdims)
                      (reference_reduce K_percentile (Some q) a ax))
  | Err e => Err e
  end.
Proof.
  intros Hn Hax Hne Hs Hpos. unfold Api.percentile.
  destruct (_percentile_is_valid q); [rewrite res_bind_Ok|done].
  rewrite (faststat_reduce_ref a "percentile" K_percentile axis keepdims (Some q) ax);
    [|done|decide_by_eval|done..|by eexists].
  by rewrite decide_True by decide_by_eval.
Qed.

(** C20.  A [q] that reaches a percentile or quantile kernel through
    a wrapper is within the range the specification allows: whenever
    [percentile] or [nanpercentile] returns, every value of [q] is in
    [0, 100]; whenever [quantile] or [nanquantile] returns, every
    value is in [0, 1]. *)
Theorem q_wrappers_bounds (data : pyobj A) q axis keepdims r :
  (Api.percentile data q axis keepdims = Ok r -> percentile_bounds q) /\
  (Api.nanpercentile data q axis keepdims = Ok r -> percentile_bounds q) /\
  (Api.quantile data q axis keepdims = Ok r -> quantile_bounds q) /\
  (Api.nanquantile data q axis keepdims = Ok r -> quantile_bounds q).
Proof.
  unfold Api.percentile, Api.nanpercentile, Api.quantile, Api.nanquantile.
  destruct (_percentile_is_valid q) as [[]|] eqn:Hp, (_quantile_is_valid q) as [[]|] eqn:Hq;
    repeat split; simpl; intros; try discriminate;
    eauto using percentile_is_valid_Ok, quantile_is_valid_Ok.
Qed.

(** C22.  Shape law of every successful call: the elementwise
    methods return the input shape whatever [axis] and [keepdims]
    (spec 8); a reduction over an axis returns [_get_result_shape];
    the [axis=None] fallback returns a 0-d array. *)
Theorem faststat_result_shape (a r : ndarray A) name axis keepdims q :
  faststat (PyArray a) name axis keepdims q = Ok r ->
  shape r = if decide (name ∈ _noreduction) then shape a
            else if _numpy_fallback axis (ndim a) then []
            else _get_result_shape (shape a) axis keepdims.
Proof.
  unfold faststat. intros Hr. res_inv.
  destruct (_numpy_fallback axis (ndim a)).
  - res_inv. case_decide; by erewrite numpy_method_shape by eauto.
  - res_inv. case_decide; res_inv; by eapply np_reshape_nat_shape.
Qed.

Lemma indices_zero s : 0 ∈ s -> indices s = [].
Proof. intros Hs. apply nil_length_inv. by rewrite length_indices, np_prod_zero. Qed.

(** C30.  Empty boundary: when a kept axis has length zero (and the
    reduced ones do not), a reducing call succeeds and returns an
    empty array of shape [_get_result_shape]; the kernel runs on a
    matrix with no rows. *)
Theorem faststat_empty_kept (a : ndarray A) name m axis keepdims q ax d :
  _method_lookup name = Some m -> name ∉ _noreduction ->
  axis <> AxNone -> axis_list axis (ndim a) = Ok ax -> ax <> [] ->
  Forall (fun d => 0 < shape a !!! d) ax ->
  (name ∈ _requires_q -> is_Some q) ->
  d < ndim a -> d ∉ ax -> shape a !!! d = 0 ->
  faststat (PyArray a) name axis keepdims q =
  Ok (mkArr (_get_result_shape (shape a) axis keepdims) []).
Proof.
  intros Hm Hno Hn Hax Hne Hpos Hq Hd Hdax Hz.
  rewrite (faststat_reduce_rows a name m axis keepdims q ax) by done.
  rewrite (indices_zero (keep_shape (shape a) ax)); [done|]. unfold keep_shape.
  apply list_elem_of_In, in_map_iff. exists d. split; [done|].
  apply list_elem_of_In, list_elem_of_filter. rewrite elem_of_seq. unfold ndim in Hd. split; [done|lia].
Qed.

(** C25.  Axis validation (spec 7, 8): an axis that is not [None] and
    is an empty tuple, holds an axis outside [-ndim, ndim), or names
    the same axis twice after wrap-around makes [faststat] raise
    [ValueError] before any work, for every method. *)
Theorem faststat_invalid_axis (a : ndarray A) name axis keepdims q :
  axis <> AxNone ->
  ~ (axis_as_list axis <> [] /\
     Forall (fun z => - Z.of_nat (ndim a) <= z < Z.of_nat (ndim a))%Z (axis_as_list axis) /\
     NoDup (map (fun z => if bool_decide (z < 0)%Z then z + Z.of_nat (ndim a) else z)%Z
                (axis_as_list axis))) ->
  faststat (PyArray a) name axis keepdims q = Err ValueError.
Proof.
  intros Hn Hbad. unfold faststat. destruct (_check_axis axis (ndim a)) eqn:E; [|done].
  exfalso. by apply Hbad, _check_axis_true.
Qed.

(** C26.  Each reducing wrapper without [q] ([sum], [nansum], [ptp],
    [median], [average], [mean], [std], [var] and their [nan] forms)
    routes to its own kernel: on a valid increasing axis tuple with
    non-empty reduced dimensions it returns the reference reduction
    of that kernel. *)
Theorem api_reduce_correct (a : ndarray A) axis keepdims ax w m :
  (w, m) ∈ api_reducing ->
  axis <> AxNone -> axis_list axis (ndim a) = Ok ax -> ax <> [] ->
  StronglySorted lt ax -> Forall (fun d => 0 < shape a !!! d) ax ->
  w (PyArray a) axis keepdims =
  Ok (mkArr (_get_result_shape (shape a) axis keepdims) (reference_reduce m None a ax)).
Proof.
  intros Hw Hn Hax Hne Hs Hpos. unfold api_reducing in Hw.
  repeat (apply elem_of_cons in Hw as [Hw|Hw]; [injection Hw as -> ->;
    apply faststat_reduce_noq; first [done|reflexivity|decide_by_eval]|]).
  by apply elem_of_nil in Hw.
Qed.

End Paths.

Lemma faststat_unknown_method_witness :
  faststat (PyArray arr_2_3_4) "mode" (AxInt 0) false None = Err ValueError.
Proof. apply faststat_unknown_method. reflexivity. Defined.

Lemma faststat_missing_q_witness :
  faststat (PyArray arr_2_3_4) "percentile" (AxInt 0) false None = Err AssertionError.
Proof.
  apply faststat_missing_q; [decide_by_eval|discriminate|reflexivity].
Defined.

Lemma faststat_q_ignored_witness :
  faststat (PyArray arr_2_3_4) "mean" (AxInt 1) false (Some []) =
  faststat (PyArray arr_2_3_4) "mean" (AxInt 1) false None.
Proof. apply faststat_q_ignored. decide_by_eval. Defined.

Lemma faststat_zero_reduce_witness :
  faststat (PyArray arr_2_0_4) "mean" (AxInt 1) false None = Err ValueError.
Proof.
  apply (faststat_zero_reduce arr_2_0_4 "mean" K_mean (AxInt 1) false None [1] 1).
  - reflexivity.
  - intros Hr. exfalso. revert Hr. decide_by_eval.
  - discriminate.
  - reflexivity.
  - discriminate.
  - by left.
  - reflexivity.
Defined.

Lemma faststat_fallback_witness :
  faststat (PyArray arr_2_3_4) "mean" AxNone true None = Ok (mkArr [] [276%Z]) /\
  _get_result_shape (shape arr_2_3_4) AxNone true = [1; 1; 1].
Proof.
  split; [|reflexivity].
  rewrite (faststat_fallback arr_2_3_4 "mean" K_mean true None); [reflexivity..|].
  intros Hr. exfalso. revert Hr. decide_by_eval.
Defined.

Lemma percentile_wrapper_correct_witness :
  Api.percentile (PyArray arr_2_3_4) [] (AxInt 1) false =
  Ok (mkArr [2; 4] (reference_reduce K_percentile (Some []) arr_2_3_4 [1])).
Proof.
  rewrite (percentile_wrapper_correct arr_2_3_4 [] (AxInt 1) false [1]); [reflexivity|..].
  - discriminate.
  - reflexivity.
  - discriminate.
  - repeat constructor.
  - repeat constructor; vm_compute; lia.
Defined.

Lemma q_wrappers_bounds_witness : percentile_bounds [QArith_base.Qmake 1 2] /\ quantile_bounds [QArith_base.Qmake 1 2].
Proof.
  split.
  - eapply (proj1 (q_wrappers_bounds (PyArray arr_2_3_4) _ (AxInt 1) false _)).
    vm_compute. reflexivity.
  - eapply (proj1 (proj2 (proj2 (q_wrappers_bounds (PyArray arr_2_3_4) _ (AxInt 1) false _)))).
    vm_compute. reflexivity.
Defined.

(** [zscore] over axis 1 with [keepdims] keeps the input shape. *)
Lemma faststat_result_shape_witness :
  shape (match faststat (PyArray arr_2_3_4) "zscore" (AxInt 1) true None with
         | Ok r => r | Err _ => mkArr [] [] end) = [2; 3; 4].
Proof.
  destruct (faststat (PyArray arr_2_3_4) "zscore" (AxInt 1) true None) as [r|] eqn:E;
    [|vm_compute in E; discriminate].
  rewrite (faststat_result_shape arr_2_3_4 r "zscore" (AxInt 1) true None E). reflexivity.
Defined.

(** Spec 8: axis 5 on a rank-3 array. *)
Lemma faststat_invalid_axis_witness :
  faststat (PyArray arr_2_3_4) "mean" (AxInt 5) false None = Err ValueError.
Proof.
  apply faststat_invalid_axis; [discriminate|]. intros (_ & Hr & _).
  apply Forall_inv in Hr. change (ndim arr_2_3_4) with 3 in Hr. lia.
Defined.

Lemma api_reduce_correct_witness :
  Api.nanmean (PyArray arr_2_3_4) (AxInt 1) false =
  Ok (mkArr [2; 4] (reference_reduce K_nanmean None arr_2_3_4 [1])).
Proof.
  apply (api_reduce_correct arr_2_3_4 (AxInt 1) false [1] Api.nanmean K_nanmean).
  - do 9 apply list_elem_of_further. apply list_elem_of_here.
  - discriminate.
  - reflexivity.
  - discriminate.
  - repeat constructor.
  - repeat constructor; vm_compute; lia.
Defined.

(** [mean] over axis 1 of a [(2, 0, 4)] array would be a zero-length
    reduction; over axis 2 it keeps the empty axis and returns a
    [(2, 0)] array with no elements. *)
Lemma faststat_empty_kept_witness :
  faststat (PyArray arr_2_0_4) "mean" (AxInt 2) false None = Ok (mkArr [2; 0] []).
Proof.
  apply (faststat_empty_kept arr_2_0_4 "mean" K_mean (AxInt 2) false None [2] 1);
    [reflexivity|decide_by_eval|discriminate|reflexivity|discriminate
    |repeat constructor; vm_compute; lia|intros Hr; exfalso; revert Hr; decide_by_eval
    |vm_compute; lia|decide_by_eval|reflexivity].
Defined.
