(* ===== verification/Scenarios.v ===== *)
(** * Scenarios: the concrete scenarios of the specification (section 8)

    Each scenario is proved for every array of the given shape and
    every kernel set: the statistics stay abstract, and only the shape
    and the grouping of the elements are fixed.
    - [mean] over axis 1 of a [(2, 3, 4)] array has shape [(2, 4)], and
      [output[i, k]] is the mean of [input[i, :, k]].
    - [sum] over [(0, 2)] with [keepdims=True] has shape [(1, 3, 1)],
      and [output[0, j, 0]] is the sum of [input[:, j, :]] in row-major
      order. *)

From S2P Require Import Prelude Shape NumpyOps Axis Kernels FastStat.

Section Scenarios.
Context {A : Type} `{Inhabited A} `{StatKernels A}.

(** An element of a reduction read at a kept index. *)
Lemma get_reference_reduce (a : ndarray A) m q ax s k :
  s = keep_shape (shape a) ax -> valid_index s k ->
  get (mkArr s (reference_reduce m q a ax)) k = stat m q (group a ax k).
Proof. intros -> Hk. apply (get_tabulate _ (fun k => stat m q (group a ax k))), Hk. Qed.

(** Two indices with the same row-major offset read the same element
    of a buffer: [keepdims] only adds size-1 axes. *)
Lemma get_same_ravel (l : list A) s s' i i' :
  ravel s i = ravel s' i' -> get (mkArr s l) i = get (mkArr s' l) i'.
Proof. unfold get. simpl. by intros ->. Qed.

(** Compute the groups of an array of a concrete shape. *)
Ltac concrete_group Ha := unfold group, ndim; rewrite Ha; reflexivity.

(** A concrete index within a concrete shape. *)
Ltac valid_idx :=
  unfold valid_index; repeat (apply List.Forall2_cons; [lia|]); apply List.Forall2_nil.

(** Discharge the side conditions of [faststat_reduce_noq] on an
    array of concrete shape. *)
Ltac concrete_call Ha :=
  first [ reflexivity | decide_by_eval | discriminate
        | (unfold ndim; rewrite Ha; reflexivity)
        | (repeat constructor; lia)
        | (rewrite Ha; repeat constructor; simpl; lia) ].

(** C23.  Spec 8, first scenario: [mean] over axis 1 of a [(2, 3, 4)]
    array returns a [(2, 4)] array with [output[i, k] = mean(input[i,
    :, k])], for every array and every kernel set. *)
Theorem faststat_mean_axis1_scenario (a : ndarray A) :
  shape a = [2; 3; 4] ->
  exists r, faststat (PyArray a) "mean" (AxInt 1) false None = Ok r /\ shape r = [2; 4] /\
  forall i k, i < 2 -> k < 4 ->
    get r [i; k] = stat K_mean None [get a [i; 0; k]; get a [i; 1; k]; get a [i; 2; k]].
Proof.
  intros Ha. eexists. split.
  { apply (faststat_reduce_noq a "mean" K_mean (AxInt 1) false [1]); concrete_call Ha. }
  assert (Hs : _get_result_shape (shape a) (AxInt 1) false = [2; 4])
    by (unfold _get_result_shape; simpl; by rewrite Ha).
  rewrite Hs. split; [done|].
  intros i k Hi Hk. rewrite get_reference_reduce;
    [|unfold keep_shape; by rewrite Ha|valid_idx].
  f_equal. destruct i as [|[|i]]; [..|lia]; destruct k as [|[|[|[|k]]]]; try lia; concrete_group Ha.
Qed.

(** C24.  Spec 8, second scenario: [sum] over [axis=(0, 2)] of a
    [(2, 3, 4)] array with [keepdims=True] returns a [(1, 3, 1)] array
    whose entry [j] is the sum of [input[:, j, :]], listed in
    row-major order. *)
Theorem faststat_sum_keepdims_scenario (a : ndarray A) :
  shape a = [2; 3; 4] ->
  exists r, faststat (PyArray a) "sum" (AxTuple [0%Z; 2%Z]) true None = Ok r /\
  shape r = [1; 3; 1] /\
  forall j, j < 3 ->
    get r [0; j; 0] = stat K_sum None
      [get a [0; j; 0]; get a [0; j; 1]; get a [0; j; 2]; get a [0; j; 3];
       get a [1; j; 0]; get a [1; j; 1]; get a [1; j; 2]; get a [1; j; 3]].
Proof.
  intros Ha. eexists. split.
  { apply (faststat_reduce_noq a "sum" K_sum (AxTuple [0%Z; 2%Z]) true [0; 2]);
      concrete_call Ha. }
  assert (Hs : _get_result_shape (shape a) (AxTuple [0%Z; 2%Z]) true = [1; 3; 1])
    by (unfold _get_result_shape; simpl; by rewrite Ha).
  rewrite Hs. split; [done|].
  intros j Hj. rewrite (get_same_ravel _ _ [3] _ [j]) by (simpl; lia).
  rewrite get_reference_reduce; [|unfold keep_shape; by rewrite Ha|valid_idx].
  f_equal. destruct j as [|[|[|j]]]; try lia; concrete_group Ha.
Qed.

End Scenarios.

#[local] Existing Instance demo_kernels.

Lemma faststat_mean_axis1_scenario_witness :
  exists r, faststat (PyArray arr_2_3_4) "mean" (AxInt 1) false None = Ok r /\ shape r = [2; 4] /\
  forall i k, i < 2 -> k < 4 ->
    get r [i; k] = stat K_mean None
      [get arr_2_3_4 [i; 0; k]; get arr_2_3_4 [i; 1; k]; get arr_2_3_4 [i; 2; k]].
Proof. apply faststat_mean_axis1_scenario. reflexivity. Defined.

Lemma faststat_sum_keepdims_scenario_witness :
  exists r, faststat (PyArray arr_2_3_4) "sum" (AxTuple [0%Z; 2%Z]) true None = Ok r /\
  shape r = [1; 3; 1] /\
  forall j, j < 3 ->
    get r [0; j; 0] = stat K_sum None
      [get arr_2_3_4 [0; j; 0]; get arr_2_3_4 [0; j; 1]; get arr_2_3_4 [0; j; 2];
       get arr_2_3_4 [0; j; 3]; get arr_2_3_4 [1; j; 0]; get arr_2_3_4 [1; j; 1];
       get arr_2_3_4 [1; j; 2]; get arr_2_3_4 [1; j; 3]].
Proof. apply faststat_sum_keepdims_scenario. reflexivity. Defined.
