(* ===== verification/Lifecycle.v ===== *)
(** * Lifecycle: [faststat] as the phase machine of the specification

    The specification (4.5) describes a call of the engine as a state
    machine: [Validating -> Planning -> Dispatching -> Reducing ->
    Reshaping -> Done], and any state may move to [Failed(error)].
    [step] runs one phase of [faststat] ([faststats.py] lines 63-114),
    in the order the code runs them.
    - [Validating] (lines 65-86): the type check, [_check_axis], the
      fallback decision, the method lookup and the [q] assertion.
    - [Fallback] (lines 71-73): the NumPy function on the whole array.
    - [Planning] (lines 88-99): [num_reduce] and [target].
    - [Dispatching] (lines 100-103): [np.moveaxis] and the reshape to
      rows.
    - [Reducing] (line 106): the row kernel.
    - [Reshaping] (lines 109-114): the move back of the elementwise
      kernels, or the reshape to [_get_result_shape].
    [fstep] is the step relation and [run] the machine with fuel.

    [run 5] computes [faststat] ([run_faststat]), so the properties of
    the states a run passes through transfer to [faststat].

    The theorems show the following.
    - [faststat] never raises [IndexError] or [TypingError]:
      [data_shape[i]] is read only after [_check_axis].
    - Fail-fast order: every reachable state carries the unchanged
      call ([inv_call]).  The row kernel is reached only after all the
      checks of [Validating] have passed.
    - Bounds: the kernel receives a [(size / num_reduce, num_reduce)]
      matrix with [num_reduce > 0] ([inv_rows]). *)

From S2P Require Import Prelude Shape NumpyOps Axis Kernels FastStat.
From stdpp Require Import relations.

(** The arguments of a call, as the code threads them. *)
Record call := mkCall {
  c_method : string;
  c_axis : axis_arg;
  c_keepdims : bool;
  c_q : option qarg
}.

Section Machine.
Context {A : Type} `{Inhabited A} `{StatKernels A}.

Inductive fstate :=
  | Validating (data : pyobj A) (c : call)
  | Fallback (a : ndarray A) (c : call)
  | Planning (a : ndarray A) (fn : method) (use_q : bool) (c : call)
  | Dispatching (a : ndarray A) (fn : method) (use_q : bool) (num_reduce : nat)
      (target : list Z) (c : call)
  | Reducing (mat : ndarray A) (fn : method) (use_q : bool) (data_shape : list nat)
      (target : list Z) (c : call)
  | Reshaping (result : ndarray A) (data_shape : list nat) (target : list Z) (c : call)
  | Done (r : ndarray A)
  | Failed (e : pyerr).

(** A phase either moves on or raises. *)
Definition of_res (r : res fstate) : fstate :=
  match r with Ok s => s | Err e => Failed e end.

Definition step (s : fstate) : option fstate :=
  match s with
  | Validating PyOther _ => Some (Failed TypeError)
  | Validating (PyArray a) c => Some (of_res (
      assert! _check_axis (c_axis c) (ndim a) else ValueError ;;
      if _numpy_fallback (c_axis c) (ndim a) then Ok (Fallback a c) else
      _func <- (match _method_lookup (c_method c) with
                | Some m => Ok m
                | None => Err ValueError
                end) ;;
      use_q <- (if decide (c_method c ∈ _requires_q)
                then match c_q c with Some _ => Ok true | None => Err AssertionError end
                else Ok false) ;;
      Ok (Planning a _func use_q c)))
  | Fallback a c => Some (of_res (
      _func <- _get_numpy_method (c_method c) ;;
      r <- (if decide (c_method c ∈ _requires_q) then _func a (c_q c) else _func a None) ;;
      Ok (Done r)))
  | Planning a fn use_q c => Some (of_res (
      num_reduce <- num_reduce_of (shape a) (c_axis c) ;;
      Ok (Dispatching a fn use_q num_reduce (moveaxis_target (c_axis c)) c)))
  | Dispatching a fn use_q num_reduce target c => Some (of_res (
      moved <- np_moveaxis a (axis_as_list (c_axis c)) target ;;
      mat <- np_reshape moved [(-1)%Z; Z.of_nat num_reduce] ;;
      Ok (Reducing mat fn use_q (shape a) target c)))
  | Reducing mat fn use_q data_shape target c => Some (of_res (
      result <- numba_kernel fn mat (if use_q then c_q c else None) ;;
      Ok (Reshaping result data_shape target c)))
  | Reshaping result data_shape target c => Some (of_res (
      r <- (if decide (c_method c ∈ _noreduction) then
              back <- np_moveaxis result target (axis_as_list (c_axis c)) ;;
              np_reshape back (map Z.of_nat data_shape)
            else
              np_reshape result
                (map Z.of_nat (_get_result_shape data_shape (c_axis c) (c_keepdims c)))) ;;
      Ok (Done r)))
  | Done _ | Failed _ => None
  end.

Inductive fstep : relation fstate :=
  | fstep_run s s' : step s = Some s' -> fstep s s'.

(** What a final state returns to the caller. *)
Definition outcome (s : fstate) : option (res (ndarray A)) :=
  match s with Done r => Some (Ok r) | Failed e => Some (Err e) | _ => None end.

Fixpoint run (fuel : nat) (s : fstate) : fstate :=
  match fuel with
  | 0 => s
  | S fuel' => match step s with Some s' => run fuel' s' | None => s end
  end.

Definition start (data : pyobj A) (method : string) (axis : axis_arg) (keepdims : bool)
    (q : option qarg) : fstate :=
  Validating data (mkCall method axis keepdims q).

(** A planned call has a validated axis; a failure is neither an
    [IndexError] nor a numba [TypingError]. *)
Definition inv_safe (s : fstate) : Prop :=
  match s with
  | Planning a _ _ c => c_axis c <> AxNone /\ exists ax, axis_list (c_axis c) (ndim a) = Ok ax
  | Failed e => e <> IndexError /\ e <> TypingError
  | _ => True
  end.

(** The checks of [Validating] that a call passed: the axis is valid
    and not the fallback case, the method is registered as [fn], and
    [use_q] is set exactly for the methods that require [q], which is
    then present. *)
Definition validated (nd : nat) (fn : method) (use_q : bool) (c : call) : Prop :=
  _check_axis (c_axis c) nd = true /\ _numpy_fallback (c_axis c) nd = false /\
  _method_lookup (c_method c) = Some fn /\
  use_q = bool_decide (c_method c ∈ _requires_q) /\ (use_q = true -> is_Some (c_q c)).

(** Every state of a run from [Validating (PyArray a) c0] carries the
    call [c0] unchanged and the shape of [a]; the states past
    [Validating] have passed its checks. *)
Definition inv_call (a : ndarray A) (c0 : call) (s : fstate) : Prop :=
  match s with
  | Validating d c => d = PyArray a /\ c = c0
  | Fallback a' c => a' = a /\ c = c0
  | Planning a' fn u c => a' = a /\ c = c0 /\ validated (ndim a) fn u c
  | Dispatching a' fn u _ t c =>
      a' = a /\ c = c0 /\ t = moveaxis_target (c_axis c) /\ validated (ndim a) fn u c
  | Reducing _ fn u ds t c =>
      ds = shape a /\ c = c0 /\ t = moveaxis_target (c_axis c) /\ validated (ndim a) fn u c
  | Reshaping _ ds t c => ds = shape a /\ c = c0 /\ t = moveaxis_target (c_axis c)
  | Done _ | Failed _ => True
  end.

(** The row kernel's input is the [(num_rows, reduce_count)] matrix of
    spec 4.3: [num_reduce] is the product of the reduced dimensions, it
    is positive and divides the size, and the matrix has
    [size / num_reduce] rows of [num_reduce] elements. *)
Definition inv_rows (s : fstate) : Prop :=
  match s with
  | Dispatching a _ _ nr _ c => num_reduce_of (shape a) (c_axis c) = Ok nr
  | Reducing m _ _ ds _ c =>
      exists nr, num_reduce_of ds (c_axis c) = Ok nr /\ 0 < nr /\
                 np_prod ds mod nr = 0 /\ shape m = [np_prod ds / nr; nr]
  | _ => True
  end.

End Machine.

(** Run the phases symbolically, keeping the operations folded. *)
Ltac phase :=
  cbn -[_method_lookup _get_numpy_method num_reduce_of np_moveaxis np_reshape numba_kernel
        _check_axis _numpy_fallback _get_result_shape moveaxis_target axis_as_list].

Section Theory.
Context {A : Type} `{Inhabited A} `{StatKernels A}.

(** Running the phases computes [faststat]. *)
Lemma run_faststat (data : pyobj A) name axis keepdims q :
  outcome (run 5 (start data name axis keepdims q)) = Some (faststat data name axis keepdims q).
Proof.
  destruct data as [a|]; [|done]. unfold start, faststat. phase.
  destruct (_check_axis axis (ndim a)); phase; [|done].
  destruct (_numpy_fallback axis (ndim a)); phase.
  - destruct (_get_numpy_method name) as [f|]; phase; [|done].
    by destruct (if decide (name ∈ _requires_q) then f a q else f a None).
  - destruct (_method_lookup name) as [fn|]; phase; [|done].
    destruct (if decide (name ∈ _requires_q) then _ else _) as [use_q|]; phase; [|done].
    destruct (num_reduce_of (shape a) axis) as [nr|]; phase; [|done].
    destruct (np_moveaxis a _ _) as [moved|]; phase; [|done].
    destruct (np_reshape moved _) as [mat|]; phase; [|done].
    destruct (numba_kernel fn mat _) as [result|]; phase; [|done].
    by destruct (if decide (name ∈ _noreduction) then _ else _).
Qed.

(** A phase either raises or moves to the next one. *)
Lemma of_res_bind {T} (c : res T) (k : T -> res (@fstate A)) :
  of_res (res_bind c k) = match c with Ok x => of_res (k x) | Err e => Failed e end.
Proof. by destruct c. Qed.

Lemma run_nsteps n (s : @fstate A) : exists k, k <= n /\ nsteps fstep k s (run n s).
Proof.
  revert s. induction n as [|n IH]; intros s; simpl.
  - exists 0. split; [lia|constructor].
  - destruct (step s) as [s'|] eqn:Hs.
    + destruct (IH s') as (k & Hk & Hn). exists (S k). split; [lia|].
      econstructor; [by constructor|done].
    + exists 0. split; [lia|constructor].
Qed.

Lemma rtc_run n (s : @fstate A) : rtc fstep s (run n s).
Proof. destruct (run_nsteps n s) as (k & _ & Hk). by eapply rtc_nsteps_2. Qed.

(** Classify the exception of a failed operation. *)
Ltac err_kind :=
  repeat match goal with
  | H : res_bind _ _ = Err _ |- _ =>
      apply res_bind_Err_inv in H as [H|(? & ? & H)]
  | H : np_moveaxis _ _ _ = Err _ |- _ => apply np_moveaxis_Err in H as [->| ->]
  | H : np_reshape _ _ = Err _ |- _ => apply np_reshape_Err in H as ->
  | H : numba_kernel _ _ _ = Err _ |- _ => apply numba_kernel_Err in H as ->
  | H : _get_numpy_method _ = Err _ |- _ => apply numpy_method_Err_name in H as ->
  | Hf : _get_numpy_method _ = Ok ?f, H : ?f _ _ = Err _ |- _ =>
      apply (numpy_method_Err_call _ f _ _ _ Hf) in H as ->
  end.

Lemma step_safe (s s' : @fstate A) : inv_safe s -> step s = Some s' -> inv_safe s'.
Proof.
  intros Hi Hs. destruct s as [[a|] c|a c|a fn u c|a fn u nr t c|m fn u ds t c|r ds t c|r|e];
    simpl in Hs; simplify_eq; repeat (simpl; rewrite ?of_res_bind; case_match); simplify_eq;
    simpl in *; err_kind; try (split; discriminate); try done.
  1,2: (* a validated call moves to [Planning] *)
    assert (Hn : c_axis c <> AxNone) by (by destruct (c_axis c));
    destruct (check_axis_list (c_axis c) (ndim a)) as (ax & Hax & _); [done|done|];
    split; [done|by exists ax].
  all: (* [num_reduce] reads only validated axes *)
    exfalso; destruct Hi as [Hn [ax Hax]];
    match goal with H : num_reduce_of _ _ = Err _ |- _ =>
      rewrite (num_reduce_of_Ok (shape a) (c_axis c) ax Hn Hax) in H; discriminate H end.
Qed.

Lemma step_call (a : ndarray A) c0 (s s' : @fstate A) :
  inv_call a c0 s -> step s = Some s' -> inv_call a c0 s'.
Proof.
  intros Hi Hs. destruct s as [[a'|] c|a' c|a' fn u c|a' fn u nr t c|m fn u ds t c|r ds t c|r|e];
    simpl in Hs; simplify_eq; repeat (simpl; rewrite ?of_res_bind; case_match); simplify_eq;
    simpl in *; res_inv; unfold validated in *; destruct_and?; simplify_eq;
    repeat split; try case_bool_decide; naive_solver.
Qed.

Lemma rtc_call (a : ndarray A) c0 (s s' : @fstate A) :
  inv_call a c0 s -> rtc fstep s s' -> inv_call a c0 s'.
Proof. intros Hw Hr. induction Hr as [|s s' s'' [? ? Hst] _ IH]; [done|]. eauto using step_call. Qed.

Lemma step_rows (s s' : @fstate A) : inv_rows s -> step s = Some s' -> inv_rows s'.
Proof.
  intros Hi Hs. destruct s as [[a'|] c|a' c|a' fn u c|a' fn u nr t c|m fn u ds t c|r ds t c|r|e];
    simpl in Hs; simplify_eq; repeat (simpl; rewrite ?of_res_bind; case_match); simplify_eq;
    simpl in *; res_inv; try done.
  match goal with
  | Hm : np_moveaxis _ _ _ = Ok ?moved, Hr : np_reshape ?moved _ = Ok _ |- _ =>
      apply np_moveaxis_prod in Hm; apply np_reshape_rows_inv in Hr as (? & ? & ?);
      rewrite Hm in *; eexists; naive_solver
  end.
Qed.

Lemma rtc_rows (s s' : @fstate A) : inv_rows s -> rtc fstep s s' -> inv_rows s'.
Proof. intros Hw Hr. induction Hr as [|s s' s'' [? ? Hst] _ IH]; [done|]. eauto using step_rows. Qed.

Lemma rtc_safe (s s' : @fstate A) : inv_safe s -> rtc fstep s s' -> inv_safe s'.
Proof. intros Hw Hr. induction Hr as [|s s' s'' [? ? Hst] _ IH]; [done|]. eauto using step_safe. Qed.

Lemma outcome_Err (s : @fstate A) e : outcome s = Some (Err e) -> s = Failed e.
Proof. by destruct s; intros [=]; subst. Qed.

(** C18.  [faststat] never raises [IndexError] and never a numba
    [TypingError]: [data_shape[i]] is read only for the axes that
    [_check_axis] has validated, and the row kernels always receive a
    two-dimensional array. *)
Theorem faststat_safe (data : pyobj A) name axis keepdims q :
  faststat data name axis keepdims q <> Err IndexError /\
  faststat data name axis keepdims q <> Err TypingError.
Proof.
  pose proof (run_faststat data name axis keepdims q) as E.
  assert (Hi : inv_safe (run 5 (start data name axis keepdims q)))
    by (eapply rtc_safe; [|apply rtc_run]; by destruct data).
  split; intros Hf; rewrite Hf in E; apply outcome_Err in E; rewrite E in Hi; naive_solver.
Qed.

(** C21.  Fail-fast ordering: a run reaches the row kernel (a
    [Reducing] state) only after every check of [Validating] has
    passed on the unchanged call: the axis is valid and not the
    fallback case, the method is registered, and [q] is present when
    the method requires it and forwarded only then. *)
Theorem lifecycle_fail_fast (a : ndarray A) name axis keepdims q mat fn u ds t c :
  rtc fstep (start (PyArray a) name axis keepdims q) (Reducing mat fn u ds t c) ->
  _check_axis axis (ndim a) = true /\ _numpy_fallback axis (ndim a) = false /\
  _method_lookup name = Some fn /\ (name ∈ _requires_q -> is_Some q) /\
  u = bool_decide (name ∈ _requires_q) /\ ds = shape a /\ c = mkCall name axis keepdims q.
Proof.
  intros Hr. apply (rtc_call a (mkCall name axis keepdims q)) in Hr; [|done].
  destruct Hr as (-> & -> & -> & Hchk & Hfb & Hm & -> & Hq). simpl in *.
  repeat split; try done. intros Hin. apply Hq. by apply bool_decide_eq_true_2.
Qed.

(** C29.  Bounds of the row kernel's input: whenever a run reaches
    the kernel, [num_reduce = np.prod(data_shape[i] for i in axis)] is
    positive and divides the size of the input, and the kernel
    receives the matrix of shape [(size / num_reduce, num_reduce)]
    (spec 4.3).  A zero-length reduced axis never reaches a kernel. *)
Theorem lifecycle_kernel_matrix (a : ndarray A) name axis keepdims q mat fn u ds t c :
  rtc fstep (start (PyArray a) name axis keepdims q) (Reducing mat fn u ds t c) ->
  exists nr, num_reduce_of (shape a) axis = Ok nr /\ 0 < nr /\
             np_prod (shape a) mod nr = 0 /\ shape mat = [np_prod (shape a) / nr; nr].
Proof.
  intros Hr. pose proof (rtc_rows (start (PyArray a) name axis keepdims q) _ I Hr) as Hrows.
  apply (rtc_call a (mkCall name axis keepdims q)) in Hr as (-> & -> & _); [|done].
  exact Hrows.
Qed.

End Theory.

#[local] Existing Instance demo_kernels.

(** The run of [mean] over axis 1 reaches the row kernel after three
    phases, with the validated call. *)
Lemma lifecycle_fail_fast_witness :
  _check_axis (AxInt 1) 3 = true /\ _method_lookup "mean" = Some K_mean.
Proof.
  pose proof (rtc_run 3 (start (PyArray arr_2_3_4) "mean" (AxInt 1) false None)) as Hr.
  remember (run 3 (start (PyArray arr_2_3_4) "mean" (AxInt 1) false None)) as s eqn:E.
  vm_compute in E. subst s.
  apply lifecycle_fail_fast in Hr as (Hchk & _ & Hm & _). split; [exact Hchk|exact Hm].
Defined.

(** The run of [mean] over axis 1 of a [(2, 3, 4)] array hands the
    kernel an [(8, 3)] matrix. *)
Lemma lifecycle_kernel_matrix_witness :
  exists mat fn u ds t c,
    rtc fstep (start (PyArray arr_2_3_4) "mean" (AxInt 1) false None) (Reducing mat fn u ds t c) /\
    shape mat = [8; 3].
Proof.
  pose proof (rtc_run 3 (start (PyArray arr_2_3_4) "mean" (AxInt 1) false None)) as Hr.
  remember (run 3 (start (PyArray arr_2_3_4) "mean" (AxInt 1) false None)) as s eqn:E.
  vm_compute in E. subst s. do 6 eexists. split; [exact Hr|].
  destruct (lifecycle_kernel_matrix _ _ _ _ _ _ _ _ _ _ _ Hr) as (nr & Hnr & _ & _ & ->).
  vm_compute in Hnr. by injection Hnr as <-.
Defined.
