(* ===== verification/KeepKernel.v ===== *)
(** * KeepKernel: the loop kernels of the specialised dispatch design

    Every [numba_<stat>_keep<axes>] kernel of [faststats/numba/percentile.py],
    [faststats2/numba/std.py] and [faststats2/numba/nanpercentile.py]
    follows the same schema.
    - [output = np.zeros((data.shape[k0], data.shape[k1], ...))] for
      the kept axes [k0 < k1 < ...];
    - nested [prange] loops [n0, n1, ...] over those dimensions;
    - [output[n0, n1, ...] = np.<stat>(data[<subscript>])], where the
      subscript places loop variables at the kept axes and [:]
      elsewhere (trailing axes are implicit [:]).  In the percentile
      kernels it also has the argument [q] as a last item.
    [loop_kernel] models the schema.  Its arguments are the statistic
    and the number of positional arguments of its call, the loop axes,
    and the literal subscript.  numba types the call before running the
    loop.  Two cases are typing errors ([TypingError]), whatever the
    data:
    - a NumPy statistic called with the wrong number of arguments
      ([np.percentile] requires [q]);
    - a constant index into [data.shape], or a subscript longer than
      the array's rank.

    [canon_sub] is the canonical subscript of a kept-axis tuple.  The
    main lemma says that a loop kernel with the canonical subscript
    computes the reference reduction over the complementary axes. *)

From S2P Require Import Prelude Shape NumpyOps Axis Kernels FastStat.

(** One item of a kernel subscript: loop variable [n_j], [:], or [q]. *)
Inductive sub_item := SVar (j : nat) | SAll | SQ.

(** The subscript item at loop index [n] and argument [q]. *)
Definition inst_item (n : list nat) (q : Z) (it : sub_item) : index_item :=
  match it with
  | SVar j => IInt (Z.of_nat (n !!! j))
  | SAll => ISlice
  | SQ => IInt q
  end.

(** Positional arity of the NumPy statistics the kernels call:
    [np.percentile(a, q)] and [np.nanpercentile(a, q)] need two, the
    others one. *)
Definition np_arity (m : method) : nat := if needs_parameter m then 2 else 1.

(** The subscript with [n_j] at the [j]-th kept ([false]) axis of a
    mask and [:] at the reduced ([true]) axes. *)
Fixpoint full_sub (m : list bool) (j : nat) : list sub_item :=
  match m with
  | [] => []
  | false :: m' => SVar j :: full_sub m' (S j)
  | true :: m' => SAll :: full_sub m' j
  end.

(** The subscript a kernel keeping the axes [K] writes: up to the last
    kept axis, trailing [:] omitted. *)
Definition canon_sub (K : list nat) : list sub_item :=
  full_sub (axis_mask (keep_axes K (S (list_max K))) (S (list_max K))) 0.

(** The selection [np_index] computes for the full subscript. *)
Fixpoint sel_of_mask (m : list bool) (n : list nat) (j : nat) : list (option nat) :=
  match m with
  | [] => []
  | false :: m' => Some (n !!! j) :: sel_of_mask m' n (S j)
  | true :: m' => None :: sel_of_mask m' n j
  end.

Section LoopKernel.
Context {A : Type} `{Inhabited A} `{StatKernels A}.

(** The loop-kernel schema.  [q] is the kernel's second parameter (the
    percentile kernels); it only enters through the subscript.  numba
    types the body when the kernel is first called, before any
    iteration: the NumPy call's arity, the constant indices into
    [data.shape] and the number of subscripts are checked against the
    array's rank, which is part of its numba type. *)
Definition loop_kernel (fn : method) (nargs : nat) (loop : list nat)
    (sub : list sub_item) (data : ndarray A) (q : Z) : res (ndarray A) :=
  assert! bool_decide (nargs = np_arity fn) else TypingError ;;
  assert! bool_decide (Forall (fun k => k < ndim data) loop /\ length sub <= ndim data)
    else TypingError ;;
  oshape <- res_mapM (fun k => py_tuple_index (shape data) (Z.of_nat k)) loop ;;
  vals <- res_mapM (fun n => x <- np_index data (map (inst_item n q) sub) ;;
                              Ok (stat fn None (buf x)))
                   (indices oshape) ;;
  Ok (mkArr oshape vals).

End LoopKernel.

(** ** The canonical subscript *)

Lemma full_sub_app m1 m2 j :
  full_sub (m1 ++ m2) j = full_sub m1 j ++ full_sub m2 (j + length (positions false m1)).
Proof.
  revert j. induction m1 as [|[] m1 IH]; intros j; simpl.
  - by rewrite Nat.add_0_r.
  - by rewrite IH, length_map.
  - by rewrite IH, length_map, Nat.add_succ_r.
Qed.

Lemma full_sub_repeat_true t j : full_sub (repeat true t) j = repeat SAll t.
Proof. revert j. induction t as [|t IH]; intros j; simpl; by rewrite ?IH. Qed.

Lemma keep_axes_elem K nd d : d ∈ keep_axes K nd <-> d ∉ K /\ d < nd.
Proof.
  unfold keep_axes. rewrite list_elem_of_filter, elem_of_seq.
  split; intros [? ?]; split; auto; lia.
Qed.

(** The mask of the complement of [K] on [nd] axes is the one on the
    axes up to [max K], padded with reduced axes. *)
Lemma axis_mask_keep_split K nd M0 :
  M0 <= nd -> Forall (fun d => d < M0) K ->
  axis_mask (keep_axes K nd) nd =
  axis_mask (keep_axes K M0) M0 ++ repeat true (nd - M0).
Proof.
  intros Hle HK. unfold axis_mask.
  replace (seq 0 nd) with (seq 0 (M0 + (nd - M0))) by (f_equal; lia).
  rewrite seq_app, map_app. f_equal.
  - apply map_ext_in. intros d Hd%in_seq.
    apply bool_decide_ext. rewrite !keep_axes_elem.
    split; intros [? ?]; split; auto; lia.
  - rewrite (map_const_in _ true), length_seq; [done|].
    intros d Hd%elem_of_seq. apply bool_decide_eq_true_2, keep_axes_elem.
    split; [|lia]. intros HdK. rewrite Forall_forall in HK. specialize (HK d HdK). lia.
Qed.

Lemma list_max_lt K : Forall (fun d => d < S (list_max K)) K.
Proof.
  apply Forall_forall. intros d Hd.
  pose proof (proj1 (list_max_le K (list_max K)) (le_n _)) as Hm.
  rewrite Forall_forall in Hm. specialize (Hm d Hd). lia.
Qed.

(** On [nd] axes the canonical subscript is the full one with its
    trailing [:] omitted. *)
Lemma full_sub_canon K nd :
  list_max K < nd ->
  full_sub (axis_mask (keep_axes K nd) nd) 0 =
  canon_sub K ++ repeat SAll (nd - S (list_max K)).
Proof.
  intros Hlt. rewrite (axis_mask_keep_split K nd (S (list_max K))).
  - by rewrite full_sub_app, full_sub_repeat_true.
  - lia.
  - apply list_max_lt.
Qed.

(** ** Basic indexing with the canonical subscript *)

Lemma index_sel_trailing items t s :
  length items + t = length s ->
  index_sel (items ++ repeat ISlice t) s = index_sel items s.
Proof.
  revert items t. induction s as [|d s IH]; intros items t Hl.
  - destruct items, t; simpl in *; done || lia.
  - destruct items as [|[z|] items]; simpl in Hl.
    + destruct t as [|t]; [simpl in Hl; lia|]. simpl.
      pose proof (IH [] t ltac:(simpl in *; lia)) as E. simpl in E. by rewrite E.
    + simpl. rewrite IH by lia. done.
    + simpl. rewrite IH by lia. done.
Qed.

Lemma drop_lookup_cons (n : list nat) j x rest :
  drop j n = x :: rest -> n !!! j = x /\ drop (S j) n = rest.
Proof.
  revert n. induction j as [|j IH]; intros [|y n] Hd; simpl in *; try done.
  - by injection Hd as -> ->.
  - by apply IH.
Qed.

Lemma index_sel_full_sub m s n j q :
  length m = length s -> valid_index (mask_shape false m s) (drop j n) ->
  index_sel (map (inst_item n q) (full_sub m j)) s = Ok (sel_of_mask m n j).
Proof.
  unfold valid_index. revert s j.
  induction m as [|[] m IH]; intros [|d s] j Hl Hv; simplify_eq/=; [done| |].
  - rewrite IH by done. done.
  - inversion Hv as [|x d' rest s' Hx Hrest E1 E2].
    destruct (drop_lookup_cons n j x rest ltac:(done)) as [Hj Hd]. subst x.
    rewrite py_normalize_nat by done. simpl. rewrite IH by (by rewrite ?Hd). done.
Qed.

Lemma sel_shape_sel_of_mask m s n j :
  length m = length s -> sel_shape (sel_of_mask m n j) s = mask_shape true m s.
Proof.
  revert s j. induction m as [|[] m IH]; intros [|d s] j Hl; simplify_eq/=; [done|..];
    by rewrite IH.
Qed.

Lemma head_drop_total (n : list nat) j : default 0 (head (drop j n)) = n !!! j.
Proof. revert n. induction j as [|j IH]; intros [|y n]; simpl; auto. Qed.

Lemma tail_drop (n : list nat) j : tail (drop j n) = drop (S j) n.
Proof. revert n. induction j as [|j IH]; intros [|y n]; simpl; auto. Qed.

Lemma fill_sel_of_mask m n j r :
  fill (sel_of_mask m n j) r = merge_index m (drop j n) r.
Proof.
  revert j r. induction m as [|[] m IH]; intros j r; simpl; [done| |].
  - destruct r as [|x r]; simpl; by rewrite IH.
  - by rewrite IH, head_drop_total, tail_drop.
Qed.

Lemma length_full_sub m j : length (full_sub m j) = length m.
Proof. revert j. induction m as [|[] m IH]; intros j; simpl; by rewrite ?IH. Qed.

Lemma map_inst_repeat n q t : map (inst_item n q) (repeat SAll t) = repeat ISlice t.
Proof. induction t as [|t IH]; simpl; by rewrite ?IH. Qed.

Lemma py_tuple_index_nat s k : k < length s -> py_tuple_index s (Z.of_nat k) = Ok (s !!! k).
Proof. intros Hk. unfold py_tuple_index. by rewrite py_normalize_nat. Qed.

Lemma loop_shape_Ok (s K : list nat) :
  Forall (fun k => k < length s) K ->
  res_mapM (fun k => py_tuple_index s (Z.of_nat k)) K = Ok (map (fun k => s !!! k) K).
Proof.
  intros HK. rewrite (res_mapM_ext _ (fun k => Ok (s !!! k))); [apply res_mapM_Ok|].
  intros k Hk. apply py_tuple_index_nat. by apply (proj1 (Forall_forall _ _) HK).
Qed.

Section Refinement.
Context {A : Type} `{Inhabited A} `{StatKernels A}.

(** Indexing with the canonical subscript of [K] at a kept index [n]
    yields the group of [n] for the complementary axes. *)
Lemma np_index_canon (data : ndarray A) K n q :
  StronglySorted lt K -> list_max K < ndim data ->
  valid_index (map (fun k => shape data !!! k) K) n ->
  exists x, np_index data (map (inst_item n q) (canon_sub K)) = Ok x /\
            buf x = group data (keep_axes K (ndim data)) n.
Proof.
  unfold ndim. intros Hs Hmax Hn. set (nd := length (shape data)). set (ax := keep_axes K nd).
  set (m := axis_mask ax nd).
  pose proof (list_max_lt K) as HK.
  assert (HKnd : Forall (fun d => d < nd) K).
  { eapply Forall_impl; [exact HK|]. simpl. intros d Hd. unfold nd. lia. }
  assert (Hax_s : StronglySorted lt ax) by apply StronglySorted_filter, StronglySorted_seq.
  assert (Hax_lt : Forall (fun d => d < nd) ax).
  { apply Forall_forall. intros d [_ Hd%elem_of_seq]%list_elem_of_filter. lia. }
  assert (Hlm : length m = length (shape data)) by (by unfold m, axis_mask; rewrite length_map, length_seq).
  assert (Hf : positions false m = K).
  { unfold m, ax. rewrite positions_axis_mask_false. by apply keep_axes_keep_axes. }
  assert (Hsel : index_sel (map (inst_item n q) (canon_sub K)) (shape data) =
                 Ok (sel_of_mask m n 0)).
  { rewrite <- (index_sel_trailing _ (nd - S (list_max K))).
    2:{ rewrite length_map. unfold canon_sub. rewrite length_full_sub.
        unfold axis_mask. rewrite length_map, length_seq. lia. }
    rewrite <- (map_inst_repeat n q), <- map_app.
    rewrite <- (full_sub_canon K nd) by done.
    change (axis_mask (keep_axes K nd) nd) with m.
    apply index_sel_full_sub; [done|]. rewrite drop_0, mask_shape_positions by done.
    by rewrite Hf. }
  eexists. split.
  - unfold np_index. rewrite bool_decide_eq_true_2.
    2:{ rewrite length_map. unfold canon_sub. rewrite length_full_sub.
        unfold axis_mask, ndim. rewrite length_map, length_seq. lia. }
    rewrite Hsel. reflexivity.
  - simpl. rewrite sel_shape_sel_of_mask by done.
    rewrite group_merge; [|done|exact Hax_lt|unfold keep_shape, ax, nd; by rewrite keep_axes_keep_axes].
    unfold tabulate. rewrite mask_shape_positions by done.
    unfold m. rewrite positions_axis_mask_true by done.
    apply map_ext. intros r. by rewrite fill_sel_of_mask, drop_0.
Qed.

(** A loop kernel that keeps the strictly increasing axes [K] with the
    canonical subscript computes the reference reduction over the
    other axes, for any array of rank above [max K]. *)
Lemma loop_kernel_canon fn (data : ndarray A) K q :
  needs_parameter fn = false -> StronglySorted lt K -> list_max K < ndim data ->
  loop_kernel fn 1 K (canon_sub K) data q =
  Ok (mkArr (map (fun k => shape data !!! k) K)
            (reference_reduce fn None data (keep_axes K (ndim data)))).
Proof.
  intros Hfn Hs Hmax. pose proof (list_max_lt K) as HK.
  assert (HKnd : Forall (fun d => d < length (shape data)) K).
  { eapply Forall_impl; [exact HK|]. simpl. unfold ndim in Hmax. lia. }
  unfold loop_kernel. rewrite bool_decide_eq_true_2 by (by unfold np_arity; rewrite Hfn).
  rewrite bool_decide_eq_true_2.
  2:{ split; [done|]. unfold canon_sub. rewrite length_full_sub.
      unfold axis_mask. rewrite length_map, length_seq. lia. }
  rewrite loop_shape_Ok by done. simpl.
  rewrite (res_mapM_ext _ (fun n => Ok (stat fn None (group data (keep_axes K (ndim data)) n)))).
  - rewrite res_mapM_Ok. simpl. unfold reference_reduce, keep_shape, ndim.
    by rewrite keep_axes_keep_axes.
  - intros n Hn%elem_of_indices.
    destruct (np_index_canon data K n q) as (x & -> & Hx); [done..|]. simpl. by rewrite Hx.
Qed.

(** numba rejects a NumPy statistic called with the wrong number of
    positional arguments, whatever the data. *)
Lemma loop_kernel_arity fn nargs loop sub (data : ndarray A) q :
  nargs <> np_arity fn -> loop_kernel fn nargs loop sub data q = Err TypingError.
Proof. intros Hn. unfold loop_kernel. by rewrite bool_decide_eq_false_2. Qed.

(** A loop kernel with the canonical subscript of non-empty sorted
    kept axes either computes its result or is rejected when numba
    types it (a kept axis past the rank): it never raises at run
    time. *)
Lemma loop_kernel_canon_total fn (data : ndarray A) K q :
  needs_parameter fn = false -> StronglySorted lt K -> K <> [] ->
  (exists r, loop_kernel fn 1 K (canon_sub K) data q = Ok r) \/
  loop_kernel fn 1 K (canon_sub K) data q = Err TypingError.
Proof.
  intros Hfn Hs Hne. destruct (decide (list_max K < ndim data)) as [Hlt|Hge].
  - left. eexists. by apply loop_kernel_canon.
  - right. unfold loop_kernel. rewrite bool_decide_eq_true_2 by (by unfold np_arity; rewrite Hfn).
    rewrite bool_decide_eq_false_2; [done|]. intros [HK _]. apply Hge.
    exact (proj2 (Stdlib.Lists.List.list_max_lt (ndim data) Hne) HK).
Qed.

End Refinement.

(** Walk a [get_*] dispatch chain [if keep_axes == t: return kernel(...)]
    against its table: each hit is closed by [finish], the final
    [raise ValueError] by showing the tuple is not in the table. *)
Ltac walk_dispatch K finish :=
  repeat (case_decide; [subst K; rewrite decide_True by decide_by_eval; finish|]);
  rewrite decide_False; [done|]; rewrite !elem_of_cons, elem_of_nil; naive_solver.
