(* ===== verification/Percentile.v ===== *)
(** * Percentile: [faststats/numba/percentile.py]

    [get_percentile(data, keep_axes, q)] (lines 6-67) receives the kept
    axes directly and dispatches them to one of thirty loop kernels
    [numba_percentile_keep*] (lines 70-383), one per non-empty proper
    subset of the axes of a rank-5 array.  Each kernel is written with
    its loop axes and its literal subscript.  Here the kernels read
    [data[n0, q]] and call [np.percentile] with that single argument.
    The tuple [keep_axes] is a tuple of non-negative axis numbers.

    The theorems show the following.
    - The table holds exactly the non-empty proper subsets of the axes
      of a rank-5 array.
    - No call returns an array.  A tuple of the table reaches a kernel
      that numba rejects when it types the call [np.percentile(x)],
      which lacks [q].  Any other tuple raises [ValueError]. *)

From S2P Require Import Prelude Shape NumpyOps Axis Kernels FastStat KeepKernel.

(** The kept-axis tuples of the dispatch table of [get_percentile], in order. *)
Definition percentile_table : list (list nat) :=
  [[0];
   [1];
   [2];
   [3];
   [4];
   [0; 1];
   [0; 2];
   [0; 3];
   [0; 4];
   [1; 2];
   [1; 3];
   [1; 4];
   [2; 3];
   [2; 4];
   [3; 4];
   [0; 1; 2];
   [0; 1; 3];
   [0; 1; 4];
   [0; 2; 3];
   [0; 2; 4];
   [0; 3; 4];
   [1; 2; 3];
   [1; 2; 4];
   [1; 3; 4];
   [2; 3; 4];
   [0; 1; 2; 3];
   [0; 1; 2; 4];
   [0; 1; 3; 4];
   [0; 2; 3; 4];
   [1; 2; 3; 4]].

Section PercentileKernels.
Context {A : Type} `{Inhabited A} `{StatKernels A}.

(** [numba_percentile_keep0], lines 70-76 *)
Definition numba_percentile_keep0 (data : ndarray A) (q : Z) : res (ndarray A) :=
  loop_kernel K_percentile 1 [0] [SVar 0; SQ] data q.

(** [numba_percentile_keep1], lines 79-85 *)
Definition numba_percentile_keep1 (data : ndarray A) (q : Z) : res (ndarray A) :=
  loop_kernel K_percentile 1 [1] [SAll; SVar 0; SQ] data q.

(** [numba_percentile_keep2], lines 88-94 *)
Definition numba_percentile_keep2 (data : ndarray A) (q : Z) : res (ndarray A) :=
  loop_kernel K_percentile 1 [2] [SAll; SAll; SVar 0; SQ] data q.

(** [numba_percentile_keep3], lines 97-103 *)
Definition numba_percentile_keep3 (data : ndarray A) (q : Z) : res (ndarray A) :=
  loop_kernel K_percentile 1 [3] [SAll; SAll; SAll; SVar 0; SQ] data q.

(** [numba_percentile_keep4], lines 106-112 *)
Definition numba_percentile_keep4 (data : ndarray A) (q : Z) : res (ndarray A) :=
  loop_kernel K_percentile 1 [4] [SAll; SAll; SAll; SAll; SVar 0; SQ] data q.

(** [numba_percentile_keep01], lines 115-122 *)
Definition numba_percentile_keep01 (data : ndarray A) (q : Z) : res (ndarray A) :=
  loop_kernel K_percentile 1 [0; 1] [SVar 0; SVar 1; SQ] data q.

(** [numba_percentile_keep02], lines 125-132 *)
Definition numba_percentile_keep02 (data : ndarray A) (q : Z) : res (ndarray A) :=
  loop_kernel K_percentile 1 [0; 2] [SVar 0; SAll; SVar 1; SQ] data q.

(** [numba_percentile_keep03], lines 135-142 *)
Definition numba_percentile_keep03 (data : ndarray A) (q : Z) : res (ndarray A) :=
  loop_kernel K_percentile 1 [0; 3] [SVar 0; SAll; SAll; SVar 1; SQ] data q.

(** [numba_percentile_keep04], lines 145-152 *)
Definition numba_percentile_keep04 (data : ndarray A) (q : Z) : res (ndarray A) :=
  loop_kernel K_percentile 1 [0; 4] [SVar 0; SAll; SAll; SAll; SVar 1; SQ] data q.

(** [numba_percentile_keep12], lines 155-162 *)
Definition numba_percentile_keep12 (data : ndarray A) (q : Z) : res (ndarray A) :=
  loop_kernel K_percentile 1 [1; 2] [SAll; SVar 0; SVar 1; SQ] data q.

(** [numba_percentile_keep13], lines 165-172 *)
Definition numba_percentile_keep13 (data : ndarray A) (q : Z) : res (ndarray A) :=
  loop_kernel K_percentile 1 [1; 3] [SAll; SVar 0; SAll; SVar 1; SQ] data q.

(** [numba_percentile_keep14], lines 175-182 *)
Definition numba_percentile_keep14 (data : ndarray A) (q : Z) : res (ndarray A) :=
  loop_kernel K_percentile 1 [1; 4] [SAll; SVar 0; SAll; SAll; SVar 1; SQ] data q.

(** [numba_percentile_keep23], lines 185-192 *)
Definition numba_percentile_keep23 (data : ndarray A) (q : Z) : res (ndarray A) :=
  loop_kernel K_percentile 1 [2; 3] [SAll; SAll; SVar 0; SVar 1; SQ] data q.

(** [numba_percentile_keep24], lines 195-202 *)
Definition numba_percentile_keep24 (data : ndarray A) (q : Z) : res (ndarray A) :=
  loop_kernel K_percentile 1 [2; 4] [SAll; SAll; SVar 0; SAll; SVar 1; SQ] data q.

(** [numba_percentile_keep34], lines 205-212 *)
Definition numba_percentile_keep34 (data : ndarray A) (q : Z) : res (ndarray A) :=
  loop_kernel K_percentile 1 [3; 4] [SAll; SAll; SAll; SVar 0; SVar 1; SQ] data q.

(** [numba_percentile_keep012], lines 215-223 *)
Definition numba_percentile_keep012 (data : ndarray A) (q : Z) : res (ndarray A) :=
  loop_kernel K_percentile 1 [0; 1; 2] [SVar 0; SVar 1; SVar 2; SQ] data q.

(** [numba_percentile_keep013], lines 226-234 *)
Definition numba_percentile_keep013 (data : ndarray A) (q : Z) : res (ndarray A) :=
  loop_kernel K_percentile 1 [0; 1; 3] [SVar 0; SVar 1; SAll; SVar 2; SQ] data q.

(** [numba_percentile_keep014], lines 237-245 *)
Definition numba_percentile_keep014 (data : ndarray A) (q : Z) : res (ndarray A) :=
  loop_kernel K_percentile 1 [0; 1; 4] [SVar 0; SVar 1; SAll; SAll; SVar 2; SQ] data q.

(** [numba_percentile_keep023], lines 248-256 *)
Definition numba_percentile_keep023 (data : ndarray A) (q : Z) : res (ndarray A) :=
  loop_kernel K_percentile 1 [0; 2; 3] [SVar 0; SAll; SVar 1; SVar 2; SQ] data q.

(** [numba_percentile_keep024], lines 259-267 *)
Definition numba_percentile_keep024 (data : ndarray A) (q : Z) : res (ndarray A) :=
  loop_kernel K_percentile 1 [0; 2; 4] [SVar 0; SAll; SVar 1; SAll; SVar 2; SQ] data q.

(** [numba_percentile_keep034], lines 270-278 *)
Definition numba_percentile_keep034 (data : ndarray A) (q : Z) : res (ndarray A) :=
  loop_kernel K_percentile 1 [0; 3; 4] [SVar 0; SAll; SAll; SVar 1; SVar 2; SQ] data q.

(** [numba_percentile_keep123], lines 281-289 *)
Definition numba_percentile_keep123 (data : ndarray A) (q : Z) : res (ndarray A) :=
  loop_kernel K_percentile 1 [1; 2; 3] [SAll; SVar 0; SVar 1; SVar 2; SQ] data q.

(** [numba_percentile_keep124], lines 292-300 *)
Definition numba_percentile_keep124 (data : ndarray A) (q : Z) : res (ndarray A) :=
  loop_kernel K_percentile 1 [1; 2; 4] [SAll; SVar 0; SVar 1; SAll; SVar 2; SQ] data q.

(** [numba_percentile_keep134], lines 303-311 *)
Definition numba_percentile_keep134 (data : ndarray A) (q : Z) : res (ndarray A) :=
  loop_kernel K_percentile 1 [1; 3; 4] [SAll; SVar 0; SAll; SVar 1; SVar 2; SQ] data q.

(** [numba_percentile_keep234], lines 314-322 *)
Definition numba_percentile_keep234 (data : ndarray A) (q : Z) : res (ndarray A) :=
  loop_kernel K_percentile 1 [2; 3; 4] [SAll; SAll; SVar 0; SVar 1; SVar 2; SQ] data q.

(** [numba_percentile_keep0123], lines 325-334 *)
Definition numba_percentile_keep0123 (data : ndarray A) (q : Z) : res (ndarray A) :=
  loop_kernel K_percentile 1 [0; 1; 2; 3] [SVar 0; SVar 1; SVar 2; SVar 3; SQ] data q.

(** [numba_percentile_keep0124], lines 337-346 *)
Definition numba_percentile_keep0124 (data : ndarray A) (q : Z) : res (ndarray A) :=
  loop_kernel K_percentile 1 [0; 1; 2; 4] [SVar 0; SVar 1; SVar 2; SAll; SVar 3; SQ] data q.

(** [numba_percentile_keep0134], lines 349-358 *)
Definition numba_percentile_keep0134 (data : ndarray A) (q : Z) : res (ndarray A) :=
  loop_kernel K_percentile 1 [0; 1; 3; 4] [SVar 0; SVar 1; SAll; SVar 2; SVar 3; SQ] data q.

(** [numba_percentile_keep0234], lines 361-370 *)
Definition numba_percentile_keep0234 (data : ndarray A) (q : Z) : res (ndarray A) :=
  loop_kernel K_percentile 1 [0; 2; 3; 4] [SVar 0; SAll; SVar 1; SVar 2; SVar 3; SQ] data q.

(** [numba_percentile_keep1234], lines 373-382 *)
Definition numba_percentile_keep1234 (data : ndarray A) (q : Z) : res (ndarray A) :=
  loop_kernel K_percentile 1 [1; 2; 3; 4] [SAll; SVar 0; SVar 1; SVar 2; SVar 3; SQ] data q.

(** [get_percentile(data, keep_axes, q)], lines 6-67 *)
Definition get_percentile (data : ndarray A) (keep_axes : list nat) (q : Z) : res (ndarray A) :=
  if decide (keep_axes = [0]) then numba_percentile_keep0 data q else
  if decide (keep_axes = [1]) then numba_percentile_keep1 data q else
  if decide (keep_axes = [2]) then numba_percentile_keep2 data q else
  if decide (keep_axes = [3]) then numba_percentile_keep3 data q else
  if decide (keep_axes = [4]) then numba_percentile_keep4 data q else
  if decide (keep_axes = [0; 1]) then numba_percentile_keep01 data q else
  if decide (keep_axes = [0; 2]) then numba_percentile_keep02 data q else
  if decide (keep_axes = [0; 3]) then numba_percentile_keep03 data q else
  if decide (keep_axes = [0; 4]) then numba_percentile_keep04 data q else
  if decide (keep_axes = [1; 2]) then numba_percentile_keep12 data q else
  if decide (keep_axes = [1; 3]) then numba_percentile_keep13 data q else
  if decide (keep_axes = [1; 4]) then numba_percentile_keep14 data q else
  if decide (keep_axes = [2; 3]) then numba_percentile_keep23 data q else
  if decide (keep_axes = [2; 4]) then numba_percentile_keep24 data q else
  if decide (keep_axes = [3; 4]) then numba_percentile_keep34 data q else
  if decide (keep_axes = [0; 1; 2]) then numba_percentile_keep012 data q else
  if decide (keep_axes = [0; 1; 3]) then numba_percentile_keep013 data q else
  if decide (keep_axes = [0; 1; 4]) then numba_percentile_keep014 data q else
  if decide (keep_axes = [0; 2; 3]) then numba_percentile_keep023 data q else
  if decide (keep_axes = [0; 2; 4]) then numba_percentile_keep024 data q else
  if decide (keep_axes = [0; 3; 4]) then numba_percentile_keep034 data q else
  if decide (keep_axes = [1; 2; 3]) then numba_percentile_keep123 data q else
  if decide (keep_axes = [1; 2; 4]) then numba_percentile_keep124 data q else
  if decide (keep_axes = [1; 3; 4]) then numba_percentile_keep134 data q else
  if decide (keep_axes = [2; 3; 4]) then numba_percentile_keep234 data q else
  if decide (keep_axes = [0; 1; 2; 3]) then numba_percentile_keep0123 data q else
  if decide (keep_axes = [0; 1; 2; 4]) then numba_percentile_keep0124 data q else
  if decide (keep_axes = [0; 1; 3; 4]) then numba_percentile_keep0134 data q else
  if decide (keep_axes = [0; 2; 3; 4]) then numba_percentile_keep0234 data q else
  if decide (keep_axes = [1; 2; 3; 4]) then numba_percentile_keep1234 data q else
  Err ValueError.

End PercentileKernels.

Section PercentileProofs.
Context {A : Type} `{Inhabited A} `{StatKernels A}.

(** C8.  [get_percentile] never returns an array.  A tuple of its
    table reaches a kernel that numba rejects when it types
    [np.percentile(data[..., q])], a call without [q]; any other tuple
    raises [ValueError]. *)
Theorem get_percentile_error (data : ndarray A) keep_axes q :
  get_percentile data keep_axes q =
  Err (if decide (keep_axes ∈ percentile_table) then TypingError else ValueError).
Proof.
  unfold get_percentile, percentile_table.
  walk_dispatch keep_axes ltac:(apply loop_kernel_arity; discriminate).
Qed.

End PercentileProofs.

(** C15.  The dispatch table of [get_percentile] lists every non-empty
    proper subset of the axes of a rank-5 array, as a strictly
    increasing tuple. *)
Theorem percentile_table_complete K :
  StronglySorted lt K -> Forall (fun d => d < 5) K -> K <> [] -> K <> seq 0 5 ->
  K ∈ percentile_table.
Proof.
  intros Hs HK Hne Hall.
  assert (Hin : K ∈ subseqs (seq 0 5)).
  { apply subseqs_sorted; [done|]. eapply Forall_impl; [exact HK|]. simpl. lia. }
  assert (Henum : Forall (fun K => K = [] \/ K = seq 0 5 \/ K ∈ percentile_table)
                         (subseqs (seq 0 5))) by decide_by_eval.
  rewrite Forall_forall in Henum. destruct (Henum K Hin) as [|[|]]; naive_solver.
Qed.

#[local] Existing Instance demo_kernels.

Lemma get_percentile_error_witness :
  get_percentile arr_2_3_4 [0; 1] 50 = Err TypingError /\
  get_percentile arr_2_3_4 [0; 5] 50 = Err ValueError.
Proof. split; rewrite get_percentile_error; reflexivity. Defined.

Lemma percentile_table_complete_witness : [1; 3] ∈ percentile_table.
Proof.
  apply percentile_table_complete.
  - repeat constructor; lia.
  - repeat constructor; lia.
  - discriminate.
  - discriminate.
Defined.
