(* ===== verification/Std2.v ===== *)
(** * Std2: [faststats2/numba/std.py]

    [get_std] (lines 6-36) computes the kept axes with
    [routing.get_keep_axes] and dispatches them to one of fourteen loop
    kernels [numba_std_keep*] (lines 38-187).  Each kernel is written
    with its loop axes and its literal subscript, as in the source.
    Any other kept-axis tuple raises [ValueError].

    The theorems show the following.
    - The dispatcher calls the canonical loop kernel of the kept axes
      exactly when they are in its table.
    - Every supported kernel computes the reference reduction, so
      [get_std] gives the same result as the generic engine
      [faststat(..., "std", ...)].  For order-free statistics this
      holds for axis tuples in any order.
    - The table misses some kept-axis sets of a rank-3 array.  For
      example [axis=(0, 1)] raises [ValueError], where the
      specification requires a fallback, never an error. *)

From S2P Require Import Prelude Shape NumpyOps Axis Kernels FastStat KeepKernel.

(** The kept-axis tuples of the dispatch table of [get_std], in order. *)
Definition std_table : list (list nat) :=
  [[0];
   [1];
   [0; 1];
   [0; 2];
   [1; 2];
   [0; 1; 2];
   [0; 1; 3];
   [0; 2; 3];
   [1; 2; 3];
   [0; 1; 2; 3];
   [0; 1; 2; 4];
   [0; 1; 3; 4];
   [0; 2; 3; 4];
   [1; 2; 3; 4]].

Section StdKernels.
Context {A : Type} `{Inhabited A} `{StatKernels A}.

(** [numba_std_keep0], lines 38-44 *)
Definition numba_std_keep0 (data : ndarray A) : res (ndarray A) :=
  loop_kernel K_std 1 [0] [SVar 0] data 0.

(** [numba_std_keep1], lines 47-53 *)
Definition numba_std_keep1 (data : ndarray A) : res (ndarray A) :=
  loop_kernel K_std 1 [1] [SAll; SVar 0] data 0.

(** [numba_std_keep01], lines 56-63 *)
Definition numba_std_keep01 (data : ndarray A) : res (ndarray A) :=
  loop_kernel K_std 1 [0; 1] [SVar 0; SVar 1] data 0.

(** [numba_std_keep02], lines 66-73 *)
Definition numba_std_keep02 (data : ndarray A) : res (ndarray A) :=
  loop_kernel K_std 1 [0; 2] [SVar 0; SAll; SVar 1] data 0.

(** [numba_std_keep12], lines 76-83 *)
Definition numba_std_keep12 (data : ndarray A) : res (ndarray A) :=
  loop_kernel K_std 1 [1; 2] [SAll; SVar 0; SVar 1] data 0.

(** [numba_std_keep012], lines 86-94 *)
Definition numba_std_keep012 (data : ndarray A) : res (ndarray A) :=
  loop_kernel K_std 1 [0; 1; 2] [SVar 0; SVar 1; SVar 2] data 0.

(** [numba_std_keep013], lines 97-105 *)
Definition numba_std_keep013 (data : ndarray A) : res (ndarray A) :=
  loop_kernel K_std 1 [0; 1; 3] [SVar 0; SVar 1; SAll; SVar 2] data 0.

(** [numba_std_keep023], lines 108-116 *)
Definition numba_std_keep023 (data : ndarray A) : res (ndarray A) :=
  loop_kernel K_std 1 [0; 2; 3] [SVar 0; SAll; SVar 1; SVar 2] data 0.

(** [numba_std_keep123], lines 119-127 *)
Definition numba_std_keep123 (data : ndarray A) : res (ndarray A) :=
  loop_kernel K_std 1 [1; 2; 3] [SAll; SVar 0; SVar 1; SVar 2] data 0.

(** [numba_std_keep0123], lines 130-139 *)
Definition numba_std_keep0123 (data : ndarray A) : res (ndarray A) :=
  loop_kernel K_std 1 [0; 1; 2; 3] [SVar 0; SVar 1; SVar 2; SVar 3] data 0.

(** [numba_std_keep0124], lines 142-151 *)
Definition numba_std_keep0124 (data : ndarray A) : res (ndarray A) :=
  loop_kernel K_std 1 [0; 1; 2; 4] [SVar 0; SVar 1; SVar 2; SAll; SVar 3] data 0.

(** [numba_std_keep0134], lines 154-163 *)
Definition numba_std_keep0134 (data : ndarray A) : res (ndarray A) :=
  loop_kernel K_std 1 [0; 1; 3; 4] [SVar 0; SVar 1; SAll; SVar 2; SVar 3] data 0.

(** [numba_std_keep0234], lines 166-175 *)
Definition numba_std_keep0234 (data : ndarray A) : res (ndarray A) :=
  loop_kernel K_std 1 [0; 2; 3; 4] [SVar 0; SAll; SVar 1; SVar 2; SVar 3] data 0.

(** [numba_std_keep1234], lines 178-187 *)
Definition numba_std_keep1234 (data : ndarray A) : res (ndarray A) :=
  loop_kernel K_std 1 [1; 2; 3; 4] [SAll; SVar 0; SVar 1; SVar 2; SVar 3] data 0.

(** [get_std(data, axis)], lines 6-36 *)
Definition get_std (data : ndarray A) (axis : axis_arg) : res (ndarray A) :=
  kept <- get_keep_axes axis (ndim data) ;;
  if decide (kept = [0]) then numba_std_keep0 data else
  if decide (kept = [1]) then numba_std_keep1 data else
  if decide (kept = [0; 1]) then numba_std_keep01 data else
  if decide (kept = [0; 2]) then numba_std_keep02 data else
  if decide (kept = [1; 2]) then numba_std_keep12 data else
  if decide (kept = [0; 1; 2]) then numba_std_keep012 data else
  if decide (kept = [0; 1; 3]) then numba_std_keep013 data else
  if decide (kept = [0; 2; 3]) then numba_std_keep023 data else
  if decide (kept = [1; 2; 3]) then numba_std_keep123 data else
  if decide (kept = [0; 1; 2; 3]) then numba_std_keep0123 data else
  if decide (kept = [0; 1; 2; 4]) then numba_std_keep0124 data else
  if decide (kept = [0; 1; 3; 4]) then numba_std_keep0134 data else
  if decide (kept = [0; 2; 3; 4]) then numba_std_keep0234 data else
  if decide (kept = [1; 2; 3; 4]) then numba_std_keep1234 data else
  Err ValueError.

End StdKernels.

#[local] Existing Instance demo_kernels.

Section StdProofs.
Context {A : Type} `{Inhabited A} `{StatKernels A}.

(** [get_std] runs the canonical loop kernel of the kept axes when they
    are in its table, and raises [ValueError] otherwise. *)
Lemma get_std_dispatch (data : ndarray A) axis K :
  get_keep_axes axis (ndim data) = Ok K ->
  get_std data axis =
  if decide (K ∈ std_table) then loop_kernel K_std 1 K (canon_sub K) data 0 else Err ValueError.
Proof.
  intros HK. unfold get_std, std_table. rewrite HK. simpl.
  walk_dispatch K ltac:(reflexivity).
Qed.


(** On a table entry, [get_std] computes the reference reduction over
    the complement of the kept axes. *)
Lemma std_table_nonempty K : K ∈ std_table -> K <> [].
Proof. intros Hin ->. revert Hin. decide_by_eval. Qed.

Lemma get_std_canon (data : ndarray A) axis K :
  get_keep_axes axis (ndim data) = Ok K -> K ∈ std_table ->
  get_std data axis =
  Ok (mkArr (map (fun k => shape data !!! k) K)
            (reference_reduce K_std None data (keep_axes K (ndim data)))).
Proof.
  intros HK Hin. rewrite (get_std_dispatch _ _ _ HK), decide_True by done.
  destruct (get_keep_axes_Ok _ _ _ HK) as [Hs Hlt].
  apply loop_kernel_canon; [done|done|].
  exact (proj2 (Stdlib.Lists.List.list_max_lt _ (std_table_nonempty K Hin)) Hlt).
Qed.

(** C6.  The specialised kernel [faststats2.numba.std.get_std] agrees
    with the engine [faststat(data, "std", axis)] whenever the kept axes
    are one of the fourteen tuples it was generated for: both compute
    the standard deviation of each group of the reference reduction,
    laid out over the kept axes in row-major order. *)
Theorem get_std_faststat (data : ndarray A) axis ax :
  axis <> AxNone -> axis_list axis (ndim data) = Ok ax -> ax <> [] ->
  StronglySorted lt ax -> Forall (fun d => 0 < shape data !!! d) ax ->
  keep_axes ax (ndim data) ∈ std_table ->
  get_std data axis = faststat (PyArray data) "std" axis false None.
Proof.
  intros Hn Hax Hne Hs Hpos Hin.
  rewrite (faststat_reduce_ref data "std" K_std axis false None ax); try done;
    [|decide_by_eval|intros Hr; exfalso; revert Hr; decide_by_eval].
  rewrite decide_False by decide_by_eval.
  pose proof (normalize_axis_tuple_Ok _ _ _ (axis_list_Ok _ _ _ Hn Hax)) as (_ & Hlt & _).
  rewrite (get_std_canon data axis (keep_axes ax (ndim data))); [|by unfold get_keep_axes; rewrite Hax|done].
  rewrite keep_axes_keep_axes by done.
  unfold _get_result_shape. unfold ndim in Hax. by rewrite Hax.
Qed.

(** C7.  Outside its table [get_std] raises [ValueError] (the final
    [raise ValueError] of the dispatch chain), whatever the data. *)
Theorem get_std_uncovered (data : ndarray A) axis K :
  get_keep_axes axis (ndim data) = Ok K -> K ∉ std_table ->
  get_std data axis = Err ValueError.
Proof. intros HK Hin. by rewrite (get_std_dispatch _ _ _ HK), decide_False. Qed.

(** C19.  [get_std] never raises [IndexError], whatever the data and
    the axis: every kernel of its table indexes each kept axis with
    its own loop variable, so a kernel either computes its result or
    is rejected when numba types it. *)
Theorem get_std_safe (data : ndarray A) axis : get_std data axis <> Err IndexError.
Proof.
  destruct (get_keep_axes axis (ndim data)) as [K|e] eqn:HK.
  - rewrite (get_std_dispatch _ _ _ HK). case_decide as Hin; [|done].
    destruct (get_keep_axes_Ok _ _ _ HK) as [Hs _].
    destruct (loop_kernel_canon_total K_std data K 0) as [[r ->]| ->];
      [done|done|by apply std_table_nonempty|done|done].
  - unfold get_std. rewrite HK. simpl. intros [= ->].
    by destruct (get_keep_axes_Err _ _ _ HK).
Qed.

End StdProofs.

Section StdAnyOrder.
Context {A : Type} `{Inhabited A} `{StatKernels A} `{!OrderFreeStats A}.

(** C27.  For statistics that ignore the order of a group, [get_std]
    agrees with [faststat(data, "std", axis)] for an axis tuple in any
    order whose kept axes are in its table.  The specialised kernel
    reduces each group in row-major order; the engine lists it in the
    user's axis order. *)
Theorem get_std_faststat_any_order (data : ndarray A) axis ax :
  axis <> AxNone -> axis_list axis (ndim data) = Ok ax -> ax <> [] ->
  Forall (fun d => 0 < shape data !!! d) ax ->
  keep_axes ax (ndim data) ∈ std_table ->
  get_std data axis = faststat (PyArray data) "std" axis false None.
Proof.
  intros Hn Hax Hne Hpos Hin.
  rewrite (faststat_reduce_perm data "std" K_std axis false None ax); try done;
    [|decide_by_eval|intros Hr; exfalso; revert Hr; decide_by_eval].
  rewrite decide_False by decide_by_eval.
  pose proof (normalize_axis_tuple_Ok _ _ _ (axis_list_Ok _ _ _ Hn Hax)) as (_ & Hlt & _).
  rewrite (get_std_canon data axis (keep_axes ax (ndim data))); [|by unfold get_keep_axes; rewrite Hax|done].
  f_equal. f_equal.
  - unfold _get_result_shape. unfold ndim in Hax. by rewrite Hax.
  - apply reference_reduce_ext. intros d. by apply elem_of_keep_axes_twice.
Qed.

End StdAnyOrder.

Lemma get_std_faststat_witness :
  get_std arr_2_3_4 (AxTuple [1%Z; 2%Z]) = faststat (PyArray arr_2_3_4) "std" (AxTuple [1%Z; 2%Z]) false None.
Proof.
  apply (get_std_faststat arr_2_3_4 (AxTuple [1%Z; 2%Z]) [1; 2]).
  - discriminate.
  - reflexivity.
  - discriminate.
  - repeat constructor.
  - repeat constructor; vm_compute; lia.
  - decide_by_eval.
Defined.

(** Reducing the two leading axes of a rank-3 array keeps [(2,)], which
    the table lacks, while the engine accepts the call. *)
Lemma get_std_uncovered_witness :
  get_std arr_2_3_4 (AxTuple [0%Z; 1%Z]) = Err ValueError /\
  faststat (PyArray arr_2_3_4) "std" (AxTuple [0%Z; 1%Z]) false None <> Err ValueError.
Proof.
  split.
  - apply (get_std_uncovered arr_2_3_4 (AxTuple [0%Z; 1%Z]) [2]); [reflexivity|decide_by_eval].
  - vm_compute. discriminate.
Defined.

#[local] Existing Instance demo_order_free.

(** Reducing axes [(2, 1)] in that order keeps axis 0, in the table. *)
Lemma get_std_faststat_any_order_witness :
  get_std arr_2_3_4 (AxTuple [2%Z; 1%Z]) =
  faststat (PyArray arr_2_3_4) "std" (AxTuple [2%Z; 1%Z]) false None.
Proof.
  apply (get_std_faststat_any_order arr_2_3_4 (AxTuple [2%Z; 1%Z]) [2; 1]).
  - discriminate.
  - reflexivity.
  - discriminate.
  - repeat constructor; vm_compute; lia.
  - decide_by_eval.
Defined.
