(* ===== verification/NanPercentile2.v ===== *)
(** * NanPercentile2: [faststats2/numba/nanpercentile.py]

    [get_nanpercentile(data, axis, q)] (lines 6-36) computes the kept
    axes with [routing.get_keep_axes] and dispatches them to one of
    fourteen loop kernels [numba_nanpercentile_keep*] (lines 38-188).
    The table is the one of [std.py].  Each kernel reads
    [data[..., q]] and calls [np.nanpercentile] with that single
    argument.

    The theorem shows that no call returns an array.  An invalid axis
    raises its NumPy error.  A kept-axis tuple of the table reaches a
    kernel that numba rejects when typing the call, and any other
    tuple raises [ValueError]. *)

From S2P Require Import Prelude Shape NumpyOps Axis Kernels FastStat KeepKernel.

(** The kept-axis tuples of the dispatch table of [get_nanpercentile], in order. *)
Definition nanpercentile_table : list (list nat) :=
  [[0];
   [1];
   [0; 1];
   [0; 2];
   [1; 2];
   [0; 1; 2];
   [0; 1; 3];
   [0; 2; 3];
   [1; 2; 3];
   [0; 1; 2; 3];
   [0; 1; 2; 4];
   [0; 1; 3; 4];
   [0; 2; 3; 4];
   [1; 2; 3; 4]].

Section NanPercentileKernels.
Context {A : Type} `{Inhabited A} `{StatKernels A}.

(** [numba_nanpercentile_keep0], lines 38-44 *)
Definition numba_nanpercentile_keep0 (data : ndarray A) (q : Z) : res (ndarray A) :=
  loop_kernel K_nanpercentile 1 [0] [SVar 0; SQ] data q.

(** [numba_nanpercentile_keep1], lines 47-53 *)
Definition numba_nanpercentile_keep1 (data : ndarray A) (q : Z) : res (ndarray A) :=
  loop_kernel K_nanpercentile 1 [1] [SAll; SVar 0; SQ] data q.

(** [numba_nanpercentile_keep01], lines 56-63 *)
Definition numba_nanpercentile_keep01 (data : ndarray A) (q : Z) : res (ndarray A) :=
  loop_kernel K_nanpercentile 1 [0; 1] [SVar 0; SVar 1; SQ] data q.

(** [numba_nanpercentile_keep02], lines 66-73 *)
Definition numba_nanpercentile_keep02 (data : ndarray A) (q : Z) : res (ndarray A) :=
  loop_kernel K_nanpercentile 1 [0; 2] [SVar 0; SAll; SVar 1; SQ] data q.

(** [numba_nanpercentile_keep12], lines 76-83 *)
Definition numba_nanpercentile_keep12 (data : ndarray A) (q : Z) : res (ndarray A) :=
  loop_kernel K_nanpercentile 1 [1; 2] [SAll; SVar 0; SVar 1; SQ] data q.

(** [numba_nanpercentile_keep012], lines 86-94 *)
Definition numba_nanpercentile_keep012 (data : ndarray A) (q : Z) : res (ndarray A) :=
  loop_kernel K_nanpercentile 1 [0; 1; 2] [SVar 0; SVar 1; SVar 2; SQ] data q.

(** [numba_nanpercentile_keep013], lines 97-105 *)
Definition numba_nanpercentile_keep013 (data : ndarray A) (q : Z) : res (ndarray A) :=
  loop_kernel K_nanpercentile 1 [0; 1; 3] [SVar 0; SVar 1; SAll; SVar 2; SQ] data q.

(** [numba_nanpercentile_keep023], lines 108-116 *)
Definition numba_nanpercentile_keep023 (data : ndarray A) (q : Z) : res (ndarray A) :=
  loop_kernel K_nanpercentile 1 [0; 2; 3] [SVar 0; SAll; SVar 1; SVar 2; SQ] data q.

(** [numba_nanpercentile_keep123], lines 119-127 *)
Definition numba_nanpercentile_keep123 (data : ndarray A) (q : Z) : res (ndarray A) :=
  loop_kernel K_nanpercentile 1 [1; 2; 3] [SAll; SVar 0; SVar 1; SVar 2; SQ] data q.

(** [numba_nanpercentile_keep0123], lines 130-139 *)
Definition numba_nanpercentile_keep0123 (data : ndarray A) (q : Z) : res (ndarray A) :=
  loop_kernel K_nanpercentile 1 [0; 1; 2; 3] [SVar 0; SVar 1; SVar 2; SVar 3; SQ] data q.

(** [numba_nanpercentile_keep0124], lines 142-151 *)
Definition numba_nanpercentile_keep0124 (data : ndarray A) (q : Z) : res (ndarray A) :=
  loop_kernel K_nanpercentile 1 [0; 1; 2; 4] [SVar 0; SVar 1; SVar 2; SAll; SVar 3; SQ] data q.

(** [numba_nanpercentile_keep0134], lines 154-163 *)
Definition numba_nanpercentile_keep0134 (data : ndarray A) (q : Z) : res (ndarray A) :=
  loop_kernel K_nanpercentile 1 [0; 1; 3; 4] [SVar 0; SVar 1; SAll; SVar 2; SVar 3; SQ] data q.

(** [numba_nanpercentile_keep0234], lines 166-175 *)
Definition numba_nanpercentile_keep0234 (data : ndarray A) (q : Z) : res (ndarray A) :=
  loop_kernel K_nanpercentile 1 [0; 2; 3; 4] [SVar 0; SAll; SVar 1; SVar 2; SVar 3; SQ] data q.

(** [numba_nanpercentile_keep1234], lines 178-187 *)
Definition numba_nanpercentile_keep1234 (data : ndarray A) (q : Z) : res (ndarray A) :=
  loop_kernel K_nanpercentile 1 [1; 2; 3; 4] [SAll; SVar 0; SVar 1; SVar 2; SVar 3; SQ] data q.

(** [get_nanpercentile(data, axis, q)], lines 6-36 *)
Definition get_nanpercentile (data : ndarray A) (axis : axis_arg) (q : Z) : res (ndarray A) :=
  kept <- get_keep_axes axis (ndim data) ;;
  if decide (kept = [0]) then numba_nanpercentile_keep0 data q else
  if decide (kept = [1]) then numba_nanpercentile_keep1 data q else
  if decide (kept = [0; 1]) then numba_nanpercentile_keep01 data q else
  if decide (kept = [0; 2]) then numba_nanpercentile_keep02 data q else
  if decide (kept = [1; 2]) then numba_nanpercentile_keep12 data q else
  if decide (kept = [0; 1; 2]) then numba_nanpercentile_keep012 data q else
  if decide (kept = [0; 1; 3]) then numba_nanpercentile_keep013 data q else
  if decide (kept = [0; 2; 3]) then numba_nanpercentile_keep023 data q else
  if decide (kept = [1; 2; 3]) then numba_nanpercentile_keep123 data q else
  if decide (kept = [0; 1; 2; 3]) then numba_nanpercentile_keep0123 data q else
  if decide (kept = [0; 1; 2; 4]) then numba_nanpercentile_keep0124 data q else
  if decide (kept = [0; 1; 3; 4]) then numba_nanpercentile_keep0134 data q else
  if decide (kept = [0; 2; 3; 4]) then numba_nanpercentile_keep0234 data q else
  if decide (kept = [1; 2; 3; 4]) then numba_nanpercentile_keep1234 data q else
  Err ValueError.

End NanPercentileKernels.

Section NanPercentileProofs.
Context {A : Type} `{Inhabited A} `{StatKernels A}.

(** C9.  [get_nanpercentile] never returns an array: once the axis is
    valid, a kept-axis tuple of its table reaches a kernel that numba
    rejects ([np.nanpercentile] without [q]), and any other tuple
    raises [ValueError]. *)
Theorem get_nanpercentile_error (data : ndarray A) axis q K :
  get_keep_axes axis (ndim data) = Ok K ->
  get_nanpercentile data axis q =
  Err (if decide (K ∈ nanpercentile_table) then TypingError else ValueError).
Proof.
  intros HK. unfold get_nanpercentile, nanpercentile_table. rewrite HK. simpl.
  walk_dispatch K ltac:(apply loop_kernel_arity; discriminate).
Qed.

End NanPercentileProofs.

#[local] Existing Instance demo_kernels.

Lemma get_nanpercentile_error_witness :
  get_nanpercentile arr_2_3_4 (AxInt 2) 50 = Err TypingError.
Proof. rewrite (get_nanpercentile_error _ _ _ [0; 1]); reflexivity. Defined.
